(** * homie-python: the device session core of [homie/main.py]

    A shallow embedding of the [Homie] class: construction and layered
    configuration lookup, the connect/announce/subscribe callbacks, property
    publication and the signal-strength reader, together with the properties
    the specification states about them.

    Conventions.
    - Python values that flow in from the JSON configuration file or from the
      process environment are kept dynamically typed ([pyval]); conversions
      such as [int(self.qos)] are fallible and modelled as such.
    - A method is a computation in the monad [M]: it takes the object state,
      and returns either a value or a raised exception together with the
      state as mutated so far (a Python exception does not roll back).
    - The transport client [self.mqtt] is external; every call made on it is
      appended to the [trace] of the session, which is what the theorems
      observe. *)

From stdpp Require Import gmap strings list pretty.
From Stdlib Require Import ZArith Ascii.

Local Open Scope Z_scope.

(** ** Python values and exceptions *)

Inductive pyval : Type :=
| VNone
| VBool (b : bool)
| VInt (z : Z)
| VStr (s : string).

(** The exceptions the modelled code can raise.  [EnvironmentError] stands
    for the whole family caught by [except EnvironmentError] (IOError,
    OSError, socket errors).  [BaseException caller] is the one raised by
    [_checkBeforeSetup], whose message names the calling method.
    [UnicodeDecodeError] is what [bytes.decode] raises. *)
Inductive exn : Type :=
| ValueError (msg : string)
| TypeError
| IndexError
| OverflowError
| EnvironmentError
| UnicodeDecodeError
| BaseException (caller : string).

Definition is_EnvironmentError (e : exn) : bool :=
  match e with EnvironmentError => true | _ => false end.

Inductive outcome (A : Type) : Type :=
| Return (a : A)
| Raise (e : exn).
Arguments Return {A} a.
Arguments Raise {A} e.

Definition outcome_bind {A B} (o : outcome A) (f : A -> outcome B) : outcome B :=
  match o with
  | Return a => f a
  | Raise e => Raise e
  end.

(** ** Builtins: truthiness, [str], [int], [str.split], [float] *)

(** [bool(v)], as used by [if not self.host], [if self.fwname], ... *)
Definition py_truthy (v : pyval) : bool :=
  match v with
  | VNone => false
  | VBool b => b
  | VInt z => negb (z =? 0)
  | VStr s => negb (String.eqb s "")
  end.

(** [str(v)] *)
Definition py_str (v : pyval) : string :=
  match v with
  | VNone => "None"
  | VBool true => "True"
  | VBool false => "False"
  | VInt z => pretty z
  | VStr s => s
  end.

(** ["sep".join(items)]: every item has to be a string. *)
Fixpoint all_str (items : list pyval) : outcome (list string) :=
  match items with
  | [] => Return []
  | VStr s :: rest => outcome_bind (all_str rest) (fun l => Return (s :: l))
  | _ :: _ => Raise TypeError
  end.

Definition py_join (sep : string) (items : list pyval) : outcome string :=
  outcome_bind (all_str items) (fun l => Return (String.concat sep l)).

(** Whitespace of Python 3 text, restricted to the ASCII range. *)
Definition py_isspace (c : ascii) : bool :=
  let n := nat_of_ascii c in
  ((9 <=? n) && (n <=? 13) || (28 <=? n) && (n <=? 32))%nat.

Definition is_digit (c : ascii) : bool :=
  let n := nat_of_ascii c in ((48 <=? n) && (n <=? 57))%nat.

Definition digit_val (c : ascii) : Z := Z.of_nat (nat_of_ascii c) - 48.

Definition flush (cur : list ascii) : list string :=
  match cur with
  | [] => []
  | _ => [String.string_of_list_ascii (rev cur)]
  end.

Fixpoint py_split_aux (cur : list ascii) (s : string) : list string :=
  match s with
  | EmptyString => flush cur
  | String c s' =>
      if py_isspace c then flush cur ++ py_split_aux [] s'
      else py_split_aux (c :: cur) s'
  end.

(** [line.split()]: the maximal runs of non-blank characters. *)
Definition py_split (line : string) : list string := py_split_aux [] line.

(** The blanks [int] and [float] skip around a literal: tab to carriage
    return and the space, but not the separators 0x1c to 0x1f, which
    [str.split] does count as blanks. *)
Definition is_blank (c : ascii) : bool :=
  let n := nat_of_ascii c in
  ((9 <=? n) && (n <=? 13) || (n =? 32))%nat.

Fixpoint lstrip (l : list ascii) : list ascii :=
  match l with
  | c :: l' => if is_blank c then lstrip l' else l
  | [] => []
  end.

Definition strip (l : list ascii) : list ascii := rev (lstrip (rev (lstrip l))).

(** A digit part [digit (["_"] digit)*]: returns its value continued from
    [acc], the number of digits read added to [n], and the unread rest. *)
Fixpoint digitpart (acc : Z) (n : nat) (l : list ascii) : Z * nat * list ascii :=
  match l with
  | c :: l' =>
      if is_digit c then digitpart (10 * acc + digit_val c) (S n) l'
      else if (Ascii.eqb c "_" && negb (n =? 0)%nat)%bool then
        match l' with
        | d :: l'' =>
            if is_digit d then digitpart (10 * acc + digit_val d) (S n) l''
            else (acc, n, l)
        | [] => (acc, n, l)
        end
      else (acc, n, l)
  | [] => (acc, n, l)
  end.

(** An optional sign: [true] for a leading minus. *)
Definition sign (l : list ascii) : bool * list ascii :=
  match l with
  | c :: l' =>
      if Ascii.eqb c "-" then (true, l')
      else if Ascii.eqb c "+" then (false, l')
      else (false, l)
  | [] => (false, l)
  end.

Definition apply_sign (neg : bool) (z : Z) : Z := if neg then - z else z.

(** [int(s)] on text, base ten. *)
Definition int_of_str (s : string) : outcome Z :=
  let '(neg, body) := sign (strip (String.list_ascii_of_string s)) in
  match digitpart 0 0 body with
  | (z, S _, []) => Return (apply_sign neg z)
  | _ => Raise (ValueError "invalid literal for int()")
  end.

(** [int(v)] *)
Definition py_int (v : pyval) : outcome Z :=
  match v with
  | VNone => Raise TypeError
  | VBool b => Return (if b then 1 else 0)
  | VInt z => Return z
  | VStr s => int_of_str s
  end.

(** A binary64 value: [Finite neg m e] is [(-1)^neg * m * 2^e]. *)
Inductive pyfloat : Type :=
| Finite (neg : bool) (m e : Z)
| Inf (neg : bool)
| NaN.

(** Nearest integer to [a / b], ties to even, for [0 <= a] and [0 < b]. *)
Definition round_half_even (a b : Z) : Z :=
  let d := a / b in
  let r := a mod b in
  match 2 * r ?= b with
  | Lt => d
  | Gt => d + 1
  | Eq => if Z.even d then d else d + 1
  end.

(** [(p / q) / 2^k] as a fraction of integers, for either sign of [k]. *)
Definition scaled (p q k : Z) : Z * Z :=
  if 0 <=? k then (p, q * 2 ^ k) else (p * 2 ^ (- k), q).

(** The binary64 nearest to the positive rational [p / q]. *)
Definition nearest_binary64 (neg : bool) (p q : Z) : pyfloat :=
  let e0 := Z.log2 p - Z.log2 q in
  let '(a0, b0) := scaled p q e0 in
  let e := if a0 <? b0 then e0 - 1 else e0 in
  let k := Z.max (e - 52) (-1074) in
  let '(a, b) := scaled p q k in
  let m := round_half_even a b in
  if (0 <=? k) && (2 ^ 1024 <=? m * 2 ^ k) then Inf neg else Finite neg m k.

Definition lower (c : ascii) : ascii :=
  let n := nat_of_ascii c in
  if ((65 <=? n) && (n <=? 90))%nat then ascii_of_nat (n + 32) else c.

Definition exponent (l : list ascii) : option (Z * list ascii) :=
  match l with
  | c :: l' =>
      if Ascii.eqb (lower c) "e" then
        let '(neg, l'') := sign l' in
        match digitpart 0 0 l'' with
        | (z, S _, rest) => Some (apply_sign neg z, rest)
        | _ => None
        end
      else Some (0, l)
  | [] => Some (0, l)
  end.

(** [float(s)] on text: a signed decimal literal with optional fraction and
    exponent, or one of [inf], [infinity], [nan]; correctly rounded. *)
Definition float_of_str (s : string) : outcome pyfloat :=
  let bad := Raise (ValueError "could not convert string to float") in
  let '(neg, body) := sign (strip (String.list_ascii_of_string s)) in
  let word := String.string_of_list_ascii (map lower body) in
  if (String.eqb word "inf" || String.eqb word "infinity")%bool then Return (Inf neg)
  else if String.eqb word "nan" then Return NaN
  else
    let '(ip, ni, rest) := digitpart 0 0 body in
    let '(fp, nf, rest') :=
      match rest with
      | c :: r => if Ascii.eqb c "." then digitpart ip 0 r else (ip, 0%nat, rest)
      | [] => (ip, 0%nat, rest)
      end in
    if ((ni + nf =? 0)%nat)%bool then bad
    else
      match exponent rest' with
      | Some (ex, []) =>
          let e10 := ex - Z.of_nat nf in
          if fp =? 0 then Return (Finite neg 0 0)
          else if 0 <=? e10 then Return (nearest_binary64 neg (fp * 10 ^ e10) 1)
          else Return (nearest_binary64 neg fp (10 ^ (- e10)))
      | _ => bad
      end.

(** [int(x)] on a float: truncation toward zero. *)
Definition int_of_float (x : pyfloat) : outcome Z :=
  match x with
  | Finite neg m e =>
      Return (apply_sign neg (if 0 <=? e then m * 2 ^ e else m / 2 ^ (- e)))
  | Inf _ => Raise OverflowError
  | NaN => Raise (ValueError "cannot convert float NaN to integer")
  end.

(** [x - y] on binary64 values: the exact difference, rounded to nearest,
    ties to even. *)
Definition float_sub (x y : pyfloat) : pyfloat :=
  match x, y with
  | NaN, _ | _, NaN => NaN
  | Inf a, Inf b => if Bool.eqb a b then NaN else Inf a
  | Inf a, Finite _ _ _ => Inf a
  | Finite _ _ _, Inf b => Inf (negb b)
  | Finite nx mx ex, Finite ny my ey =>
      let e := Z.min ex ey in
      let d := apply_sign nx mx * 2 ^ (ex - e) - apply_sign ny my * 2 ^ (ey - e) in
      if d =? 0 then Finite false 0 0
      else if 0 <=? e then nearest_binary64 (d <? 0) (Z.abs d * 2 ^ e) 1
      else nearest_binary64 (d <? 0) (Z.abs d) (2 ^ (- e))
  end.

(** ** State-and-exception monad *)

Definition ST (S A : Type) : Type := S -> outcome A * S.

Definition ret {S A} (a : A) : ST S A := fun s => (Return a, s).

Definition bind {S A B} (c : ST S A) (f : A -> ST S B) : ST S B := fun s =>
  match c s with
  | (Return a, s') => f a s'
  | (Raise e, s') => (Raise e, s')
  end.

Declare Scope py_scope.
Delimit Scope py_scope with py.
Notation "x <- c ;; k" := (bind c (fun x => k))
  (at level 100, c at next level, k at level 200, right associativity) : py_scope.
Notation "c ;; k" := (bind c (fun _ => k))
  (at level 100, k at level 200, right associativity) : py_scope.
Local Open Scope py_scope.

Definition raise {S A} (e : exn) : ST S A := fun s => (Raise e, s).
Definition gets {S A} (f : S -> A) : ST S A := fun s => (Return (f s), s).
Definition modify {S} (f : S -> S) : ST S unit := fun s => (Return tt, f s).
Definition lift {S A} (o : outcome A) : ST S A := fun s => (o, s).

(** [try: c  except EnvironmentError as e: handler] *)
Definition try_except_EnvironmentError {S A} (c : ST S A) (handler : exn -> ST S A)
  : ST S A := fun s =>
  match c s with
  | (Raise e, s') => if is_EnvironmentError e then handler e s' else (Raise e, s')
  | r => r
  end.

(** State reached by a computation, whatever its outcome. *)
Definition exec {S A} (c : ST S A) (s : S) : S := snd (c s).

(** ** The session object *)

(** Calls made on the transport client [self.mqtt] and on the runtime
    ([time.sleep], timer start), in the order the code makes them. *)
Inductive Event : Type :=
| Will_set (topic : string) (payload : pyval) (retain : bool)
| Username_pw_set (user pass : pyval)
| Tls_set (ca : pyval)
| Connect (broker prt alive : pyval)
| Loop_start
| Loop_stop
| Disconnect
| Subscribe (subs : list (string * Z))
| Subscribe_topic (topic : string) (q : Z)
| Unsubscribe (topic : string)
| Publish (topic : string) (payload : pyval) (retain : bool) (q : Z)
| Message_callback_add (topic : string) (callback : string)
| Sleep (secs : Z)
| Timer_start (name : string).

(** The bound methods that [_initialize] installs as transport callbacks. *)
Inductive Method : Type := m_connected | m_subscribed | m_published | m_disconnected.

Record HomieMqtt : Type := {
  client_id : string;
  on_connect : option Method;
  on_subscribe : option Method;
  on_publish : option Method;
  on_disconnect : option Method
}.

Record Property : Type := {
  prop_name : string;
  prop_value : pyval;
  prop_retain : bool
}.

Record HomieNode : Type := {
  nodeId : string;
  nodeType : string;
  properties : list Property
}.

Inductive TimerCallback : Type := cb_publishUptime | cb_publishSignal.

Record HomieTimer : Type := {
  t_interval : Z;
  t_callback : TimerCallback;
  t_name : string
}.

(** The [Homie] instance.  [attrs] holds the eleven configured attributes,
    keyed as the instance dictionary keys them: the [deviceId] and
    [baseTopic] properties store under [_deviceId] and [_baseTopic].
    [trace] is the record of transport and runtime calls. *)
Record Homie : Type := mkHomie {
  attrs : gmap string pyval;
  startTime : pyfloat;
  fwname : pyval;
  fwversion : pyval;
  nodes : list HomieNode;
  timers : list HomieTimer;
  subscriptions : list (string * Z);
  subscribe_all_forced : bool;
  statsInterval : Z;
  mqtt_topic : string;
  _setupCalled : bool;
  _mqtt_connected : bool;
  _mqtt_subscribed : bool;
  mqtt : HomieMqtt;
  trace : list Event
}.

(** What a method reads from outside the object at the time it runs. *)
Record Env : Type := {
  now : pyfloat;                       (* time.time() *)
  local_ip : pyval;                    (* NetworkInformation().getLocalIp *)
  local_mac : pyval;                   (* NetworkInformation().getLocalMacForIp *)
  wireless : option (list string);     (* lines of /proc/net/wireless, if it opens *)
  connect_result : nat -> option exn   (* what the n-th mqtt.connect of a call raises *)
}.

Definition M : Type -> Type := ST Homie.

(** Attribute names under which a key of [DEFAULT_PREFS] is stored. *)
Definition slot (key : string) : string :=
  if decide (key = "deviceId") then "_deviceId"
  else if decide (key = "baseTopic") then "_baseTopic"
  else key.

(** [self.<key>]; [__init__] sets every configured attribute before use. *)
Definition getattr (d : gmap string pyval) (key : string) : pyval :=
  default VNone (d !! slot key).

Definition attr (key : string) (h : Homie) : pyval := getattr (attrs h) key.

(** Field updates. *)
Definition set_fw (n v : pyval) (h : Homie) : Homie :=
  mkHomie (attrs h) (startTime h) n v (nodes h) (timers h) (subscriptions h)
    (subscribe_all_forced h) (statsInterval h) (mqtt_topic h) (_setupCalled h)
    (_mqtt_connected h) (_mqtt_subscribed h) (mqtt h) (trace h).

Definition set_nodes (l : list HomieNode) (h : Homie) : Homie :=
  mkHomie (attrs h) (startTime h) (fwname h) (fwversion h) l (timers h) (subscriptions h)
    (subscribe_all_forced h) (statsInterval h) (mqtt_topic h) (_setupCalled h)
    (_mqtt_connected h) (_mqtt_subscribed h) (mqtt h) (trace h).

Definition set_timers (l : list HomieTimer) (h : Homie) : Homie :=
  mkHomie (attrs h) (startTime h) (fwname h) (fwversion h) (nodes h) l (subscriptions h)
    (subscribe_all_forced h) (statsInterval h) (mqtt_topic h) (_setupCalled h)
    (_mqtt_connected h) (_mqtt_subscribed h) (mqtt h) (trace h).

Definition set_subscriptions (l : list (string * Z)) (h : Homie) : Homie :=
  mkHomie (attrs h) (startTime h) (fwname h) (fwversion h) (nodes h) (timers h) l
    (subscribe_all_forced h) (statsInterval h) (mqtt_topic h) (_setupCalled h)
    (_mqtt_connected h) (_mqtt_subscribed h) (mqtt h) (trace h).

Definition set_subscribe_all_forced (b : bool) (h : Homie) : Homie :=
  mkHomie (attrs h) (startTime h) (fwname h) (fwversion h) (nodes h) (timers h)
    (subscriptions h) b (statsInterval h) (mqtt_topic h) (_setupCalled h)
    (_mqtt_connected h) (_mqtt_subscribed h) (mqtt h) (trace h).

Definition set_setupCalled (b : bool) (h : Homie) : Homie :=
  mkHomie (attrs h) (startTime h) (fwname h) (fwversion h) (nodes h) (timers h)
    (subscriptions h) (subscribe_all_forced h) (statsInterval h) (mqtt_topic h) b
    (_mqtt_connected h) (_mqtt_subscribed h) (mqtt h) (trace h).

Definition set_mqtt_connected (b : bool) (h : Homie) : Homie :=
  mkHomie (attrs h) (startTime h) (fwname h) (fwversion h) (nodes h) (timers h)
    (subscriptions h) (subscribe_all_forced h) (statsInterval h) (mqtt_topic h)
    (_setupCalled h) b (_mqtt_subscribed h) (mqtt h) (trace h).

Definition set_mqtt_subscribed (b : bool) (h : Homie) : Homie :=
  mkHomie (attrs h) (startTime h) (fwname h) (fwversion h) (nodes h) (timers h)
    (subscriptions h) (subscribe_all_forced h) (statsInterval h) (mqtt_topic h)
    (_setupCalled h) (_mqtt_connected h) b (mqtt h) (trace h).

Definition set_mqtt (m : HomieMqtt) (h : Homie) : Homie :=
  mkHomie (attrs h) (startTime h) (fwname h) (fwversion h) (nodes h) (timers h)
    (subscriptions h) (subscribe_all_forced h) (statsInterval h) (mqtt_topic h)
    (_setupCalled h) (_mqtt_connected h) (_mqtt_subscribed h) m (trace h).

Definition set_trace (t : list Event) (h : Homie) : Homie :=
  mkHomie (attrs h) (startTime h) (fwname h) (fwversion h) (nodes h) (timers h)
    (subscriptions h) (subscribe_all_forced h) (statsInterval h) (mqtt_topic h)
    (_setupCalled h) (_mqtt_connected h) (_mqtt_subscribed h) (mqtt h) t.

(** A call on the transport or the runtime: recorded at the end of the trace. *)
Definition call (ev : Event) : M unit :=
  modify (fun h => set_trace (trace h ++ [ev]) h).

Fixpoint for_each {S A} (l : list A) (body : A -> ST S unit) : ST S unit :=
  match l with
  | [] => ret tt
  | x :: rest => body x;; for_each rest body
  end.

(** ** Construction and configuration lookup *)

Definition HOMIE_VERSION : string := "2.0.1".

(** [DEFAULT_PREFS]: preference name, attribute key, built-in default. *)
Definition DEFAULT_PREFS : list (string * (string * pyval)) :=
  [ ("CA_CERTS", ("ca_certs", VNone));
    ("DEVICE_ID", ("deviceId", VStr "xxxxxxxx"));
    ("DEVICE_NAME", ("deviceName", VStr "xxxxxxxx"));
    ("HOST", ("host", VNone));
    ("KEEPALIVE", ("keepalive", VInt 60));
    ("PASSWORD", ("password", VNone));
    ("PORT", ("port", VInt 1883));
    ("QOS", ("qos", VInt 1));
    ("SUBSCRIBE_ALL", ("subscribe_all", VBool false));
    ("TOPIC", ("baseTopic", VStr "devices"));
    ("USERNAME", ("username", VNone)) ].

Definition is_lower_alnum (c : ascii) : bool :=
  let n := nat_of_ascii c in
  ((97 <=? n) && (n <=? 122) || (48 <=? n) && (n <=? 57))%nat.

(** Modelled from the spec: [homie.helpers.isIdFormat] is not among the
    sources.  Section 4.1: true iff the argument is a non-empty string
    matching [^[a-z0-9](-?[a-z0-9])*$]. *)
Fixpoint id_tail (s : string) : bool :=
  match s with
  | EmptyString => true
  | String c s' =>
      if is_lower_alnum c then id_tail s'
      else if Ascii.eqb c "-" then
        match s' with
        | String d s'' => is_lower_alnum d && id_tail s''
        | EmptyString => false
        end
      else false
  end.

Definition isIdFormat (v : pyval) : bool :=
  match v with
  | VStr (String c s') => is_lower_alnum c && id_tail s'
  | _ => false
  end.

(** What construction reads from the process: [os.environ], [time.time()],
    and the identifiers that successive calls of
    [homie.helpers.generateDeviceId] (not among the sources) return. *)
Record OS : Type := {
  environ : gmap string string;
  time : pyfloat;
  generateDeviceId : nat -> string
}.

(** Effects of construction outside the object. *)
Inductive InitEvent : Type :=
| Atexit_register
| Signal_install (signame : string)
| Generated (id : string)
| New_client (client : string).

(** The object under construction: its attribute dictionary so far, the
    number of identifiers generated, and the effects so far. *)
Record Init : Type := mkInit {
  self_dict : gmap string pyval;
  generated : nat;
  init_log : list InitEvent
}.

Definition store (key : string) (v : pyval) : ST Init unit :=
  modify (fun i => mkInit (<[key := v]> (self_dict i)) (generated i) (init_log i)).

Definition effect (ev : InitEvent) : ST Init unit :=
  modify (fun i => mkInit (self_dict i) (generated i) (init_log i ++ [ev])).

(** The [deviceId] setter: keeps a well-formed identifier, and replaces
    anything else by a generated one (with a warning). *)
Definition deviceId_setter (os : OS) (v : pyval) : ST Init unit :=
  if isIdFormat v then store "_deviceId" v
  else
    n <- gets generated;;
    let g := generateDeviceId os n in
    modify (fun i => mkInit (self_dict i) (S n) (init_log i ++ [Generated g]));;
    store "_deviceId" (VStr g).

(** [setattr(self, key, val)] / [self.key = val] *)
Definition setattr (os : OS) (key : string) (v : pyval) : ST Init unit :=
  if decide (key = "deviceId") then deviceId_setter os v
  else store (slot key) v.

(** [getenv("HOMIE_" + pref, config.get(pref, dflt))] *)
Definition lookup_pref (os : OS) (config : gmap string pyval)
    (pref : string) (dflt : pyval) : pyval :=
  match environ os !! ("HOMIE_" +:+ pref) with
  | Some s => VStr s
  | None => default dflt (config !! pref)
  end.

Definition _initAttrs (os : OS) (config : gmap string pyval) : ST Init unit :=
  for_each DEFAULT_PREFS (fun '(pref, (key, dflt)) =>
    setattr os key (lookup_pref os config pref dflt)).

Definition no_handlers (client : string) : HomieMqtt :=
  {| client_id := client; on_connect := None; on_subscribe := None;
     on_publish := None; on_disconnect := None |}.

Definition Homie__init__ (os : OS) (config : gmap string pyval) : ST Init Homie :=
  effect Atexit_register;;
  effect (Signal_install "SIGTERM");;
  effect (Signal_install "SIGHUP");;
  setattr os "deviceId" VNone;;
  setattr os "deviceName" VNone;;
  setattr os "host" VNone;;
  setattr os "port" VNone;;
  setattr os "username" VNone;;
  setattr os "password" VNone;;
  setattr os "qos" VNone;;
  setattr os "keepalive" VNone;;
  setattr os "baseTopic" VNone;;
  setattr os "ca_certs" VNone;;
  setattr os "subscribe_all" VNone;;
  _initAttrs os config;;
  d <- gets self_dict;;
  if negb (py_truthy (getattr d "host")) then raise (ValueError "No host specified.")
  else
    topic <- lift (py_join "/" [getattr d "baseTopic"; getattr d "deviceId"]);;
    let clientId := "Homie-" +:+ py_str (getattr d "deviceId") in
    effect (New_client clientId);;
    ret {| attrs := d; startTime := time os; fwname := VNone; fwversion := VNone;
            nodes := []; timers := []; subscriptions := [];
            subscribe_all_forced := false; statsInterval := 60;
            mqtt_topic := topic; _setupCalled := false;
            _mqtt_connected := false; _mqtt_subscribed := false;
            mqtt := no_handlers clientId; trace := [] |}.

Definition init0 : Init := mkInit ∅ 0 [].

(** ** Methods of the session *)

Definition topic_of (suffix : string) : M string :=
  gets (fun h => mqtt_topic h +:+ suffix).

Definition _checkBeforeSetup (caller : string) : M unit :=
  called <- gets _setupCalled;;
  if called then raise (BaseException caller) else ret tt.

(** [publish(topic, payload, retain, qos=None)]: a transport publish when
    connected, nothing otherwise. *)
Definition publish (topic : string) (payload : pyval) (retain : bool)
    (qos_arg : option Z) : M unit :=
  connected <- gets _mqtt_connected;;
  if connected then
    q <- match qos_arg with
         | None => v <- gets (attr "qos");; lift (py_int v)
         | Some q => ret q
         end;;
    call (Publish topic payload retain q)
  else ret tt.

Definition _unsubscribe (topic_arg : option string) : M unit :=
  topic <- match topic_arg with
           | Some t => if String.eqb t "" then topic_of "/#" else ret t
           | None => topic_of "/#"
           end;;
  call (Unsubscribe topic).

Definition _subscribe : M unit :=
  subs <- gets subscriptions;;
  match subs with
  | _ :: _ =>
      call (Subscribe subs);;
      forced <- gets subscribe_all_forced;;
      all <- gets (attr "subscribe_all");;
      if forced && negb (py_truthy all) then _unsubscribe None else ret tt
  | [] =>
      topic <- topic_of "/#";;
      q <- gets (attr "qos");;
      q <- lift (py_int q);;
      call (Subscribe_topic topic q);;
      modify (set_subscribe_all_forced true)
  end.

Definition publishHomieVersion : M unit :=
  topic <- topic_of "/$homie";;
  publish topic (VStr HOMIE_VERSION) true None.

Definition publishFwname : M unit :=
  name <- gets fwname;;
  let payload := py_str name in
  if py_truthy name then
    topic <- topic_of "/$fw/name";;
    publish topic (VStr payload) true None
  else ret tt.

Definition publishFwversion : M unit :=
  version <- gets fwversion;;
  let payload := py_str version in
  if py_truthy version then
    topic <- topic_of "/$fw/version";;
    publish topic (VStr payload) true None
  else ret tt.

(** Modelled from the spec: [HomieNode.sendProperties] ([homie/node.py]) is
    not among the sources.  Section 4.5: every declared property value of the
    node is published, in declaration order, retained, under
    [propertyTopic(nodeId, prop)] (section 4.2). *)
Definition sendProperties (node : HomieNode) : M unit :=
  for_each (properties node) (fun p =>
    root <- gets mqtt_topic;;
    publish (String.concat "/" [root; nodeId node; prop_name p])
      (prop_value p) true None).

Definition publishNodes : M unit :=
  ns <- gets nodes;;
  let payload := String.concat "," (map nodeId ns) in
  topic <- topic_of "/$nodes";;
  publish topic (VStr payload) true None;;
  for_each ns sendProperties.

Definition publishLocalipAndMac (env : Env) : M unit :=
  topic <- topic_of "/$localip";;
  publish topic (local_ip env) true None;;
  topic <- topic_of "/$mac";;
  publish topic (local_mac env) true None.

Definition publishStatsInterval : M unit :=
  payload <- gets statsInterval;;
  topic <- topic_of "/$stats/interval";;
  publish topic (VInt payload) true None.

Definition publishUptime (env : Env) : M unit :=
  start <- gets startTime;;
  payload <- lift (int_of_float (float_sub (now env) start));;
  topic <- topic_of "/$stats/uptime";;
  publish topic (VInt payload) true None.

Definition publishImplementation : M unit :=
  topic <- topic_of "/$implementation";;
  publish topic (VStr "homie-python") true None.

(** The loop of [publishSignal] over the lines of the file: the third line
    (index 2) sets the payload, the fourth ends the loop. *)
Fixpoint scan_wireless (i : nat) (lines : list string) (payload : Z) : outcome Z :=
  match lines with
  | [] => Return payload
  | line :: rest =>
      if (i =? 2)%nat then
        let data := py_split line in
        match data !! 2%nat with
        | None => Raise IndexError
        | Some field =>
            outcome_bind (outcome_bind (float_of_str field) int_of_float)
              (fun p => scan_wireless (S i) rest p)
        end
      else if (2 <? i)%nat then Return payload
      else scan_wireless (S i) rest payload
  end.

(** The payload computed by [publishSignal]: 100 unless the file opens. *)
Definition read_signal (w : option (list string)) : outcome Z :=
  match w with
  | None => Return 100
  | Some lines => scan_wireless 0 lines 100
  end.

Definition publishSignal (env : Env) : M unit :=
  payload <- lift (read_signal (wireless env));;
  topic <- topic_of "/$stats/signal";;
  publish topic (VInt payload) true None.

Definition _connected (env : Env) : M unit :=
  modify (set_mqtt_connected true);;
  subscribed <- gets _mqtt_subscribed;;
  (if negb subscribed then _subscribe else ret tt);;
  topic <- topic_of "/$online";;
  publish topic (VStr "true") true None;;
  topic <- topic_of "/$name";;
  name <- gets (attr "deviceName");;
  publish topic name true None;;
  publishHomieVersion;;
  publishFwname;;
  publishFwversion;;
  publishNodes;;
  publishLocalipAndMac env;;
  publishStatsInterval;;
  publishUptime env;;
  publishSignal env;;
  publishImplementation.

Definition _subscribed : M unit :=
  subscribed <- gets _mqtt_subscribed;;
  if negb subscribed then modify (set_mqtt_subscribed true) else ret tt.

Definition _published : M unit := ret tt.

Definition _disconnected : M unit :=
  modify (set_mqtt_connected false);;
  modify (set_mqtt_subscribed false).

(** Modelled from the spec: the [HomieNode] constructor ([homie/node.py]) is
    not among the sources.  Section 4.3: a node starts with no declared
    property, and registering it publishes nothing. *)
Definition new_node (nid ntype : string) : HomieNode :=
  {| nodeId := nid; nodeType := ntype; properties := [] |}.

Definition Node (nid ntype : string) : M HomieNode :=
  let homieNode := new_node nid ntype in
  modify (fun h => set_nodes (nodes h ++ [homieNode]) h);;
  ret homieNode.

Definition Timer (interval : Z) (cb : TimerCallback) (name : string) : M HomieTimer :=
  let homieTimer := {| t_interval := interval; t_callback := cb; t_name := name |} in
  modify (fun h => set_timers (timers h ++ [homieTimer]) h);;
  ret homieTimer.

Definition setFirmware (name version : pyval) : M unit :=
  _checkBeforeSetup "setFirmware";;
  modify (set_fw name version).

(** [setNodeProperty(homieNode, prop, val, retain=True)]; [None] for an
    omitted [retain]. *)
Definition setNodeProperty (homieNode : HomieNode) (prop : string) (val : pyval)
    (retain_arg : option bool) : M unit :=
  root <- gets mqtt_topic;;
  let topic := String.concat "/" [root; nodeId homieNode; prop] in
  publish topic val (default true retain_arg) None.

Definition subscribe (homieNode : HomieNode) (attribute callback : string)
    (qos_arg : option Z) : M unit :=
  _checkBeforeSetup "subscribe";;
  q <- match qos_arg with
       | None => v <- gets (attr "qos");; lift (py_int v)
       | Some q => ret q
       end;;
  root <- gets mqtt_topic;;
  let subscription := String.concat "/" [root; nodeId homieNode; attribute; "set"] in
  all <- gets (attr "subscribe_all");;
  (if negb (py_truthy all) then
     modify (fun h => set_subscriptions (subscriptions h ++ [(subscription, q)]) h)
   else ret tt);;
  connected <- gets _mqtt_connected;;
  (if connected then _subscribe else ret tt);;
  call (Message_callback_add subscription callback).

Definition subscribeProperty (homieNode : HomieNode) (attribute callback : string)
    (qos_arg : option Z) : M unit :=
  _checkBeforeSetup "subscribeProperty";;
  q <- match qos_arg with
       | None => v <- gets (attr "qos");; lift (py_int v)
       | Some q => ret q
       end;;
  root <- gets mqtt_topic;;
  let subscription := String.concat "/" [root; nodeId homieNode; attribute] in
  all <- gets (attr "subscribe_all");;
  (if negb (py_truthy all) then
     modify (fun h => set_subscriptions (subscriptions h ++ [(subscription, q)]) h)
   else ret tt);;
  connected <- gets _mqtt_connected;;
  (if connected then _subscribe else ret tt);;
  call (Message_callback_add subscription callback).

(** [self.mqtt.connect(host, port, keepalive)]: the attempt is recorded, and
    raises what the environment says the [n]-th attempt raises. *)
Definition mqtt_connect (env : Env) (n : nat) : M unit :=
  h <- gets attrs;;
  call (Connect (getattr h "host") (getattr h "port") (getattr h "keepalive"));;
  match connect_result env n with
  | Some e => raise e
  | None => ret tt
  end.

Definition install_callbacks (m : HomieMqtt) : HomieMqtt :=
  {| client_id := client_id m;
     on_connect := Some m_connected;
     on_subscribe := Some m_subscribed;
     on_publish := Some m_published;
     on_disconnect := Some m_disconnected |}.

Definition _initialize (env : Env) : M unit :=
  modify (fun h => set_mqtt (install_callbacks (mqtt h)) h);;
  topic <- topic_of "/$online";;
  call (Will_set topic (VStr "false") true);;
  user <- gets (attr "username");;
  pass <- gets (attr "password");;
  (if py_truthy user then call (Username_pw_set user pass) else ret tt);;
  ca <- gets (attr "ca_certs");;
  (if py_truthy ca then call (Tls_set ca) else ret tt);;
  try_except_EnvironmentError (mqtt_connect env 0) (fun e =>
    let sleepSecs := 10 in
    call (Sleep sleepSecs);;
    mqtt_connect env 1);;
  call Loop_start.

Definition setup (env : Env) : M unit :=
  modify (set_setupCalled true);;
  _initialize env;;
  interval <- gets statsInterval;;
  uptimeTimer <- Timer interval cb_publishUptime "uptimeTimer";;
  interval <- gets statsInterval;;
  signalTimer <- Timer interval cb_publishSignal "signalTimer";;
  call (Timer_start (t_name uptimeTimer));;
  call (Timer_start (t_name signalTimer)).

Definition _exitus : M unit :=
  topic <- topic_of "/$online";;
  publish topic (VStr "false") true None;;
  call Loop_stop;;
  call Disconnect.

(** ** The session as a transition system *)

(** What the transport reports back on its worker thread. *)
Inductive TransportEvent : Type := Connected | Subscribed | Published | Disconnected.

Definition run_method (m : Method) (env : Env) : M unit :=
  match m with
  | m_connected => _connected env
  | m_subscribed => _subscribed
  | m_published => _published
  | m_disconnected => _disconnected
  end.

(** The transport invokes whichever callback is installed for the event,
    and none if [_initialize] has not installed any yet. *)
Definition deliver (ev : TransportEvent) (env : Env) : M unit :=
  m <- gets mqtt;;
  let handler := match ev with
                 | Connected => on_connect m
                 | Subscribed => on_subscribe m
                 | Published => on_publish m
                 | Disconnected => on_disconnect m
                 end in
  match handler with
  | Some method => run_method method env
  | None => ret tt
  end.

(** Everything that can happen to a constructed session: a call of the
    public interface, a timer firing, a transport event, or the exit hook
    that [__init__] registers with [atexit] (and that therefore also runs
    after [SIGTERM] and [SIGHUP], whose handlers raise [SystemExit]). *)
Inductive Action : Type :=
| A_Node (nid ntype : string)
| A_setFirmware (name version : pyval)
| A_subscribe (node : HomieNode) (attribute callback : string) (qos_arg : option Z)
| A_subscribeProperty (node : HomieNode) (attribute callback : string) (qos_arg : option Z)
| A_setNodeProperty (node : HomieNode) (prop : string) (val : pyval) (retain_arg : option bool)
| A_publish (topic : string) (payload : pyval) (retain : bool) (qos_arg : option Z)
| A_setup
| A_timer (cb : TimerCallback)
| A_transport (ev : TransportEvent)
| A_exit.

Definition perform (a : Action) (env : Env) : M unit :=
  match a with
  | A_Node nid ntype => _ <- Node nid ntype;; ret tt
  | A_setFirmware name version => setFirmware name version
  | A_subscribe node attribute callback qos_arg =>
      subscribe node attribute callback qos_arg
  | A_subscribeProperty node attribute callback qos_arg =>
      subscribeProperty node attribute callback qos_arg
  | A_setNodeProperty node prop val retain_arg =>
      setNodeProperty node prop val retain_arg
  | A_publish topic payload retain qos_arg => publish topic payload retain qos_arg
  | A_setup => setup env
  | A_timer cb_publishUptime => publishUptime env
  | A_timer cb_publishSignal => publishSignal env
  | A_transport ev => deliver ev env
  | A_exit => _exitus
  end.

(** States a session passes through from its construction on. *)
Inductive reachable : Homie -> Prop :=
| reachable_init os config h i :
    Homie__init__ os config init0 = (Return h, i) -> reachable h
| reachable_step h a env :
    reachable h -> reachable (exec (perform a env) h).

(** ** Expected traces *)

(** The state after the calls [evs] have been made. *)
Definition emit (evs : list Event) (h : Homie) : Homie :=
  set_trace (trace h ++ evs) h.

(** The part of the trace a computation adds. *)
Definition added (h h' : Homie) : list Event := drop (length (trace h)) (trace h').

(** The publish sequence of [_connected], everything after the subscription
    step, as one computation. *)
Definition announce (env : Env) : M unit :=
  topic <- topic_of "/$online";;
  publish topic (VStr "true") true None;;
  topic <- topic_of "/$name";;
  name <- gets (attr "deviceName");;
  publish topic name true None;;
  publishHomieVersion;;
  publishFwname;;
  publishFwversion;;
  publishNodes;;
  publishLocalipAndMac env;;
  publishStatsInterval;;
  publishUptime env;;
  publishSignal env;;
  publishImplementation.

(** What the subscription sequence sends, for a default quality of service [q]. *)
Definition subscription_sequence (h : Homie) (q : Z) : list Event :=
  match subscriptions h with
  | [] => [Subscribe_topic (mqtt_topic h +:+ "/#") q]
  | _ :: _ =>
      Subscribe (subscriptions h) ::
      (if subscribe_all_forced h && negb (py_truthy (attr "subscribe_all" h))
       then [Unsubscribe (mqtt_topic h +:+ "/#")] else [])
  end.

(** A retained publish under the device root. *)
Definition pub (h : Homie) (q : Z) (suffix : string) (payload : pyval) : Event :=
  Publish (mqtt_topic h +:+ suffix) payload true q.

Definition node_announcements (h : Homie) (q : Z) (node : HomieNode) : list Event :=
  map (fun p => Publish (String.concat "/" [mqtt_topic h; nodeId node; prop_name p])
                  (prop_value p) true q)
      (properties node).

(** Property values: nodes in registration order, and within a node the
    properties in declaration order. *)
Definition property_announcements (h : Homie) (q : Z) : list Event :=
  flat_map (node_announcements h q) (nodes h).

Definition identity_announcements (h : Homie) (q : Z) : list Event :=
  [pub h q "/$name" (attr "deviceName" h); pub h q "/$homie" (VStr HOMIE_VERSION)]
  ++ (if py_truthy (fwname h) then [pub h q "/$fw/name" (VStr (py_str (fwname h)))] else [])
  ++ (if py_truthy (fwversion h)
      then [pub h q "/$fw/version" (VStr (py_str (fwversion h)))] else []).

(** [int(time.time() - self.startTime)], the payload of [$stats/uptime]. *)
Definition uptime (env : Env) (h : Homie) : outcome Z :=
  int_of_float (float_sub (now env) (startTime h)).

Definition stats_announcements (h : Homie) (env : Env) (q u s : Z) : list Event :=
  [pub h q "/$localip" (local_ip env);
   pub h q "/$mac" (local_mac env);
   pub h q "/$stats/interval" (VInt (statsInterval h));
   pub h q "/$stats/uptime" (VInt u);
   pub h q "/$stats/signal" (VInt s);
   pub h q "/$implementation" (VStr "homie-python")].

(** The announcement, in the order the specification lists it. *)
Definition announcement (h : Homie) (env : Env) (q u s : Z) : list Event :=
  [pub h q "/$online" (VStr "true")]
  ++ identity_announcements h q
  ++ [pub h q "/$nodes" (VStr (String.concat "," (map nodeId (nodes h))))]
  ++ property_announcements h q
  ++ stats_announcements h env q u s.

(** The announcement as far as it gets when the uptime cannot be computed,
    and as far as it gets when the signal cannot be read. *)
Definition announcement_before_uptime (h : Homie) (env : Env) (q : Z) : list Event :=
  [pub h q "/$online" (VStr "true")]
  ++ identity_announcements h q
  ++ [pub h q "/$nodes" (VStr (String.concat "," (map nodeId (nodes h))))]
  ++ property_announcements h q
  ++ [pub h q "/$localip" (local_ip env);
      pub h q "/$mac" (local_mac env);
      pub h q "/$stats/interval" (VInt (statsInterval h))].

Definition announcement_before_signal (h : Homie) (env : Env) (q u : Z) : list Event :=
  announcement_before_uptime h env q ++ [pub h q "/$stats/uptime" (VInt u)].

(** How the announcement ends: normally, or with the error of the uptime
    computation or of the signal reader. *)
Definition announce_result (h : Homie) (env : Env) : outcome unit :=
  match uptime env h with
  | Raise e => Raise e
  | Return _ =>
      match read_signal (wireless env) with
      | Raise e => Raise e
      | Return _ => Return tt
      end
  end.

(** What it has published by then, at the quality of service [q]. *)
Definition announce_sent (h : Homie) (env : Env) (q : Z) : list Event :=
  match uptime env h with
  | Raise _ => announcement_before_uptime h env q
  | Return u =>
      match read_signal (wireless env) with
      | Raise _ => announcement_before_signal h env q u
      | Return s => announcement h env q u s
      end
  end.

Definition is_retained (ev : Event) : bool :=
  match ev with
  | Publish _ _ retain _ => retain
  | _ => false
  end.

(** Topic and retain flag of the publishes of a trace, in order. *)
Definition publishes (evs : list Event) : list (string * bool) :=
  omap (fun ev => match ev with
                  | Publish topic _ retain _ => Some (topic, retain)
                  | _ => None
                  end) evs.

(** A session on which publishing goes through with quality of service [q]. *)
Definition ready (q : Z) (h : Homie) : Prop :=
  _mqtt_connected h = true /\ py_int (attr "qos" h) = Return q.

(** ** Footprints and invariants *)

(** A computation relates every start state to its end state by [R],
    whether it returns or raises. *)
Definition preserved {A} (R : Homie -> Homie -> Prop) (c : M A) : Prop :=
  forall h, R h (exec c h).

(** Nothing but the trace differs. *)
Definition only_trace (h h' : Homie) : Prop := exists t, h' = set_trace t h.

(** What no method undoes: the configuration and the topic root stay the
    same, and once [setup] has been called it stays called. *)
Definition frame (h h' : Homie) : Prop :=
  attrs h' = attrs h /\ mqtt_topic h' = mqtt_topic h /\
  (_setupCalled h = true -> _setupCalled h' = true).

Definition no_callbacks (m : HomieMqtt) : Prop :=
  on_connect m = None /\ on_subscribe m = None /\
  on_publish m = None /\ on_disconnect m = None.

(** Before [setup], the session is disconnected, has never run the
    subscription sequence, and the transport has no callback to invoke. *)
Definition dormant (h : Homie) : Prop :=
  _mqtt_connected h = false /\ subscribe_all_forced h = false /\ no_callbacks (mqtt h).

Definition lifecycle_inv (h : Homie) : Prop :=
  _setupCalled h = false -> dormant h.

(** The topic root is [baseTopic/deviceId], as computed at construction. *)
Definition rooted (h : Homie) : Prop :=
  exists base dev,
    attr "baseTopic" h = VStr base /\ attr "deviceId" h = VStr dev /\
    mqtt_topic h = String.concat "/" [base; dev].

(** ** Configuration lookup as the specification words it *)

(** The claim's reading of the file layer: the value stored under the
    option's own key ([host], [deviceId], [baseTopic], ...). *)
Definition resolved_by_option_key (os : OS) (config : gmap string pyval)
    (pref key : string) (dflt : pyval) : pyval :=
  match environ os !! ("HOMIE_" +:+ pref) with
  | Some s => VStr s
  | None => default dflt (config !! key)
  end.

(** The dictionary [_initAttrs] leaves, given the identifier [dev] that the
    [deviceId] setter stored. *)
Definition resolved_dict (os : OS) (config : gmap string pyval) (dev : pyval)
    (d : gmap string pyval) : gmap string pyval :=
  <["username" := lookup_pref os config "USERNAME" VNone]>
  (<["_baseTopic" := lookup_pref os config "TOPIC" (VStr "devices")]>
  (<["subscribe_all" := lookup_pref os config "SUBSCRIBE_ALL" (VBool false)]>
  (<["qos" := lookup_pref os config "QOS" (VInt 1)]>
  (<["port" := lookup_pref os config "PORT" (VInt 1883)]>
  (<["password" := lookup_pref os config "PASSWORD" VNone]>
  (<["keepalive" := lookup_pref os config "KEEPALIVE" (VInt 60)]>
  (<["host" := lookup_pref os config "HOST" VNone]>
  (<["deviceName" := lookup_pref os config "DEVICE_NAME" (VStr "xxxxxxxx")]>
  (<["_deviceId" := dev]>
  (<["ca_certs" := lookup_pref os config "CA_CERTS" VNone]> d)))))))))).

(** The identifier the [deviceId] setter keeps for the value [v], when the
    generator has been called [n] times before. *)
Definition validated (os : OS) (n : nat) (v : pyval) : pyval :=
  if isIdFormat v then v else VStr (generateDeviceId os n).

(** The end of [__init__], from the host check on. *)
Definition finish_init (os : OS) : ST Init Homie :=
  d <- gets self_dict;;
  if negb (py_truthy (getattr d "host")) then raise (ValueError "No host specified.")
  else
    topic <- lift (py_join "/" [getattr d "baseTopic"; getattr d "deviceId"]);;
    let clientId := "Homie-" +:+ py_str (getattr d "deviceId") in
    effect (New_client clientId);;
    ret {| attrs := d; startTime := time os; fwname := VNone; fwversion := VNone;
           nodes := []; timers := []; subscriptions := [];
           subscribe_all_forced := false; statsInterval := 60;
           mqtt_topic := topic; _setupCalled := false;
           _mqtt_connected := false; _mqtt_subscribed := false;
           mqtt := no_handlers clientId; trace := [] |}.

(** The attribute dictionary after [__init__] has set every configured
    attribute to [None]; the [deviceId] setter replaced [None] by the first
    generated identifier. *)
Definition placeholder_dict (os : OS) : gmap string pyval :=
  <["subscribe_all" := VNone]>
  (<["ca_certs" := VNone]>
  (<["_baseTopic" := VNone]>
  (<["keepalive" := VNone]>
  (<["qos" := VNone]>
  (<["password" := VNone]>
  (<["username" := VNone]>
  (<["port" := VNone]>
  (<["host" := VNone]>
  (<["deviceName" := VNone]>
  (<["_deviceId" := VStr (generateDeviceId os 0)]> ∅)))))))))).

(** The object when [__init__] reaches the host check. *)
Definition configured (os : OS) (config : gmap string pyval) : Init :=
  let v := lookup_pref os config "DEVICE_ID" (VStr "xxxxxxxx") in
  mkInit (resolved_dict os config (validated os 1 v) (placeholder_dict os))
    (if isIdFormat v then 1%nat else 2%nat)
    ([Atexit_register; Signal_install "SIGTERM"; Signal_install "SIGHUP";
      Generated (generateDeviceId os 0)]
     ++ (if isIdFormat v then [] else [Generated (generateDeviceId os 1)])).

Definition is_New_client (ev : InitEvent) : bool :=
  match ev with New_client _ => true | _ => false end.

Definition is_Generated (ev : InitEvent) : bool :=
  match ev with Generated _ => true | _ => false end.

Definition is_no_host_error {A} (o : outcome A) : bool :=
  match o with
  | Raise (ValueError msg) => String.eqb msg "No host specified."
  | _ => false
  end.

(** ** A concrete device: the relay switch of [relay_switch.py] *)

Definition example_os : OS :=
  {| environ := ∅; time := Finite false 2001 (-1); generateDeviceId := fun _ => "a1b2c3d4" |}.

Definition example_config : gmap string pyval := {[ "HOST" := VStr "localhost" ]}.

(** [/proc/net/wireless] with one interface. *)
Definition example_wireless : list string :=
  ["Inter-| sta-|   Quality        |   Discarded packets";
   " face | tus | link level noise |  nwid  crypt   frag";
   " wlan0: 0000   70.  -40.  -256        0      0      0"].

Definition example_env : Env :=
  {| now := Finite false 4023 (-2); local_ip := VStr "192.168.1.7"; local_mac := VStr "b8:27:eb:00:00:01";
     wireless := Some example_wireless; connect_result := fun _ => None |}.

(** Both connect attempts refused. *)
Definition offline_env : Env :=
  {| now := Finite false 4023 (-2); local_ip := VStr "192.168.1.7"; local_mac := VStr "b8:27:eb:00:00:01";
     wireless := None; connect_result := fun _ => Some EnvironmentError |}.

Definition example_attrs : gmap string pyval :=
  resolved_dict example_os example_config (VStr "xxxxxxxx") (placeholder_dict example_os).

(** [Homie(config)] for the example configuration. *)
Definition fresh_session : Homie :=
  {| attrs := example_attrs; startTime := Finite false 2001 (-1); fwname := VNone; fwversion := VNone;
     nodes := []; timers := []; subscriptions := [];
     subscribe_all_forced := false; statsInterval := 60;
     mqtt_topic := "devices/xxxxxxxx"; _setupCalled := false;
     _mqtt_connected := false; _mqtt_subscribed := false;
     mqtt := no_handlers "Homie-xxxxxxxx"; trace := [] |}.

Definition switchNode : HomieNode :=
  {| nodeId := "switch"; nodeType := "switch";
     properties := [ {| prop_name := "on"; prop_value := VStr "false"; prop_retain := true |} ] |}.

(** The relay switch before [setup]: firmware set, one node with one
    declared property, one recorded subscription. *)
Definition example_session : Homie :=
  set_subscriptions [("devices/xxxxxxxx/switch/on/set", 1)]
    (set_nodes [switchNode] (set_fw (VStr "relay-switch") (VStr "1.0.0") fresh_session)).

(** A configuration file that uses the option's own key. *)
Definition lowercase_config : gmap string pyval := {[ "host" := VStr "broker.local" ]}.

(** The connection state, the forced-wildcard flag and the installed
    callbacks are the same. *)
Definition quiet (h h' : Homie) : Prop :=
  _mqtt_connected h' = _mqtt_connected h /\
  subscribe_all_forced h' = subscribe_all_forced h /\
  mqtt h' = mqtt h.

(** The connection flag is the same. *)
Definition same_connection (h h' : Homie) : Prop := _mqtt_connected h' = _mqtt_connected h.

(** The example device after [setup] and the transport's report of the
    connection: no subscription was recorded, so the wildcard was forced. *)
Definition forced_session : Homie :=
  exec (perform (A_transport Connected) example_env)
    (exec (perform A_setup example_env) fresh_session).

(** The example device with the connected callback invoked directly, as a
    test harness does, without [setup]. *)
Definition simulated_session : Homie := exec (_connected example_env) fresh_session.

(** [/proc/net/wireless] whose interface line stops after the status field. *)
Definition truncated_wireless : list string :=
  ["Inter-| sta-|   Quality        |   Discarded packets";
   " face | tus | link level noise |  nwid  crypt   frag";
   " wlan0: 0000"].

(** An interface line whose link field is not a number, and one whose link
    value is above one hundred. *)
Definition garbled_wireless : list string := ["h1"; "h2"; " wlan0: 0000 n/a -40. -256"].
Definition strong_wireless : list string := ["h1"; "h2"; " wlan0: 0000 250. -40. -256"].

(** The attempts of [_initialize] to reach the broker, and the waits
    between them. *)
Definition connection_attempts (evs : list Event) : list Event :=
  List.filter (fun ev => match ev with
                         | Connect _ _ _ | Sleep _ => true
                         | _ => false
                         end) evs.

Definition is_Loop_start (ev : Event) : bool :=
  match ev with Loop_start => true | _ => false end.

(** What [_initialize] sends before it connects: the last will, then the
    credentials and the certificate if configured. *)
Definition initialize_prefix (h : Homie) : list Event :=
  [Will_set (mqtt_topic h +:+ "/$online") (VStr "false") true]
  ++ (if py_truthy (attr "username" h)
      then [Username_pw_set (attr "username" h) (attr "password" h)] else [])
  ++ (if py_truthy (attr "ca_certs" h) then [Tls_set (attr "ca_certs" h)] else []).

Definition connect_event (h : Homie) : Event :=
  Connect (attr "host" h) (attr "port" h) (attr "keepalive" h).

(** Topics and retain flags of an announcement, from what the session
    holds: the root, the firmware and the nodes. *)
Definition announced (h : Homie) : list (string * bool) :=
  let top suffix := (mqtt_topic h +:+ suffix, true) in
  [top "/$online"; top "/$name"; top "/$homie"]
  ++ (if py_truthy (fwname h) then [top "/$fw/name"] else [])
  ++ (if py_truthy (fwversion h) then [top "/$fw/version"] else [])
  ++ [top "/$nodes"]
  ++ flat_map (fun n => map (fun p => (String.concat "/" [mqtt_topic h; nodeId n; prop_name p], true))
                          (properties n)) (nodes h)
  ++ [top "/$localip"; top "/$mac"; top "/$stats/interval"; top "/$stats/uptime";
      top "/$stats/signal"; top "/$implementation"].

(** The same, as far as [$stats/interval] and as far as [$stats/uptime]. *)
Definition announced_before_uptime (h : Homie) : list (string * bool) :=
  let top suffix := (mqtt_topic h +:+ suffix, true) in
  [top "/$online"; top "/$name"; top "/$homie"]
  ++ (if py_truthy (fwname h) then [top "/$fw/name"] else [])
  ++ (if py_truthy (fwversion h) then [top "/$fw/version"] else [])
  ++ [top "/$nodes"]
  ++ flat_map (fun n => map (fun p => (String.concat "/" [mqtt_topic h; nodeId n; prop_name p], true))
                          (properties n)) (nodes h)
  ++ [top "/$localip"; top "/$mac"; top "/$stats/interval"].

Definition announced_before_signal (h : Homie) : list (string * bool) :=
  announced_before_uptime h ++ [(mqtt_topic h +:+ "/$stats/uptime", true)].

(** Topics and retain flags that a connected callback publishes on the
    session [h] in the environment [env]: nothing when the quality of
    service does not convert, and otherwise the announcement as far as the
    uptime computation and the signal reader let it get. *)
Definition published_by_connected (h : Homie) (env : Env) : list (string * bool) :=
  match py_int (attr "qos" h) with
  | Raise _ => []
  | Return _ =>
      match uptime env h with
      | Raise _ => announced_before_uptime h
      | Return _ =>
          match read_signal (wireless env) with
          | Raise _ => announced_before_signal h
          | Return _ => announced h
          end
      end
  end.

(** For a call made while disconnected. *)
Definition quiet_off (h h' : Homie) : Prop := _mqtt_connected h = false -> quiet h h'.

(** ** Further observations on traces *)

(** Credentials and certificate handed to the transport. *)
Definition is_credential (ev : Event) : bool :=
  match ev with
  | Username_pw_set _ _ | Tls_set _ => true
  | _ => false
  end.

(** A broker address the transport rejects outright: [connect] raises
    [ValueError], which is not an environment-level error. *)
Definition rejecting_env : Env :=
  {| now := Finite false 4023 (-2); local_ip := VStr "192.168.1.7"; local_mac := VStr "b8:27:eb:00:00:01";
     wireless := None; connect_result := fun _ => Some (ValueError "Invalid host.") |}.

(** The two timers [setup] creates. *)
Definition stats_timers (h : Homie) : list HomieTimer :=
  [ {| t_interval := statsInterval h; t_callback := cb_publishUptime; t_name := "uptimeTimer" |};
    {| t_interval := statsInterval h; t_callback := cb_publishSignal; t_name := "signalTimer" |} ].

(** The firmware identity and the recorded subscriptions are the same. *)
Definition registration (h h' : Homie) : Prop :=
  fwname h' = fwname h /\ fwversion h' = fwversion h /\ subscriptions h' = subscriptions h.

(** Calls that send nothing to the broker: registering a message
    callback, and the [loop_stop] and [disconnect] of the exit hook. *)
Definition is_local (ev : Event) : bool :=
  match ev with
  | Message_callback_add _ _ | Loop_stop | Disconnect => true
  | _ => false
  end.

(** For a call made while disconnected: the session stays disconnected, and
    all it makes are local calls. *)
Definition registers_only (h h' : Homie) : Prop :=
  _mqtt_connected h = false ->
  _mqtt_connected h' = false /\
  exists l, trace h' = trace h ++ l /\ forallb is_local l = true.

(** The transport client and the [setup] flag are the same. *)
Definition wiring (h h' : Homie) : Prop :=
  mqtt h' = mqtt h /\ _setupCalled h' = _setupCalled h.

Definition callbacks_installed (m : HomieMqtt) : Prop :=
  on_connect m = Some m_connected /\ on_subscribe m = Some m_subscribed /\
  on_publish m = Some m_published /\ on_disconnect m = Some m_disconnected.

(** The callback [_initialize] installs for a transport event. *)
Definition method_of (ev : TransportEvent) : Method :=
  match ev with
  | Connected => m_connected
  | Subscribed => m_subscribed
  | Published => m_published
  | Disconnected => m_disconnected
  end.

Definition is_setup (a : Action) : bool :=
  match a with A_setup => true | _ => false end.


(** The quality of service of a call: the one given, or else the
    configured one converted by [int]. *)
Definition effective_qos (qos_arg : option Z) (h : Homie) : outcome Z :=
  match qos_arg with
  | Some q => Return q
  | None => py_int (attr "qos" h)
  end.

(** The session [__init__] returns for the attribute dictionary [d], the
    base topic [base] and the device identifier [dev]. *)
Definition new_session (os : OS) (d : gmap string pyval) (base dev : string) : Homie :=
  {| attrs := d; startTime := time os; fwname := VNone; fwversion := VNone;
     nodes := []; timers := []; subscriptions := [];
     subscribe_all_forced := false; statsInterval := 60;
     mqtt_topic := base +:+ "/" +:+ dev; _setupCalled := false;
     _mqtt_connected := false; _mqtt_subscribed := false;
     mqtt := no_handlers ("Homie-" +:+ dev); trace := [] |}.

Definition is_text (v : pyval) : bool :=
  match v with VStr _ => true | _ => false end.

(** A deployment configured through the environment alone. *)
Definition container_os : OS :=
  {| environ := {[ "HOMIE_HOST" := "broker"; "HOMIE_PORT" := "1884";
                   "HOMIE_SUBSCRIBE_ALL" := "false"; "HOMIE_QOS" := "2" ]};
     time := Finite false 2001 (-1); generateDeviceId := fun _ => "a1b2c3d4" |}.

Definition container_session : Homie :=
  new_session container_os
    (resolved_dict container_os ∅ (VStr "xxxxxxxx") (placeholder_dict container_os))
    "devices" "xxxxxxxx".

(** A configuration file whose base topic is a number. *)
Definition numeric_topic_config : gmap string pyval :=
  {[ "HOST" := VStr "localhost"; "TOPIC" := VInt 5 ]}.

(** ** Loading the configuration file *)

(** What [loadConfigFile] reads from the file system: the resolved path,
    the text of the file at a path (or the exception [open] raises), and the
    object [json.load] parses from a text (or the exception it raises). *)
Record FS : Type := {
  realpath : string -> string;
  open_file : string -> outcome string;
  json_load : string -> outcome (gmap string pyval)
}.

Inductive FileEvent : Type :=
| Opened (path : string)
| Closed (path : string).

(** [loadConfigFile(configFile)], over the files opened and closed so far. *)
Definition loadConfigFile (fs : FS) (configFile : string)
  : ST (list FileEvent) (gmap string pyval) :=
  let config := ∅ in
  let configFile := realpath fs configFile in
  match open_file fs configFile with
  | Raise e => if is_EnvironmentError e then ret config else raise e
  | Return text =>
      modify (fun l => l ++ [Opened configFile]);;
      (* try: config = json.load(fp)  finally: fp.close() *)
      let parsed := json_load fs text in
      modify (fun l => l ++ [Closed configFile]);;
      lift parsed
  end.

(** A file system without the configuration file, and one where it holds
    text that does not parse. *)
Definition empty_fs : FS :=
  {| realpath := fun p => "/srv/" +:+ p;
     open_file := fun _ => Raise EnvironmentError;
     json_load := fun _ => Return ∅ |}.

Definition garbled_fs : FS :=
  {| realpath := fun p => "/srv/" +:+ p;
     open_file := fun _ => Return "{";
     json_load := fun _ => Raise (ValueError "Expecting property name") |}.

(** ** The relay switch of [relay_switch.py] *)

Definition byte_in (lo hi : nat) (c : ascii) : bool :=
  let n := nat_of_ascii c in ((lo <=? n) && (n <=? hi))%nat.

(** Well-formed UTF-8: no stray or missing continuation byte, no overlong
    form, no surrogate, nothing above U+10FFFF. *)
Fixpoint valid_utf8 (b : string) : bool :=
  match b with
  | EmptyString => true
  | String c b1 =>
      if byte_in 0 127 c then valid_utf8 b1
      else
        match b1 with
        | EmptyString => false
        | String c1 b2 =>
            if byte_in 194 223 c then byte_in 128 191 c1 && valid_utf8 b2
            else
              match b2 with
              | EmptyString => false
              | String c2 b3 =>
                  if byte_in 224 239 c then
                    (if byte_in 224 224 c then byte_in 160 191 c1
                     else if byte_in 237 237 c then byte_in 128 159 c1
                     else byte_in 128 191 c1)
                    && byte_in 128 191 c2 && valid_utf8 b3
                  else
                    match b3 with
                    | EmptyString => false
                    | String c3 b4 =>
                        byte_in 240 244 c
                        && (if byte_in 240 240 c then byte_in 144 191 c1
                            else if byte_in 244 244 c then byte_in 128 143 c1
                            else byte_in 128 191 c1)
                        && byte_in 128 191 c2 && byte_in 128 191 c3 && valid_utf8 b4
                    end
              end
        end
  end.

(** [b.decode("UTF-8")]: the text, kept as its UTF-8 bytes, or
    [UnicodeDecodeError]. *)
Definition decode_utf8 (b : string) : outcome string :=
  if valid_utf8 b then Return b else Raise UnicodeDecodeError.

(** [s.lower()] on text kept as UTF-8 bytes: ASCII letters are lowered, the
    bytes of every other character are left as they are.  No character
    outside ASCII has a lower-case form made of ASCII letters of the word
    compared with below, so that comparison comes out the same. *)
Definition py_lower (s : string) : string :=
  String.string_of_list_ascii (map lower (String.list_ascii_of_string s)).

Module relay_switch.

(** The message callback, for the node [switchNode] the script registered
    and the bytes [msg.payload] of the message. *)
Definition switchOnHandler (switchNode : HomieNode) (msg_payload : string) : M unit :=
  text <- lift (decode_utf8 msg_payload);;
  let payload := py_lower text in
  if String.eqb payload "true" then
    setNodeProperty switchNode "on" (VStr "true") (Some true)
  else
    setNodeProperty switchNode "on" (VStr "false") (Some true).




End relay_switch.

(** ** The wildcard subscription over a session's life *)

Definition is_Unsubscribe (ev : Event) : bool :=
  match ev with Unsubscribe _ => true | _ => false end.

(** Where the wildcard was forced, no subscription is recorded. *)
Definition wildcard_alone (h : Homie) : Prop :=
  subscribe_all_forced h = true -> subscriptions h = [].

(** From a state where the wildcard is alone it stays alone, and no
    unsubscribe is sent. *)
Definition keeps_wildcard (h h' : Homie) : Prop :=
  wildcard_alone h ->
  wildcard_alone h' /\
  exists l, trace h' = trace h ++ l /\ forallb (fun ev => negb (is_Unsubscribe ev)) l = true.

(** ** Subscription calls *)

Definition is_subscription (ev : Event) : bool :=
  match ev with
  | Subscribe _ | Subscribe_topic _ _ | Unsubscribe _ => true
  | _ => false
  end.

(** What the subscription sequence hands to the transport on the session
    [h]: the recorded list, with the wildcard withdrawn if it was forced; or
    the wildcard, at the configured quality of service; or nothing, when the
    wildcard is due and the quality of service does not convert. *)
Definition subscription_sent (h : Homie) : list Event :=
  match subscriptions h with
  | _ :: _ =>
      Subscribe (subscriptions h) ::
      (if subscribe_all_forced h && negb (py_truthy (attr "subscribe_all" h))
       then [Unsubscribe (mqtt_topic h +:+ "/#")] else [])
  | [] =>
      match py_int (attr "qos" h) with
      | Return q => [Subscribe_topic (mqtt_topic h +:+ "/#") q]
      | Raise _ => []
      end
  end.

(** ** Sessions on which the announcement fails *)

(** The example device configured with [HOMIE_QOS=high]: a quality of
    service that is not a number. *)
Definition high_qos_os : OS :=
  {| environ := {[ "HOMIE_QOS" := "high" ]};
     time := Finite false 2001 (-1); generateDeviceId := fun _ => "a1b2c3d4" |}.

Definition high_qos_session : Homie :=
  new_session high_qos_os
    (resolved_dict high_qos_os example_config (VStr "xxxxxxxx") (placeholder_dict high_qos_os))
    "devices" "xxxxxxxx".

(** The same device with the switch node registered. *)
Definition high_qos_device : Homie := set_nodes [switchNode] high_qos_session.

(** The same device set up, with the connection reported by the transport. *)
Definition high_qos_connected : Homie :=
  exec (perform (A_transport Connected) example_env)
    (exec (perform A_setup example_env) high_qos_session).

(** An environment whose wireless file has a short interface line. *)
Definition truncated_env : Env :=
  {| now := Finite false 4023 (-2); local_ip := VStr "192.168.1.7";
     local_mac := VStr "b8:27:eb:00:00:01";
     wireless := Some truncated_wireless; connect_result := fun _ => None |}.

(** * Properties *)

(** ** Stepping through a method *)

Lemma bind_Return {S A B} (c : ST S A) (f : A -> ST S B) s a s' :
  c s = (Return a, s') -> bind c f s = f a s'.
Proof. intros E. unfold bind. rewrite E. reflexivity. Qed.

Lemma bind_Raise {S A B} (c : ST S A) (f : A -> ST S B) s e s' :
  c s = (Raise e, s') -> bind c f s = (Raise e, s').
Proof. intros E. unfold bind. rewrite E. reflexivity. Qed.

Lemma bind_modify {A} (f : Homie -> Homie) (k : unit -> M A) h :
  bind (modify f) k h = k tt (f h).
Proof. reflexivity. Qed.

Lemma bind_gets {A B} (g : Homie -> A) (k : A -> M B) h : bind (gets g) k h = k (g h) h.
Proof. reflexivity. Qed.

Lemma bind_call {A} ev (k : unit -> M A) h : bind (call ev) k h = k tt (emit [ev] h).
Proof. reflexivity. Qed.

Lemma call_run ev h : call ev h = (Return tt, emit [ev] h).
Proof. reflexivity. Qed.

Lemma emit_nil h : emit [] h = h.
Proof. destruct h. unfold emit, set_trace. simpl. rewrite app_nil_r. reflexivity. Qed.

Lemma emit_emit e1 e2 h : emit e2 (emit e1 h) = emit (e1 ++ e2) h.
Proof. unfold emit, set_trace. simpl. rewrite app_assoc. reflexivity. Qed.

Lemma trace_emit e h : trace (emit e h) = trace h ++ e.
Proof. reflexivity. Qed.

Lemma added_emit e h : added h (emit e h) = e.
Proof. unfold added. rewrite trace_emit. apply drop_app_length. Qed.

(** Two computations in sequence, each only adding calls to the trace. *)
Lemma emits_bind (c1 c2 : M unit) h e1 e2 :
  c1 h = (Return tt, emit e1 h) ->
  c2 (emit e1 h) = (Return tt, emit e2 (emit e1 h)) ->
  (c1;; c2) h = (Return tt, emit (e1 ++ e2) h).
Proof.
  intros E1 E2. rewrite (bind_Return _ _ _ _ _ E1), E2, emit_emit. reflexivity.
Qed.

Lemma ready_emit q e h : ready q h -> ready q (emit e h).
Proof. intros H. exact H. Qed.

Lemma publish_ready q topic payload retain h :
  ready q h ->
  publish topic payload retain None h = (Return tt, emit [Publish topic payload retain q] h).
Proof.
  intros [Hc Hq]. unfold publish, bind, gets, lift, attr in *.
  rewrite Hc, Hq. reflexivity.
Qed.

Lemma publish_disconnected topic payload retain qos_arg h :
  _mqtt_connected h = false ->
  publish topic payload retain qos_arg h = (Return tt, h).
Proof. intros Hc. unfold publish, bind, gets. rewrite Hc. reflexivity. Qed.

Lemma publish_suffix_ready q suffix payload h :
  ready q h ->
  (topic <- topic_of suffix;; publish topic payload true None) h
  = (Return tt, emit [pub h q suffix payload] h).
Proof. intros H. apply (publish_ready q _ _ _ h H). Qed.

(** ** The announcement *)

Lemma for_each_emits {A} (body : A -> M unit) (evs : Homie -> A -> list Event)
    (P : Homie -> Prop) :
  (forall h e, P h -> P (emit e h)) ->
  (forall h e x, evs (emit e h) x = evs h x) ->
  (forall h x, P h -> body x h = (Return tt, emit (evs h x) h)) ->
  forall l h, P h -> for_each l body h = (Return tt, emit (flat_map (evs h) l) h).
Proof.
  intros HP Hevs Hbody l. induction l as [|x l IH]; intros h Hh.
  - simpl. rewrite emit_nil. reflexivity.
  - simpl. apply emits_bind.
    + apply Hbody, Hh.
    + rewrite IH by apply HP, Hh. do 2 f_equal.
      apply flat_map_ext. intros y. apply Hevs.
Qed.

Lemma flat_map_singleton {A B} (f : A -> B) (l : list A) :
  flat_map (fun x => [f x]) l = map f l.
Proof. induction l as [|x l IH]; simpl; [reflexivity | rewrite IH; reflexivity]. Qed.

Lemma sendProperties_ready q node h :
  ready q h ->
  sendProperties node h = (Return tt, emit (node_announcements h q node) h).
Proof.
  intros H. unfold sendProperties, node_announcements.
  rewrite <- flat_map_singleton.
  apply (for_each_emits _
           (fun h p => [Publish (String.concat "/" [mqtt_topic h; nodeId node; prop_name p])
                          (prop_value p) true q]) (ready q)); try done.
  intros h' p H'. apply (publish_ready q _ _ _ h' H').
Qed.

Lemma publishNodes_ready q h :
  ready q h ->
  publishNodes h
  = (Return tt,
     emit ([pub h q "/$nodes" (VStr (String.concat "," (map nodeId (nodes h))))]
           ++ property_announcements h q) h).
Proof.
  intros H. unfold publishNodes, property_announcements.
  change (bind (gets nodes) ?f h) with (f (nodes h) h). cbv beta.
  change (bind (topic_of ?s) ?f h) with (f (mqtt_topic h +:+ s) h). cbv beta.
  apply emits_bind.
  - apply (publish_ready q _ _ _ h H).
  - exact (for_each_emits sendProperties (fun h n => node_announcements h q n) (ready q)
             (fun _ _ H' => H') (fun _ _ _ => eq_refl)
             (fun h' n H' => sendProperties_ready q n h' H') (nodes h) (emit _ h) H).
Qed.

Lemma publishFwname_ready q h :
  ready q h ->
  publishFwname h
  = (Return tt,
     emit (if py_truthy (fwname h)
           then [pub h q "/$fw/name" (VStr (py_str (fwname h)))] else []) h).
Proof.
  intros H. unfold publishFwname.
  change (bind (gets fwname) ?f h) with (f (fwname h) h). cbv beta.
  destruct (py_truthy (fwname h)).
  - apply publish_suffix_ready, H.
  - rewrite emit_nil. reflexivity.
Qed.

Lemma publishFwversion_ready q h :
  ready q h ->
  publishFwversion h
  = (Return tt,
     emit (if py_truthy (fwversion h)
           then [pub h q "/$fw/version" (VStr (py_str (fwversion h)))] else []) h).
Proof.
  intros H. unfold publishFwversion.
  change (bind (gets fwversion) ?f h) with (f (fwversion h) h). cbv beta.
  destruct (py_truthy (fwversion h)).
  - apply publish_suffix_ready, H.
  - rewrite emit_nil. reflexivity.
Qed.

Lemma publishLocalipAndMac_ready q env h :
  ready q h ->
  publishLocalipAndMac env h
  = (Return tt, emit [pub h q "/$localip" (local_ip env); pub h q "/$mac" (local_mac env)] h).
Proof.
  intros H. unfold publishLocalipAndMac.
  change (bind (topic_of ?s) ?f h) with (f (mqtt_topic h +:+ s) h). cbv beta.
  apply (emits_bind _ _ h [_] [_]).
  - apply (publish_ready q _ _ _ h H).
  - apply (publish_ready q _ _ _ (emit _ h) H).
Qed.

Lemma publishStatsInterval_ready q h :
  ready q h ->
  publishStatsInterval h
  = (Return tt, emit [pub h q "/$stats/interval" (VInt (statsInterval h))] h).
Proof. intros H. apply (publish_ready q _ _ _ h H). Qed.

Lemma publishUptime_ready q u env h :
  ready q h ->
  uptime env h = Return u ->
  publishUptime env h = (Return tt, emit [pub h q "/$stats/uptime" (VInt u)] h).
Proof.
  intros H Hu. unfold publishUptime.
  change (bind (gets startTime) ?f h) with (f (startTime h) h). cbv beta.
  unfold bind at 1, lift. unfold uptime in Hu. rewrite Hu.
  apply (publish_suffix_ready q _ _ h H).
Qed.

Lemma publishUptime_raises e env h :
  uptime env h = Raise e -> publishUptime env h = (Raise e, h).
Proof.
  intros Hu. unfold publishUptime.
  change (bind (gets startTime) ?f h) with (f (startTime h) h). cbv beta.
  unfold bind at 1, lift. unfold uptime in Hu. rewrite Hu. reflexivity.
Qed.

Lemma publishSignal_ready q s env h :
  ready q h ->
  read_signal (wireless env) = Return s ->
  publishSignal env h = (Return tt, emit [pub h q "/$stats/signal" (VInt s)] h).
Proof.
  intros H Hs. unfold publishSignal, bind at 1, lift. rewrite Hs.
  apply publish_suffix_ready, H.
Qed.

Lemma publishSignal_raises e env h :
  read_signal (wireless env) = Raise e ->
  publishSignal env h = (Raise e, h).
Proof. intros Hs. unfold publishSignal, bind, lift. rewrite Hs. reflexivity. Qed.

(** One statement that only adds calls, then the rest. *)
Lemma emits_then {A} (c : M unit) (k : M A) h e r :
  c h = (Return tt, emit e h) -> k (emit e h) = r -> (c;; k) h = r.
Proof. intros E <-. rewrite (bind_Return _ _ _ _ _ E). reflexivity. Qed.

(** The announcement up to [$stats/interval], and what is left of it. *)
Lemma announce_until_uptime q env h :
  ready q h ->
  announce env h
  = (publishUptime env;; publishSignal env;; publishImplementation)
      (emit (announcement_before_uptime h env q) h).
Proof.
  intros H.
  assert (exists L, announce env h
                    = (publishUptime env;; publishSignal env;; publishImplementation) (emit L h)
                    /\ L = announcement_before_uptime h env q)
    as (L & -> & ->); [|reflexivity].
  eexists; split.
  - unfold announce.
    change (bind (topic_of ?s) ?f h) with (f (mqtt_topic h +:+ s) h). cbv beta.
    eapply emits_then; [apply (publish_ready q); exact H|].
    change (bind (topic_of ?s) ?f ?h') with (f (mqtt_topic h' +:+ s) h'). cbv beta.
    change (bind (gets ?g) ?f ?h') with (f (g h') h'). cbv beta.
    eapply emits_then; [apply (publish_ready q); exact H|].
    eapply emits_then; [apply (publish_suffix_ready q); exact H|].
    eapply emits_then; [apply (publishFwname_ready q); exact H|].
    eapply emits_then; [apply (publishFwversion_ready q); exact H|].
    eapply emits_then; [apply (publishNodes_ready q); exact H|].
    eapply emits_then; [apply (publishLocalipAndMac_ready q); exact H|].
    eapply emits_then; [apply (publishStatsInterval_ready q); exact H|].
    rewrite !emit_emit. reflexivity.
  - unfold announcement_before_uptime, identity_announcements.
    simpl. rewrite <- !app_assoc. reflexivity.
Qed.

(** The announcement in full: it stops where the uptime cannot be
    computed or the signal cannot be read. *)
Lemma announce_run q env h :
  ready q h ->
  announce env h
  = match uptime env h with
    | Raise e => (Raise e, emit (announcement_before_uptime h env q) h)
    | Return u =>
        match read_signal (wireless env) with
        | Raise e => (Raise e, emit (announcement_before_signal h env q u) h)
        | Return s => (Return tt, emit (announcement h env q u s) h)
        end
    end.
Proof.
  intros H. rewrite (announce_until_uptime q env h H).
  set (h1 := emit (announcement_before_uptime h env q) h).
  assert (H1 : ready q h1) by exact H.
  change (uptime env h) with (uptime env h1).
  destruct (uptime env h1) as [u|e] eqn:Hu.
  - rewrite (bind_Return _ _ _ _ _ (publishUptime_ready q u env h1 H1 Hu)).
    destruct (read_signal (wireless env)) as [s|e] eqn:Hs.
    + rewrite (bind_Return _ _ _ _ _ (publishSignal_ready q s env _ (ready_emit q _ h1 H1) Hs)).
      unfold publishImplementation.
      rewrite (publish_suffix_ready q _ _ _ (H1 : ready q (emit _ (emit _ h1)))).
      subst h1. rewrite !emit_emit.
      do 2 f_equal. unfold announcement, announcement_before_uptime, stats_announcements.
      rewrite <- !app_assoc. reflexivity.
    + rewrite (bind_Raise _ _ _ _ _ (publishSignal_raises e env _ Hs)).
      subst h1. rewrite emit_emit. reflexivity.
  - apply bind_Raise, publishUptime_raises, Hu.
Qed.

Lemma announce_ready q u s env h :
  ready q h ->
  uptime env h = Return u ->
  read_signal (wireless env) = Return s ->
  announce env h = (Return tt, emit (announcement h env q u s) h).
Proof. intros H Hu Hs. rewrite (announce_run q env h H), Hu, Hs. reflexivity. Qed.

(** ** The subscription sequence *)

Lemma _subscribe_recorded h :
  subscriptions h <> [] ->
  _subscribe h
  = (Return tt,
     emit (Subscribe (subscriptions h) ::
           (if subscribe_all_forced h && negb (py_truthy (attr "subscribe_all" h))
            then [Unsubscribe (mqtt_topic h +:+ "/#")] else [])) h).
Proof.
  intros Hne. unfold _subscribe.
  change (bind (gets subscriptions) ?f h) with (f (subscriptions h) h). cbv beta.
  destruct (subscriptions h) as [|s0 subs] eqn:E; [done|].
  change (bind (call ?ev) ?f h) with (f tt (emit [ev] h)). cbv beta.
  change (bind (gets ?g) ?f ?h') with (f (g h') h'). cbv beta.
  change (bind (gets ?g) ?f ?h') with (f (g h') h'). cbv beta.
  change (subscribe_all_forced (emit ?e h)) with (subscribe_all_forced h).
  change (attr ?k (emit ?e h)) with (attr k h).
  destruct (subscribe_all_forced h && negb (py_truthy (attr "subscribe_all" h))).
  - change (_unsubscribe None ?h') with (Return tt, emit [Unsubscribe (mqtt_topic h' +:+ "/#")] h').
    rewrite emit_emit, <- E. reflexivity.
  - unfold ret. rewrite <- E. reflexivity.
Qed.

Lemma _subscribe_wildcard h q :
  subscriptions h = [] ->
  py_int (attr "qos" h) = Return q ->
  _subscribe h
  = (Return tt,
     set_subscribe_all_forced true (emit [Subscribe_topic (mqtt_topic h +:+ "/#") q] h)).
Proof.
  intros E Hq. unfold _subscribe.
  change (bind (gets subscriptions) ?f h) with (f (subscriptions h) h). cbv beta.
  rewrite E.
  change (bind (topic_of ?s) ?f h) with (f (mqtt_topic h +:+ s) h). cbv beta.
  change (bind (gets ?g) ?f h) with (f (g h) h). cbv beta.
  unfold bind at 1, lift. rewrite Hq. reflexivity.
Qed.

Lemma _subscribe_wildcard_raises h e :
  subscriptions h = [] ->
  py_int (attr "qos" h) = Raise e ->
  _subscribe h = (Raise e, h).
Proof.
  intros E Hq. unfold _subscribe.
  change (bind (gets subscriptions) ?f h) with (f (subscriptions h) h). cbv beta.
  rewrite E.
  change (bind (topic_of ?s) ?f h) with (f (mqtt_topic h +:+ s) h). cbv beta.
  change (bind (gets ?g) ?f h) with (f (g h) h). cbv beta.
  unfold bind at 1, lift. rewrite Hq. reflexivity.
Qed.

(** The state left by the subscription sequence. *)
Lemma _subscribe_ready h q :
  py_int (attr "qos" h) = Return q ->
  _subscribe h
  = (Return tt,
     set_subscribe_all_forced
       (match subscriptions h with [] => true | _ :: _ => subscribe_all_forced h end)
       (emit (subscription_sequence h q) h)).
Proof.
  intros Hq. unfold subscription_sequence.
  destruct (subscriptions h) as [|s0 subs] eqn:E.
  - apply _subscribe_wildcard; done.
  - rewrite _subscribe_recorded by (rewrite E; done). rewrite E.
    destruct h; reflexivity.
Qed.

(** C3, as the code has it: with recorded subscriptions the subscription
    sequence sends them as one batched subscribe, followed by an unsubscribe
    of the wildcard exactly when the wildcard was forced earlier and
    "subscribe all" is not configured, and nothing else.  With none recorded
    it sends one subscribe for the wildcard [deviceRoot/#], at the
    configured quality of service, and sets the forced-wildcard flag, provided
    that quality of service converts with [int]; if it does not, the sequence
    raises the conversion error, sends nothing and leaves the flag as it
    was. *)
Theorem subscription_sequence_spec (h : Homie) :
  match subscriptions h with
  | _ :: _ =>
      exists h',
        _subscribe h = (Return tt, h') /\
        trace h' = trace h ++ Subscribe (subscriptions h) ::
                     (if subscribe_all_forced h && negb (py_truthy (attr "subscribe_all" h))
                      then [Unsubscribe (mqtt_topic h +:+ "/#")] else []) /\
        subscribe_all_forced h' = subscribe_all_forced h
  | [] =>
      match py_int (attr "qos" h) with
      | Return q =>
          exists h',
            _subscribe h = (Return tt, h') /\
            trace h' = trace h ++ [Subscribe_topic (mqtt_topic h +:+ "/#") q] /\
            subscribe_all_forced h' = true
      | Raise e => _subscribe h = (Raise e, h)
      end
  end.
Proof.
  destruct (subscriptions h) as [|s0 subs] eqn:E.
  - destruct (py_int (attr "qos" h)) as [q|e] eqn:Hq.
    + eexists. split; [apply _subscribe_wildcard; eassumption|]. split; reflexivity.
    + apply _subscribe_wildcard_raises; assumption.
  - eexists. split; [apply _subscribe_recorded; rewrite E; done|].
    rewrite E. split; reflexivity.
Qed.

Lemma subscription_sequence_spec_witness :
  (exists h', _subscribe example_session = (Return tt, h') /\
     trace h' = [Subscribe [("devices/xxxxxxxx/switch/on/set", 1)]]) /\
  (exists h', _subscribe fresh_session = (Return tt, h') /\
     trace h' = [Subscribe_topic "devices/xxxxxxxx/#" 1] /\
     subscribe_all_forced h' = true).
Proof.
  split.
  - destruct (subscription_sequence_spec example_session) as (h' & Hrun & Ht & _).
    exists h'. split; [exact Hrun | exact Ht].
  - pose proof (subscription_sequence_spec fresh_session) as H.
    change (subscriptions fresh_session) with (@nil (string * Z)) in H. cbv iota in H.
    change (py_int (attr "qos" fresh_session)) with (Return 1 : outcome Z) in H.
    cbv iota in H. destruct H as (h' & Hrun & Ht & Hf).
    exists h'. split; [exact Hrun|]. split; [exact Ht | exact Hf].
Defined.

(** C3 fails as worded, on a session the constructor accepts: with
    [HOMIE_QOS=high] and no recorded subscription, the subscription sequence
    raises before it subscribes to anything, and the forced-wildcard flag is
    not set. *)
Lemma wildcard_not_subscribed_with_bad_qos :
  fst (Homie__init__ high_qos_os example_config init0) = Return high_qos_session /\
  subscriptions high_qos_session = [] /\
  _subscribe high_qos_session
  = (Raise (ValueError "invalid literal for int()"), high_qos_session) /\
  trace (exec _subscribe high_qos_session) = [] /\
  subscribe_all_forced (exec _subscribe high_qos_session) = false.
Proof. vm_compute. repeat split. Qed.

(** ** The connected callback *)

Lemma _connected_unfold env h :
  _connected env h
  = ((if negb (_mqtt_subscribed h) then _subscribe else ret tt);; announce env)
      (set_mqtt_connected true h).
Proof. reflexivity. Qed.

Lemma announce_result_sent q env h :
  ready q h ->
  announce env h = (announce_result h env, emit (announce_sent h env q) h).
Proof.
  intros H. rewrite (announce_run q env h H). unfold announce_result, announce_sent.
  destruct (uptime env h); [|reflexivity].
  destruct (read_signal (wireless env)); reflexivity.
Qed.

(** The connected callback when the quality of service converts. *)
Lemma _connected_run h env q :
  py_int (attr "qos" h) = Return q ->
  exists h',
    _connected env h = (announce_result h env, h') /\
    trace h' = trace h
               ++ (if _mqtt_subscribed h then [] else subscription_sequence h q)
               ++ announce_sent h env q /\
    _mqtt_connected h' = true /\
    _mqtt_subscribed h' = _mqtt_subscribed h /\
    subscriptions h' = subscriptions h /\
    nodes h' = nodes h /\ fwname h' = fwname h /\ fwversion h' = fwversion h /\
    mqtt_topic h' = mqtt_topic h /\ attrs h' = attrs h /\ startTime h' = startTime h.
Proof.
  intros Hq. rewrite _connected_unfold.
  set (h1 := set_mqtt_connected true h).
  assert (H1 : ready q h1) by (split; [reflexivity | exact Hq]).
  destruct (_mqtt_subscribed h) eqn:Hsub; simpl negb; cbv iota.
  - eexists. split.
    + unfold bind at 1, ret. rewrite (announce_result_sent q env h1 H1). reflexivity.
    + simpl. repeat split; try reflexivity. exact Hsub.
  - eexists. split.
    + erewrite bind_Return by (apply (_subscribe_ready h1 q); exact Hq).
      rewrite (announce_result_sent q env _
                 (H1 : ready q (set_subscribe_all_forced _ (emit _ h1)))).
      reflexivity.
    + simpl. rewrite <- app_assoc. repeat split; try reflexivity. exact Hsub.
Qed.

Lemma _connected_ready h env q u s :
  py_int (attr "qos" h) = Return q ->
  uptime env h = Return u ->
  read_signal (wireless env) = Return s ->
  exists h',
    _connected env h = (Return tt, h') /\
    trace h' = trace h
               ++ (if _mqtt_subscribed h then [] else subscription_sequence h q)
               ++ announcement h env q u s /\
    _mqtt_connected h' = true /\
    _mqtt_subscribed h' = _mqtt_subscribed h /\
    subscriptions h' = subscriptions h /\
    nodes h' = nodes h /\ fwname h' = fwname h /\ fwversion h' = fwversion h /\
    mqtt_topic h' = mqtt_topic h /\ attrs h' = attrs h.
Proof.
  intros Hq Hu Hs.
  destruct (_connected_run h env q Hq)
    as (h' & Hrun & Ht & Hc & Hsub & Hsubs & Hn & Hfn & Hfv & Hm & Ha & _).
  unfold announce_result, announce_sent in *. rewrite Hu, Hs in *.
  exists h'. auto 20.
Qed.

Lemma added_emit_through f e h :
  trace (f h) = trace h -> added h (emit e (f h)) = e.
Proof. intros E. unfold added. rewrite trace_emit, E. apply drop_app_length. Qed.

Lemma publish_raises topic payload retain h e :
  _mqtt_connected h = true ->
  py_int (attr "qos" h) = Raise e ->
  publish topic payload retain None h = (Raise e, h).
Proof. intros Hc Hq. unfold publish, bind, gets, lift, attr in *. rewrite Hc, Hq. reflexivity. Qed.

Lemma announce_raises env h e :
  _mqtt_connected h = true ->
  py_int (attr "qos" h) = Raise e ->
  announce env h = (Raise e, h).
Proof.
  intros Hc Hq. unfold announce, topic_of. rewrite bind_gets.
  apply bind_Raise, publish_raises; assumption.
Qed.

Lemma _connected_bad_qos env h e :
  py_int (attr "qos" h) = Raise e ->
  exists sent,
    _connected env h = (Raise e, emit sent (set_mqtt_connected true h)) /\
    publishes sent = [].
Proof.
  intros Hq. rewrite _connected_unfold.
  set (h1 := set_mqtt_connected true h).
  assert (Hc1 : _mqtt_connected h1 = true) by reflexivity.
  assert (Hq1 : py_int (attr "qos" h1) = Raise e) by exact Hq.
  destruct (_mqtt_subscribed h); simpl negb; cbv iota.
  - exists []. split; [|reflexivity]. rewrite emit_nil.
    change ((ret tt;; announce env) h1) with (announce env h1).
    apply announce_raises; assumption.
  - destruct (subscriptions h) as [|s0 subs] eqn:E.
    + exists []. split; [|reflexivity]. rewrite emit_nil.
      apply bind_Raise, _subscribe_wildcard_raises; assumption.
    + assert (Hne : subscriptions h1 <> []) by (change (subscriptions h <> []); rewrite E; done).
      eexists. split.
      * rewrite (bind_Return _ _ _ _ _ (_subscribe_recorded h1 Hne)).
        apply announce_raises; assumption.
      * destruct (_ && _); reflexivity.
Qed.

(** ** Footprints *)

Section Footprint.
Context (R : Homie -> Homie -> Prop).
Hypothesis R_refl : forall h, R h h.
Hypothesis R_trans : forall h1 h2 h3, R h1 h2 -> R h2 h3 -> R h1 h3.

Lemma preserved_ret {A} (a : A) : preserved R (ret a).
Proof. intros h. apply R_refl. Qed.

Lemma preserved_raise {A} e : preserved R (raise e : M A).
Proof. intros h. apply R_refl. Qed.

Lemma preserved_gets {A} (f : Homie -> A) : preserved R (gets f).
Proof. intros h. apply R_refl. Qed.

Lemma preserved_lift {A} (o : outcome A) : preserved R (lift o).
Proof. intros h. apply R_refl. Qed.

Lemma preserved_modify f : (forall h, R h (f h)) -> preserved R (modify f).
Proof. intros Hf h. apply Hf. Qed.

Lemma preserved_bind {A B} (c : M A) (f : A -> M B) :
  preserved R c -> (forall a, preserved R (f a)) -> preserved R (bind c f).
Proof.
  intros Hc Hf h. specialize (Hc h). unfold exec, bind in *.
  destruct (c h) as [[a|e] h1]; simpl in *; [|exact Hc].
  eapply R_trans; [exact Hc | apply Hf].
Qed.

Lemma preserved_if {A} (b : bool) (c1 c2 : M A) :
  preserved R c1 -> preserved R c2 -> preserved R (if b then c1 else c2).
Proof. destruct b; auto. Qed.

Lemma preserved_try {A} (c : M A) handler :
  preserved R c -> (forall e, preserved R (handler e)) ->
  preserved R (try_except_EnvironmentError c handler).
Proof.
  intros Hc Hh h. specialize (Hc h). unfold exec, try_except_EnvironmentError in *.
  destruct (c h) as [[a|e] h1]; simpl in *; [exact Hc|].
  destruct (is_EnvironmentError e); [|exact Hc].
  eapply R_trans; [exact Hc | apply Hh].
Qed.

Lemma preserved_for_each {A} (l : list A) (body : A -> M unit) :
  (forall x, preserved R (body x)) -> preserved R (for_each l body).
Proof.
  intros Hb. induction l as [|x l IH]; simpl.
  - apply preserved_ret.
  - apply preserved_bind; [apply Hb | intros _; exact IH].
Qed.
End Footprint.

Lemma only_trace_refl h : only_trace h h.
Proof. exists (trace h). destruct h; reflexivity. Qed.

Lemma only_trace_trans h1 h2 h3 : only_trace h1 h2 -> only_trace h2 h3 -> only_trace h1 h3.
Proof. intros [t1 ->] [t2 ->]. exists t2. reflexivity. Qed.

Lemma frame_refl h : frame h h.
Proof. repeat split; auto. Qed.

Lemma frame_trans h1 h2 h3 : frame h1 h2 -> frame h2 h3 -> frame h1 h3.
Proof. intros (A1 & T1 & S1) (A2 & T2 & S2). repeat split; try congruence. auto. Qed.

Lemma only_trace_frame h h' : only_trace h h' -> frame h h'.
Proof. intros [t ->]. repeat split; auto. Qed.

Lemma preserved_weaken {A} (R R' : Homie -> Homie -> Prop) (c : M A) :
  (forall h h', R h h' -> R' h h') -> preserved R c -> preserved R' c.
Proof. intros HR Hc h. apply HR, Hc. Qed.

Create HintDb footprint.

#[export] Hint Resolve only_trace_refl only_trace_trans frame_refl frame_trans : footprint.
#[export] Hint Resolve preserved_ret preserved_raise preserved_gets preserved_lift
  preserved_if preserved_for_each : footprint.

(** Steps through a method: binds, conditionals, matches on optional
    arguments, and the state-free primitives. *)
Ltac footprint :=
  repeat first
    [ solve [eauto 3 with footprint]
    | match goal with |- forall _, _ => intro end
    | apply preserved_bind
    | apply preserved_try
    | apply preserved_for_each
    | match goal with
      | |- preserved _ (if ?b then _ else _) => destruct b
      | |- preserved _ (match ?x with _ => _ end) => destruct x
      | |- preserved _ (let _ := _ in _) => cbv zeta
      end ].

Lemma call_only_trace ev : preserved only_trace (call ev).
Proof. intros h. eexists. reflexivity. Qed.

Lemma publish_only_trace topic payload retain qos_arg :
  preserved only_trace (publish topic payload retain qos_arg).
Proof. unfold publish. footprint; apply call_only_trace. Qed.

#[export] Hint Resolve call_only_trace publish_only_trace : footprint.

Lemma topic_of_only_trace suffix : preserved only_trace (topic_of suffix).
Proof. unfold topic_of. footprint. Qed.

#[export] Hint Resolve topic_of_only_trace : footprint.

Lemma _unsubscribe_only_trace topic_arg : preserved only_trace (_unsubscribe topic_arg).
Proof. unfold _unsubscribe. footprint. Qed.

Lemma sendProperties_only_trace node : preserved only_trace (sendProperties node).
Proof. unfold sendProperties. footprint. Qed.

#[export] Hint Resolve _unsubscribe_only_trace sendProperties_only_trace : footprint.

Lemma publishSignal_only_trace env : preserved only_trace (publishSignal env).
Proof. unfold publishSignal. footprint. Qed.

Lemma publishUptime_only_trace env : preserved only_trace (publishUptime env).
Proof. unfold publishUptime. footprint. Qed.

Lemma announce_only_trace env : preserved only_trace (announce env).
Proof.
  unfold announce, publishHomieVersion, publishFwname, publishFwversion, publishNodes,
    publishLocalipAndMac, publishStatsInterval, publishImplementation.
  footprint; first [apply publishSignal_only_trace | apply publishUptime_only_trace].
Qed.

Lemma setNodeProperty_only_trace node prop val retain_arg :
  preserved only_trace (setNodeProperty node prop val retain_arg).
Proof. unfold setNodeProperty. footprint. Qed.

Lemma mqtt_connect_only_trace env n : preserved only_trace (mqtt_connect env n).
Proof. unfold mqtt_connect. footprint. Qed.

Lemma _exitus_only_trace : preserved only_trace _exitus.
Proof. unfold _exitus. footprint. Qed.

#[export] Hint Resolve publishSignal_only_trace publishUptime_only_trace announce_only_trace
  setNodeProperty_only_trace mqtt_connect_only_trace _exitus_only_trace : footprint.

(** Lifts a trace-only footprint to the frame. *)
Lemma only_trace_preserves_frame {A} (c : M A) : preserved only_trace c -> preserved frame c.
Proof. apply preserved_weaken, only_trace_frame. Qed.

Lemma modify_frame f :
  (forall h, attrs (f h) = attrs h /\ mqtt_topic (f h) = mqtt_topic h /\
             (_setupCalled h = true -> _setupCalled (f h) = true)) ->
  preserved frame (modify f).
Proof. intros Hf h. apply Hf. Qed.

Ltac frame_leaf :=
  first [ apply only_trace_preserves_frame; solve [eauto with footprint]
        | apply modify_frame; intros; repeat split; solve [auto] ].

Lemma _subscribe_frame : preserved frame _subscribe.
Proof. unfold _subscribe. footprint; frame_leaf. Qed.

Lemma _connected_frame env : preserved frame (_connected env).
Proof.
  unfold _connected, publishHomieVersion, publishFwname, publishFwversion, publishNodes,
    publishLocalipAndMac, publishStatsInterval, publishImplementation.
  footprint; first [apply _subscribe_frame | frame_leaf].
Qed.

Lemma _checkBeforeSetup_frame caller : preserved frame (_checkBeforeSetup caller).
Proof. unfold _checkBeforeSetup. footprint. Qed.

#[export] Hint Resolve _subscribe_frame _connected_frame _checkBeforeSetup_frame : footprint.

Lemma subscribe_frame node attribute callback qos_arg :
  preserved frame (subscribe node attribute callback qos_arg).
Proof. unfold subscribe. footprint; frame_leaf. Qed.

Lemma subscribeProperty_frame node attribute callback qos_arg :
  preserved frame (subscribeProperty node attribute callback qos_arg).
Proof. unfold subscribeProperty. footprint; frame_leaf. Qed.

Lemma _initialize_frame env : preserved frame (_initialize env).
Proof. unfold _initialize. footprint; frame_leaf. Qed.

Lemma setup_frame env : preserved frame (setup env).
Proof.
  unfold setup, Timer. footprint; first [apply _initialize_frame | frame_leaf].
Qed.

Lemma deliver_frame ev env : preserved frame (deliver ev env).
Proof.
  unfold deliver. footprint;
    match goal with |- preserved _ (run_method ?m _) => destruct m end;
    unfold run_method, _subscribed, _published, _disconnected; footprint; frame_leaf.
Qed.

Lemma perform_frame a env : preserved frame (perform a env).
Proof.
  destruct a; simpl; try destruct cb;
    first [ apply subscribe_frame | apply subscribeProperty_frame | apply setup_frame
          | apply deliver_frame | frame_leaf
          | unfold Node, setFirmware; footprint; frame_leaf ].
Qed.

(** ** Construction *)

Lemma deviceId_setter_run os v i :
  deviceId_setter os v i
  = (Return tt,
     mkInit (<["_deviceId" := validated os (generated i) v]> (self_dict i))
       (if isIdFormat v then generated i else S (generated i))
       (init_log i ++ (if isIdFormat v then [] else [Generated (generateDeviceId os (generated i))]))).
Proof.
  unfold deviceId_setter, validated. destruct (isIdFormat v).
  - unfold store, modify. rewrite app_nil_r. reflexivity.
  - reflexivity.
Qed.

Lemma setattr_deviceId os v : setattr os "deviceId" v = deviceId_setter os v.
Proof. unfold setattr. rewrite decide_True by reflexivity. reflexivity. Qed.

Lemma slot_plain key : key <> "deviceId" -> key <> "baseTopic" -> slot key = key.
Proof. intros H1 H2. unfold slot. rewrite !decide_False by assumption. reflexivity. Qed.

Lemma slot_baseTopic : slot "baseTopic" = "_baseTopic".
Proof.
  unfold slot. rewrite decide_False by discriminate. rewrite decide_True by reflexivity.
  reflexivity.
Qed.

Lemma slot_deviceId : slot "deviceId" = "_deviceId".
Proof. unfold slot. rewrite decide_True by reflexivity. reflexivity. Qed.

Lemma setattr_other os key v :
  key <> "deviceId" -> setattr os key v = store (slot key) v.
Proof. intros Hne. unfold setattr. rewrite decide_False by exact Hne. reflexivity. Qed.

Lemma store_run key v i :
  store key v i = (Return tt, mkInit (<[key := v]> (self_dict i)) (generated i) (init_log i)).
Proof. reflexivity. Qed.

Lemma effect_run ev i :
  effect ev i = (Return tt, mkInit (self_dict i) (generated i) (init_log i ++ [ev])).
Proof. reflexivity. Qed.

(** One statement of a method: its run, then the rest from the state it left. *)
Lemma run_bind {S A B} (c : ST S A) (f : A -> ST S B) s a s1 r :
  c s = (Return a, s1) -> f a s1 = r -> bind c f s = r.
Proof. intros E <-. apply bind_Return, E. Qed.

(** Every [setattr] of the configured attributes, with its slot. *)
Ltac setattr_slots :=
  rewrite ?setattr_deviceId;
  rewrite ?setattr_other by discriminate;
  rewrite ?slot_baseTopic;
  rewrite ?slot_plain by discriminate.

Ltac init_step lem :=
  eapply run_bind; [apply lem |]; cbn [self_dict generated init_log].

Lemma _initAttrs_run os config i :
  let v := lookup_pref os config "DEVICE_ID" (VStr "xxxxxxxx") in
  _initAttrs os config i
  = (Return tt,
     mkInit (resolved_dict os config (validated os (generated i) v) (self_dict i))
       (if isIdFormat v then generated i else S (generated i))
       (init_log i ++ (if isIdFormat v then [] else [Generated (generateDeviceId os (generated i))]))).
Proof.
  intros v. unfold _initAttrs, DEFAULT_PREFS. cbn [for_each].
  setattr_slots.
  init_step store_run. init_step deviceId_setter_run.
  do 9 init_step store_run.
  reflexivity.
Qed.

Lemma resolved_dict_lookup os config dev d :
  Forall (fun '(pref, (key, dflt)) =>
            getattr (resolved_dict os config dev d) key
            = if decide (key = "deviceId") then dev else lookup_pref os config pref dflt)
         DEFAULT_PREFS.
Proof.
  unfold DEFAULT_PREFS. repeat constructor; unfold getattr, resolved_dict;
    rewrite ?slot_deviceId, ?slot_baseTopic; rewrite ?slot_plain by discriminate;
    simplify_map_eq; reflexivity.
Qed.

Lemma Homie__init___unfold os config :
  Homie__init__ os config init0 = finish_init os (configured os config).
Proof.
  unfold Homie__init__. fold (finish_init os).
  setattr_slots.
  do 3 init_step effect_run. init_step deviceId_setter_run.
  do 10 init_step store_run.
  init_step _initAttrs_run.
  reflexivity.
Qed.

Lemma fresh_session_constructed :
  fst (Homie__init__ example_os example_config init0) = Return fresh_session.
Proof. vm_compute. reflexivity. Qed.

Lemma finish_init_no_host os i :
  py_truthy (getattr (self_dict i) "host") = false ->
  finish_init os i = (Raise (ValueError "No host specified."), i).
Proof.
  intros Hh. unfold finish_init.
  change (bind (gets self_dict) ?f i) with (f (self_dict i) i). cbv beta.
  rewrite Hh. reflexivity.
Qed.

Lemma finish_init_host os i :
  py_truthy (getattr (self_dict i) "host") = true ->
  is_no_host_error (fst (finish_init os i)) = false.
Proof.
  intros Hh. unfold finish_init.
  change (bind (gets self_dict) ?f i) with (f (self_dict i) i). cbv beta.
  rewrite Hh. simpl negb. cbv iota. unfold bind at 1, lift.
  destruct (py_join "/" _) as [topic|e] eqn:J; [reflexivity|].
  unfold py_join in J.
  destruct (getattr (self_dict i) "baseTopic"), (getattr (self_dict i) "deviceId");
    simpl in J; try discriminate; injection J as <-; reflexivity.
Qed.

Lemma configured_host os config :
  getattr (self_dict (configured os config)) "host" = lookup_pref os config "HOST" VNone.
Proof.
  pose proof (resolved_dict_lookup os config
    (validated os 1 (lookup_pref os config "DEVICE_ID" (VStr "xxxxxxxx")))
    (placeholder_dict os)) as H.
  unfold DEFAULT_PREFS in H. rewrite !Forall_cons in H.
  destruct H as (_ & _ & _ & H & _). exact H.
Qed.

Lemma configured_no_client os config :
  forallb (fun ev => negb (is_New_client ev)) (init_log (configured os config)) = true.
Proof. unfold configured. simpl. destruct (isIdFormat _); reflexivity. Qed.

(** C7: construction fails with [ValueError("No host specified.")] exactly
    when the resolved host is empty or missing (falsy), and then before a
    topic root is computed or a transport client created: the effects of
    the failed construction include no client; with a non-empty host this
    error is not raised. *)
Theorem init_requires_host (os : OS) (config : gmap string pyval) :
  let host := lookup_pref os config "HOST" VNone in
  let r := Homie__init__ os config init0 in
  is_no_host_error (fst r) = negb (py_truthy host) /\
  (if py_truthy host then True
   else fst r = Raise (ValueError "No host specified.") /\
        forallb (fun ev => negb (is_New_client ev)) (init_log (snd r)) = true) /\
  py_truthy VNone = false /\ py_truthy (VStr "") = false.
Proof.
  intros host r. subst r. rewrite Homie__init___unfold.
  pose proof (configured_host os config) as Hh. fold host in Hh.
  destruct (py_truthy host) eqn:T.
  - split; [|split; [exact I|split; reflexivity]].
    apply finish_init_host. rewrite Hh. exact T.
  - rewrite finish_init_no_host by (rewrite Hh; exact T).
    repeat split. apply configured_no_client.
Qed.

(** ** Configuration lookup *)

(** C8, as the code has it: every option resolves to the environment
    variable [HOMIE_<NAME>] when set, otherwise to the value the
    configuration file stores under the upper-case preference name
    [<NAME>] (not under the option's attribute key), otherwise to the
    built-in default; the value resolved for [deviceId] is kept only if it is
    a well-formed identifier, and is replaced by a generated one otherwise. *)
Theorem initAttrs_layered_lookup (os : OS) (config : gmap string pyval) (i : Init) :
  exists i',
    _initAttrs os config i = (Return tt, i') /\
    Forall (fun '(pref, (key, dflt)) =>
              let resolved :=
                match environ os !! ("HOMIE_" +:+ pref) with
                | Some s => VStr s
                | None => match config !! pref with Some v => v | None => dflt end
                end in
              getattr (self_dict i') key
              = if decide (key = "deviceId")
                then (if isIdFormat resolved then resolved
                      else VStr (generateDeviceId os (generated i)))
                else resolved)
           DEFAULT_PREFS /\
    map (fun p => (p.1, p.2.1, p.2.2)) DEFAULT_PREFS
    = [ ("CA_CERTS", "ca_certs", VNone);
        ("DEVICE_ID", "deviceId", VStr "xxxxxxxx");
        ("DEVICE_NAME", "deviceName", VStr "xxxxxxxx");
        ("HOST", "host", VNone);
        ("KEEPALIVE", "keepalive", VInt 60);
        ("PASSWORD", "password", VNone);
        ("PORT", "port", VInt 1883);
        ("QOS", "qos", VInt 1);
        ("SUBSCRIBE_ALL", "subscribe_all", VBool false);
        ("TOPIC", "baseTopic", VStr "devices");
        ("USERNAME", "username", VNone) ].
Proof.
  eexists. split; [apply _initAttrs_run|]. split; [|reflexivity].
  cbn [self_dict]. unfold DEFAULT_PREFS.
  repeat (apply Forall_cons; split); [..|apply Forall_nil];
    cbv zeta; unfold getattr, resolved_dict;
    rewrite ?slot_deviceId, ?slot_baseTopic; rewrite ?slot_plain by discriminate;
    simplify_map_eq;
    rewrite ?decide_True by done; rewrite ?decide_False by done;
    unfold validated, lookup_pref;
    repeat match goal with
           | |- context [environ os !! ?k] => destruct (environ os !! k)
           | |- context [config !! ?k] => destruct (config !! k)
           end;
    reflexivity.
Qed.

(** C8 fails as worded: a configuration file that stores the broker under
    the option's own key [host] is not consulted; the host resolves to the
    default (none), not to the stored value. *)
Lemma option_key_not_consulted :
  lowercase_config !! "host" = Some (VStr "broker.local") /\
  environ example_os !! "HOMIE_HOST" = None /\
  getattr (self_dict (exec (_initAttrs example_os lowercase_config) init0)) "host" = VNone /\
  getattr (self_dict (exec (_initAttrs example_os lowercase_config) init0)) "host"
  <> resolved_by_option_key example_os lowercase_config "HOST" "host" VNone.
Proof. vm_compute. repeat split; discriminate. Qed.

Lemma finish_init_state os i :
  exists l,
    snd (finish_init os i) = mkInit (self_dict i) (generated i) (init_log i ++ l) /\
    List.filter is_Generated l = [] /\
    (forall h, fst (finish_init os i) = Return h ->
       attrs h = self_dict i /\
       py_join "/" [getattr (self_dict i) "baseTopic"; getattr (self_dict i) "deviceId"]
       = Return (mqtt_topic h) /\
       _setupCalled h = false /\ _mqtt_connected h = false /\
       subscribe_all_forced h = false /\ mqtt h = no_handlers (client_id (mqtt h)) /\
       trace h = []).
Proof.
  unfold finish_init.
  change (bind (gets self_dict) ?f i) with (f (self_dict i) i). cbv beta.
  destruct (negb (py_truthy (getattr (self_dict i) "host"))).
  - exists []. simpl. rewrite app_nil_r. destruct i. repeat split; discriminate.
  - unfold bind at 1, lift.
    destruct (py_join "/" _) as [topic|e] eqn:J.
    + eexists [_]. simpl. repeat split; try reflexivity; injection H as <-; reflexivity.
    + exists []. simpl. rewrite app_nil_r. destruct i. repeat split; discriminate.
Qed.

(** C10, as the code has it: a device with no configured [deviceId] ends up
    with the built-in default ["xxxxxxxx"], which is a well-formed
    identifier, whatever the generator returns (and likewise [deviceName]
    defaults to ["xxxxxxxx"]); the generator is nevertheless invoked, exactly
    once, for the [None] that [__init__] first assigns to [deviceId], and its
    result is overwritten. *)
Theorem unconfigured_deviceId_is_default (os : OS) (config : gmap string pyval) :
  environ os !! "HOMIE_DEVICE_ID" = None ->
  config !! "DEVICE_ID" = None ->
  let r := Homie__init__ os config init0 in
  isIdFormat (VStr "xxxxxxxx") = true /\
  getattr (self_dict (snd r)) "deviceId" = VStr "xxxxxxxx" /\
  (forall h, fst r = Return h -> attr "deviceId" h = VStr "xxxxxxxx") /\
  List.filter is_Generated (init_log (snd r)) = [Generated (generateDeviceId os 0)] /\
  generated (snd r) = 1%nat /\
  (environ os !! "HOMIE_DEVICE_NAME" = None -> config !! "DEVICE_NAME" = None ->
   getattr (self_dict (snd r)) "deviceName" = VStr "xxxxxxxx").
Proof.
  intros He Hc r. subst r. rewrite Homie__init___unfold.
  destruct (finish_init_state os (configured os config)) as (l & -> & Hl & Hret).
  assert (Hv : lookup_pref os config "DEVICE_ID" (VStr "xxxxxxxx") = VStr "xxxxxxxx").
  { unfold lookup_pref. change ("HOMIE_" +:+ "DEVICE_ID") with "HOMIE_DEVICE_ID".
    rewrite He, Hc. reflexivity. }
  pose proof (resolved_dict_lookup os config
    (validated os 1 (lookup_pref os config "DEVICE_ID" (VStr "xxxxxxxx")))
    (placeholder_dict os)) as H.
  unfold DEFAULT_PREFS in H. rewrite !Forall_cons in H.
  destruct H as (_ & Hid & Hname & _).
  rewrite decide_True in Hid by done. rewrite decide_False in Hname by done.
  rewrite Hv in Hid. change (validated os 1 (VStr "xxxxxxxx")) with (VStr "xxxxxxxx") in Hid.
  cbn [self_dict generated init_log]. unfold configured in *. rewrite Hv in *.
  change (isIdFormat (VStr "xxxxxxxx")) with true in *. cbv iota in *.
  cbn [self_dict generated init_log] in *.
  split; [reflexivity|]. split; [exact Hid|]. split.
  { intros h Hh. destruct (Hret h Hh) as (Ha & _). unfold attr. rewrite Ha. exact Hid. }
  split.
  { rewrite List.filter_app, Hl. reflexivity. }
  split; [reflexivity|].
  intros He' Hc'. rewrite Hname. unfold lookup_pref.
  change ("HOMIE_" +:+ "DEVICE_NAME") with "HOMIE_DEVICE_NAME". rewrite He', Hc'. reflexivity.
Qed.

Lemma unconfigured_deviceId_is_default_witness :
  getattr (self_dict (snd (Homie__init__ example_os example_config init0))) "deviceId"
  = VStr "xxxxxxxx".
Proof.
  apply (unconfigured_deviceId_is_default example_os example_config); reflexivity.
Defined.

(** C10 fails as worded: constructing a device with no configured
    [deviceId] does invoke the generator (once, for the [None] placeholder),
    although the identifier it returns is not the one the device keeps. *)
Lemma generator_invoked_for_placeholder :
  environ example_os !! "HOMIE_DEVICE_ID" = None /\
  example_config !! "DEVICE_ID" = None /\
  generated (snd (Homie__init__ example_os example_config init0)) = 1%nat /\
  init_log (snd (Homie__init__ example_os example_config init0))
  = [Atexit_register; Signal_install "SIGTERM"; Signal_install "SIGHUP";
     Generated "a1b2c3d4"; New_client "Homie-xxxxxxxx"].
Proof. vm_compute. repeat split. Qed.

(** ** The announcement, as the specification orders it *)

Lemma node_announcements_retained h q node :
  forallb is_retained (node_announcements h q node) = true.
Proof.
  unfold node_announcements. induction (properties node) as [|p l IH]; [reflexivity|exact IH].
Qed.

Lemma announcement_retained h env q u s :
  forallb is_retained (announcement h env q u s) = true.
Proof.
  unfold announcement, identity_announcements, property_announcements.
  rewrite !forallb_app. simpl.
  destruct (py_truthy (fwname h)), (py_truthy (fwversion h)); simpl;
    rewrite ?andb_true_r; induction (nodes h) as [|n l IH]; simpl;
    rewrite ?forallb_app, ?node_announcements_retained, ?IH; reflexivity.
Qed.

(** C1, as the code has it: the connected callback marks the session
    connected and runs the subscription sequence (unless already
    subscribed), which publishes nothing.  If the configured quality of
    service converts with [int], it then publishes, all retained and in this
    order: [$online] = "true", [$name], [$homie], [$fw/name] and
    [$fw/version] (each only if set), [$nodes], the declared property values
    of every node (nodes in registration order, properties in declaration
    order), [$localip], [$mac], [$stats/interval], [$stats/uptime],
    [$stats/signal], [$implementation]; but it stops with an exception
    before [$stats/uptime] if the uptime cannot be computed, and before
    [$stats/signal] if the signal file cannot be read.  If the quality of
    service does not convert, it raises before the first publish. *)
Theorem connected_announces_in_order (h : Homie) (env : Env) :
  let h' := exec (_connected env) h in
  _mqtt_connected h' = true /\
  match py_int (attr "qos" h) with
  | Raise e => fst (_connected env h) = Raise e /\ publishes (added h h') = []
  | Return q =>
      let subscription := if _mqtt_subscribed h then [] else subscription_sequence h q in
      publishes subscription = [] /\
      match uptime env h, read_signal (wireless env) with
      | Return u, Return s =>
          fst (_connected env h) = Return tt /\
          added h h'
          = subscription
            ++ [pub h q "/$online" (VStr "true")]
            ++ identity_announcements h q
            ++ [pub h q "/$nodes" (VStr (String.concat "," (map nodeId (nodes h))))]
            ++ property_announcements h q
            ++ stats_announcements h env q u s /\
          forallb is_retained (announcement h env q u s) = true
      | Return u, Raise e =>
          fst (_connected env h) = Raise e /\
          added h h' = subscription ++ announcement_before_signal h env q u
      | Raise e, _ =>
          fst (_connected env h) = Raise e /\
          added h h' = subscription ++ announcement_before_uptime h env q
      end
  end.
Proof.
  cbv zeta. destruct (py_int (attr "qos" h)) as [q|e] eqn:Hq.
  - destruct (_connected_run h env q Hq) as (h' & Hrun & Ht & Hc & _).
    assert (Hadd : added h h'
                   = (if _mqtt_subscribed h then [] else subscription_sequence h q)
                     ++ announce_sent h env q).
    { unfold added. rewrite Ht. apply drop_app_length. }
    unfold exec. rewrite Hrun. cbn [fst snd]. rewrite Hadd. clear Hrun Ht Hadd.
    split; [exact Hc|]. split.
    { destruct (_mqtt_subscribed h); [reflexivity|]. unfold subscription_sequence.
      destruct (subscriptions h); [reflexivity|]. destruct (_ && _); reflexivity. }
    unfold announce_result, announce_sent.
    destruct (uptime env h) as [u|e]; [|split; reflexivity].
    destruct (read_signal (wireless env)) as [s|e]; [|split; reflexivity].
    split; [reflexivity|]. split; [reflexivity | apply announcement_retained].
  - destruct (_connected_bad_qos env h e Hq) as (sent & Hrun & Hsent).
    unfold exec. rewrite Hrun. cbn [fst snd]. split; [reflexivity|]. split; [reflexivity|].
    rewrite (added_emit_through (set_mqtt_connected true)) by reflexivity. exact Hsent.
Qed.

Lemma connected_announces_in_order_witness :
  fst (_connected example_env example_session) = Return tt /\
  added example_session (exec (_connected example_env) example_session)
  = [ Subscribe [("devices/xxxxxxxx/switch/on/set", 1)];
      Publish "devices/xxxxxxxx/$online" (VStr "true") true 1;
      Publish "devices/xxxxxxxx/$name" (VStr "xxxxxxxx") true 1;
      Publish "devices/xxxxxxxx/$homie" (VStr "2.0.1") true 1;
      Publish "devices/xxxxxxxx/$fw/name" (VStr "relay-switch") true 1;
      Publish "devices/xxxxxxxx/$fw/version" (VStr "1.0.0") true 1;
      Publish "devices/xxxxxxxx/$nodes" (VStr "switch") true 1;
      Publish "devices/xxxxxxxx/switch/on" (VStr "false") true 1;
      Publish "devices/xxxxxxxx/$localip" (VStr "192.168.1.7") true 1;
      Publish "devices/xxxxxxxx/$mac" (VStr "b8:27:eb:00:00:01") true 1;
      Publish "devices/xxxxxxxx/$stats/interval" (VInt 60) true 1;
      Publish "devices/xxxxxxxx/$stats/uptime" (VInt 5) true 1;
      Publish "devices/xxxxxxxx/$stats/signal" (VInt 70) true 1;
      Publish "devices/xxxxxxxx/$implementation" (VStr "homie-python") true 1 ].
Proof.
  pose proof (connected_announces_in_order example_session example_env) as H.
  cbv zeta in H. destruct H as (_ & H).
  change (py_int (attr "qos" example_session)) with (Return 1 : outcome Z) in H.
  change (uptime example_env example_session) with (Return 5 : outcome Z) in H.
  change (read_signal (wireless example_env)) with (Return 70 : outcome Z) in H.
  cbv beta iota in H. destruct H as (_ & Hrun & Hadd & _).
  split; [exact Hrun|]. rewrite Hadd. reflexivity.
Defined.

(** C1 fails as worded, on sessions the constructor accepts.  With
    [HOMIE_QOS=high] the connected callback raises at the first conversion of
    the quality of service and sends nothing at all; with a wireless file
    whose interface line is cut short it raises [IndexError] after
    [$stats/uptime], so that [$stats/signal] and [$implementation] are never
    published. *)
Lemma connected_announcement_absent_or_cut_short :
  fst (Homie__init__ high_qos_os example_config init0) = Return high_qos_session /\
  fst (_connected example_env high_qos_device)
  = Raise (ValueError "invalid literal for int()") /\
  added high_qos_device (exec (_connected example_env) high_qos_device) = [] /\
  fst (_connected truncated_env example_session) = Raise IndexError /\
  publishes (added example_session (exec (_connected truncated_env) example_session))
  = [ ("devices/xxxxxxxx/$online", true); ("devices/xxxxxxxx/$name", true);
      ("devices/xxxxxxxx/$homie", true); ("devices/xxxxxxxx/$fw/name", true);
      ("devices/xxxxxxxx/$fw/version", true); ("devices/xxxxxxxx/$nodes", true);
      ("devices/xxxxxxxx/switch/on", true); ("devices/xxxxxxxx/$localip", true);
      ("devices/xxxxxxxx/$mac", true); ("devices/xxxxxxxx/$stats/interval", true);
      ("devices/xxxxxxxx/$stats/uptime", true) ].
Proof. vm_compute. repeat split. Qed.

(** ** Reachable states *)

Lemma init_rooted os config h i :
  Homie__init__ os config init0 = (Return h, i) -> rooted h.
Proof.
  rewrite Homie__init___unfold. intros E.
  destruct (finish_init_state os (configured os config)) as (l & _ & _ & Hret).
  destruct (Hret h) as (Ha & Hj & _); [rewrite E; reflexivity|].
  unfold rooted, attr. rewrite Ha. unfold py_join in Hj.
  destruct (getattr _ "baseTopic") as [| | |base]; try discriminate.
  destruct (getattr _ "deviceId") as [| | |dev]; try discriminate.
  simpl in Hj. injection Hj as <-. exists base, dev. repeat split.
Qed.

Lemma frame_rooted h h' : frame h h' -> rooted h -> rooted h'.
Proof.
  intros (Ha & Ht & _) (base & dev & Hb & Hd & Hm).
  exists base, dev. unfold attr in *. rewrite Ha, Ht. repeat split; assumption.
Qed.

Lemma reachable_rooted h : reachable h -> rooted h.
Proof.
  induction 1 as [os config h i Hinit | h a env _ IH].
  - eapply init_rooted, Hinit.
  - eapply frame_rooted; [apply perform_frame | exact IH].
Qed.

Lemma init_dormant os config h i :
  Homie__init__ os config init0 = (Return h, i) -> _setupCalled h = false /\ dormant h.
Proof.
  rewrite Homie__init___unfold. intros E.
  destruct (finish_init_state os (configured os config)) as (l & _ & _ & Hret).
  destruct (Hret h) as (_ & _ & Hs & Hc & Hf & Hm & _); [rewrite E; reflexivity|].
  split; [exact Hs|]. split; [exact Hc|]. split; [exact Hf|].
  rewrite Hm. repeat split.
Qed.

Lemma quiet_refl h : quiet h h.
Proof. repeat split. Qed.

Lemma quiet_trans h1 h2 h3 : quiet h1 h2 -> quiet h2 h3 -> quiet h1 h3.
Proof. intros (A1 & B1 & C1) (A2 & B2 & C2). repeat split; congruence. Qed.

Lemma only_trace_quiet h h' : only_trace h h' -> quiet h h'.
Proof. intros [t ->]. repeat split. Qed.

#[export] Hint Resolve quiet_refl quiet_trans : footprint.

Lemma quiet_dormant h h' : quiet h h' -> dormant h -> dormant h'.
Proof.
  intros (A & B & C) (Hc & Hf & Hm). unfold dormant. rewrite A, B, C. auto.
Qed.

Lemma quiet_off_refl h : quiet_off h h.
Proof. intros _. apply quiet_refl. Qed.

Lemma quiet_off_trans h1 h2 h3 : quiet_off h1 h2 -> quiet_off h2 h3 -> quiet_off h1 h3.
Proof.
  intros H12 H23 Hc. specialize (H12 Hc).
  eapply quiet_trans; [exact H12|]. apply H23. destruct H12 as (-> & _). exact Hc.
Qed.

#[export] Hint Resolve quiet_off_refl quiet_off_trans : footprint.

(** While disconnected, what follows a read of the connection flag is
    what follows [False]. *)
Lemma gets_connected_off {A} (f : bool -> M A) :
  preserved quiet_off (f false) -> preserved quiet_off (bind (gets _mqtt_connected) f).
Proof.
  intros Hf h Hc. unfold exec, bind, gets. rewrite Hc. apply Hf, Hc.
Qed.

Ltac footprint_off :=
  repeat first
    [ solve [eauto 3 with footprint]
    | match goal with |- forall _, _ => intro end
    | match goal with
      | |- preserved _ (bind (gets _mqtt_connected) _) => apply gets_connected_off
      | |- preserved _ (bind _ _) => apply preserved_bind
      | |- preserved _ (modify _) => apply preserved_modify; intros ? ?; repeat split
      | |- preserved _ (call _) =>
          apply (preserved_weaken only_trace quiet_off);
          [intros ? ? ? ?; apply only_trace_quiet; assumption | apply call_only_trace]
      | |- preserved _ (if ?b then _ else _) => destruct b
      | |- preserved _ (match ?x with _ => _ end) => destruct x
      | |- preserved _ (let _ := _ in _) => cbv zeta
      end ].

(** A subscription registered while disconnected is only recorded. *)
Lemma subscribe_disconnected node attribute callback qos_arg h :
  _mqtt_connected h = false ->
  quiet h (exec (subscribe node attribute callback qos_arg) h) /\
  quiet h (exec (subscribeProperty node attribute callback qos_arg) h).
Proof.
  intros Hc. split.
  - assert (H : preserved quiet_off (subscribe node attribute callback qos_arg)).
    { unfold subscribe, _checkBeforeSetup. footprint_off. }
    apply H, Hc.
  - assert (H : preserved quiet_off (subscribeProperty node attribute callback qos_arg)).
    { unfold subscribeProperty, _checkBeforeSetup. footprint_off. }
    apply H, Hc.
Qed.

Lemma deliver_no_callbacks ev env h :
  no_callbacks (mqtt h) -> deliver ev env h = (Return tt, h).
Proof.
  intros (H1 & H2 & H3 & H4). unfold deliver.
  change (bind (gets mqtt) ?f h) with (f (mqtt h) h). cbv beta zeta.
  destruct ev; rewrite ?H1, ?H2, ?H3, ?H4; reflexivity.
Qed.

Lemma setup_sets_called env h : _setupCalled (exec (setup env) h) = true.
Proof.
  pose proof (setup_frame env (set_setupCalled true h)) as (_ & _ & H).
  assert (E : exec (setup env) h = exec (setup env) (set_setupCalled true h)).
  { unfold exec, setup. unfold bind at 1 3, modify. reflexivity. }
  rewrite E. apply H. reflexivity.
Qed.

Lemma perform_lifecycle a env h :
  lifecycle_inv h -> lifecycle_inv (exec (perform a env) h).
Proof.
  intros Hinv Hs'.
  destruct (_setupCalled h) eqn:Hs.
  { destruct (perform_frame a env h) as (_ & _ & H). rewrite H in Hs'; [discriminate|exact Hs]. }
  specialize (Hinv Hs).
  destruct a; simpl in *.
  - eapply quiet_dormant; [|exact Hinv]. unfold exec, Node, bind, modify, ret. simpl. repeat split.
  - eapply quiet_dormant; [|exact Hinv].
    unfold exec, setFirmware, _checkBeforeSetup, bind, gets, modify, raise, ret. simpl.
    rewrite Hs. repeat split.
  - eapply quiet_dormant; [|exact Hinv]. apply subscribe_disconnected, Hinv.
  - eapply quiet_dormant; [|exact Hinv]. apply subscribe_disconnected, Hinv.
  - eapply quiet_dormant; [|exact Hinv]. apply only_trace_quiet, setNodeProperty_only_trace.
  - eapply quiet_dormant; [|exact Hinv]. apply only_trace_quiet, publish_only_trace.
  - rewrite setup_sets_called in Hs'. discriminate.
  - eapply quiet_dormant; [|exact Hinv]. apply only_trace_quiet.
    destruct cb; [apply publishUptime_only_trace | apply publishSignal_only_trace].
  - destruct Hinv as (Hc & Hf & Hm). unfold exec. rewrite deliver_no_callbacks by exact Hm.
    unfold dormant. auto.
  - eapply quiet_dormant; [|exact Hinv]. apply only_trace_quiet, _exitus_only_trace.
Qed.

Lemma reachable_lifecycle h : reachable h -> lifecycle_inv h.
Proof.
  induction 1 as [os config h i Hinit | h a env _ IH].
  - intros _. eapply init_dormant, Hinit.
  - apply perform_lifecycle, IH.
Qed.

Lemma same_connection_refl h : same_connection h h.
Proof. reflexivity. Qed.

Lemma same_connection_trans h1 h2 h3 :
  same_connection h1 h2 -> same_connection h2 h3 -> same_connection h1 h3.
Proof. unfold same_connection. congruence. Qed.

#[export] Hint Resolve same_connection_refl same_connection_trans : footprint.

Lemma only_trace_same_connection h h' : only_trace h h' -> same_connection h h'.
Proof. intros [t ->]. reflexivity. Qed.

Lemma _subscribe_same_connection : preserved same_connection _subscribe.
Proof.
  unfold _subscribe.
  footprint;
    first [ apply (preserved_weaken only_trace same_connection _ only_trace_same_connection);
            solve [eauto with footprint]
          | intros ?; reflexivity ].
Qed.

(** Whatever else happens in it, the connected callback leaves the session
    connected. *)
Lemma _connected_sets_connected env h : _mqtt_connected (exec (_connected env) h) = true.
Proof.
  assert (H : preserved same_connection
                ((if negb (_mqtt_subscribed h) then _subscribe else ret tt);; announce env)).
  { footprint;
      first [ apply (preserved_weaken only_trace same_connection _ only_trace_same_connection);
              solve [eauto with footprint]
            | intros ?; reflexivity ]. }
  unfold exec. rewrite _connected_unfold. apply (H (set_mqtt_connected true h)).
Qed.

(** ** Publishing needs the connection *)

(** C2, as the code has it: while disconnected, a publish or a property
    update does nothing at all: no transport call, state unchanged, the value
    is dropped.  After the connected callback the same property update makes
    exactly one transport publish, to [baseTopic/deviceId/nodeId/prop],
    retained when [retain] is left to its default, provided the configured
    quality of service converts with [int]; if it does not, the update raises
    the conversion error and nothing is published. *)
Theorem publish_only_when_connected (h : Homie) :
  (_mqtt_connected h = false ->
   forall topic payload retain qos_arg node prop val retain_arg,
     publish topic payload retain qos_arg h = (Return tt, h) /\
     setNodeProperty node prop val retain_arg h = (Return tt, h)) /\
  (forall env node prop val,
     reachable h ->
     let h1 := exec (_connected env) h in
     exists base dev,
       attr "baseTopic" h = VStr base /\ attr "deviceId" h = VStr dev /\
       setNodeProperty node prop val None h1
       = match py_int (attr "qos" h) with
         | Return q =>
             (Return tt,
              emit [Publish (String.concat "/" [String.concat "/" [base; dev]; nodeId node; prop])
                      val true q] h1)
         | Raise e => (Raise e, h1)
         end).
Proof.
  split.
  - intros Hc topic payload retain qos_arg node prop val retain_arg. split.
    + apply publish_disconnected, Hc.
    + unfold setNodeProperty.
      change (bind (gets mqtt_topic) ?f h) with (f (mqtt_topic h) h). cbv beta zeta.
      apply publish_disconnected, Hc.
  - intros env node prop val Hr h1.
    destruct (reachable_rooted h Hr) as (base & dev & Hb & Hd & Hm).
    exists base, dev. split; [exact Hb|]. split; [exact Hd|].
    destruct (_connected_frame env h) as (Ha & Ht & _). fold h1 in Ha, Ht.
    assert (Hc : _mqtt_connected h1 = true) by apply _connected_sets_connected.
    unfold setNodeProperty.
    change (bind (gets mqtt_topic) ?f h1) with (f (mqtt_topic h1) h1). cbv beta zeta.
    rewrite Ht, Hm.
    destruct (py_int (attr "qos" h)) as [q|e] eqn:Hq.
    + apply publish_ready. split; [exact Hc|]. unfold attr. rewrite Ha. exact Hq.
    + apply publish_raises; [exact Hc|]. unfold attr. rewrite Ha. exact Hq.
Qed.

Lemma fresh_session_reachable : reachable fresh_session.
Proof.
  apply (reachable_init example_os example_config fresh_session
           (snd (Homie__init__ example_os example_config init0))).
  vm_compute. reflexivity.
Qed.

Lemma publish_only_when_connected_witness :
  setNodeProperty switchNode "on" (VStr "true") None fresh_session
  = (Return tt, fresh_session) /\
  trace (exec (setNodeProperty switchNode "on" (VStr "true") None)
           (exec (_connected example_env) fresh_session))
  = trace (exec (_connected example_env) fresh_session)
    ++ [Publish "devices/xxxxxxxx/switch/on" (VStr "true") true 1].
Proof.
  destruct (publish_only_when_connected fresh_session) as [Hoff Hon]. split.
  - apply (Hoff eq_refl "" VNone true None).
  - destruct (Hon example_env switchNode "on" (VStr "true") fresh_session_reachable)
      as (base & dev & Hb & Hd & Hrun).
    vm_compute in Hb, Hd. injection Hb as <-. injection Hd as <-.
    change (py_int (attr "qos" fresh_session)) with (Return 1 : outcome Z) in Hrun.
    unfold exec at 1. rewrite Hrun. reflexivity.
Defined.

(** C2 fails as worded, on a session the constructor accepts: with
    [HOMIE_QOS=high], after [setup] and the connected event, the session is
    connected, yet the property update raises and no publish is made. *)
Lemma property_update_raises_with_bad_qos :
  fst (Homie__init__ high_qos_os example_config init0) = Return high_qos_session /\
  _mqtt_connected high_qos_connected = true /\
  setNodeProperty switchNode "on" (VStr "true") None high_qos_connected
  = (Raise (ValueError "invalid literal for int()"), high_qos_connected) /\
  publishes (trace high_qos_connected) = [].
Proof. vm_compute. repeat split. Qed.

(** ** Registration after the wildcard was forced *)

Lemma _checkBeforeSetup_raises caller h :
  _setupCalled h = true -> _checkBeforeSetup caller h = (Raise (BaseException caller), h).
Proof. intros Hs. unfold _checkBeforeSetup, bind, gets. rewrite Hs. reflexivity. Qed.

(** C4, as the code has it: in every reachable state where the
    forced-wildcard flag is set, [setup] has already been called, so every
    later [subscribe] or [subscribeProperty] call fails the ordering check
    before doing anything: the session is unchanged, hence no subscription
    entry is sent to the transport and none is recorded either. *)
Theorem forced_wildcard_closes_registration (h : Homie) :
  reachable h ->
  subscribe_all_forced h = true ->
  _setupCalled h = true /\
  forall node attribute callback qos_arg,
    subscribe node attribute callback qos_arg h
    = (Raise (BaseException "subscribe"), h) /\
    subscribeProperty node attribute callback qos_arg h
    = (Raise (BaseException "subscribeProperty"), h).
Proof.
  intros Hr Hf.
  assert (Hs : _setupCalled h = true).
  { destruct (_setupCalled h) eqn:Hs; [reflexivity|].
    destruct (reachable_lifecycle h Hr Hs) as (_ & Hf' & _). congruence. }
  split; [exact Hs|]. intros node attribute callback qos_arg. split.
  - unfold subscribe. apply bind_Raise, _checkBeforeSetup_raises, Hs.
  - unfold subscribeProperty. apply bind_Raise, _checkBeforeSetup_raises, Hs.
Qed.

Lemma forced_session_reachable : reachable forced_session.
Proof. unfold forced_session. do 2 apply reachable_step. apply fresh_session_reachable. Qed.

Lemma forced_wildcard_closes_registration_witness :
  subscribe switchNode "on" "switchOnHandler" None forced_session
  = (Raise (BaseException "subscribe"), forced_session).
Proof.
  apply (forced_wildcard_closes_registration forced_session forced_session_reachable).
  vm_compute. reflexivity.
Defined.

(** C4 fails as worded: once the wildcard has been forced, a further
    subscription request is not recorded; the call is rejected and the
    subscription list stays as it was. *)
Lemma request_not_recorded_once_forced :
  subscribe_all_forced forced_session = true /\
  trace forced_session
  = [ Will_set "devices/xxxxxxxx/$online" (VStr "false") true;
      Connect (VStr "localhost") (VInt 1883) (VInt 60);
      Loop_start; Timer_start "uptimeTimer"; Timer_start "signalTimer";
      Subscribe_topic "devices/xxxxxxxx/#" 1 ]
    ++ announcement fresh_session example_env 1 5 70 /\
  fst (subscribe switchNode "on" "switchOnHandler" None forced_session)
  = Raise (BaseException "subscribe") /\
  subscriptions (exec (subscribe switchNode "on" "switchOnHandler" None) forced_session)
  = subscriptions forced_session /\
  subscriptions forced_session = [].
Proof. vm_compute. repeat split. Qed.

(** Outside the lifecycle, when the connected callback is invoked directly
    on a session whose [setup] was never called, the guard does not apply:
    the request is recorded, the recorded list is sent as one batch, and the
    wildcard is withdrawn. *)
Example subscribe_after_simulated_connection :
  added simulated_session
    (exec (subscribe switchNode "on" "switchOnHandler" None) simulated_session)
  = [ Subscribe [("devices/xxxxxxxx/switch/on/set", 1)];
      Unsubscribe "devices/xxxxxxxx/#";
      Message_callback_add "devices/xxxxxxxx/switch/on/set" "switchOnHandler" ].
Proof. vm_compute. reflexivity. Qed.

(** ** The signal-strength reader *)

Lemma scan_wireless_after i rest payload :
  (2 < i)%nat -> scan_wireless i rest payload = Return payload.
Proof.
  intros Hi. destruct rest as [|line rest]; [reflexivity|]. simpl.
  destruct (Nat.eqb_spec i 2); [lia|].
  destruct (Nat.ltb_spec 2 i); [reflexivity|lia].
Qed.

(** C9, as the code has it: the signal value is 100 when the file cannot
    be opened or has fewer than three lines; otherwise it is [int(float(f))]
    for the third blank-separated field [f] of the third line, whatever that
    number is; and when that line has fewer than three fields, or [f] is not
    a finite number, the reader raises instead of returning. *)
Theorem read_signal_spec (w : option (list string)) :
  read_signal w
  = match w with
    | None => Return 100
    | Some lines =>
        match lines !! 2%nat with
        | None => Return 100
        | Some line =>
            match py_split line !! 2%nat with
            | None => Raise IndexError
            | Some field => outcome_bind (float_of_str field) int_of_float
            end
        end
    end.
Proof.
  destruct w as [lines|]; [|reflexivity]. unfold read_signal.
  destruct lines as [|l0 [|l1 [|l2 rest]]]; try reflexivity.
  simpl. destruct (py_split l2 !! 2%nat) as [field|]; [|reflexivity].
  destruct (outcome_bind (float_of_str field) int_of_float) as [p|e]; [|reflexivity].
  simpl. apply scan_wireless_after. lia.
Qed.

(** C9 fails as worded: an interface line cut short makes the reader
    raise [IndexError], a link field that is not a number makes it raise
    [ValueError], and a link value above one hundred is published as is. *)
Lemma read_signal_raises_or_exceeds :
  read_signal (Some truncated_wireless) = Raise IndexError /\
  read_signal (Some garbled_wireless)
  = Raise (ValueError "could not convert string to float") /\
  read_signal (Some strong_wireless) = Return 250.
Proof. vm_compute. repeat split. Qed.

(** With such a file the connected callback stops at the signal: the
    announcement ends after [$stats/uptime]. *)
Lemma publishSignal_aborts env h e :
  read_signal (wireless env) = Raise e ->
  publishSignal env h = (Raise e, h).
Proof. apply publishSignal_raises. Qed.

(** ** Connecting with one retry *)

Lemma _initialize_run env h :
  let h1 := emit (initialize_prefix h ++ [connect_event h])
              (set_mqtt (install_callbacks (mqtt h)) h) in
  _initialize env h
  = match connect_result env 0 with
    | None => (Return tt, emit [Loop_start] h1)
    | Some e =>
        if is_EnvironmentError e then
          match connect_result env 1 with
          | None => (Return tt, emit [Sleep 10; connect_event h; Loop_start] h1)
          | Some e2 => (Raise e2, emit [Sleep 10; connect_event h] h1)
          end
        else (Raise e, h1)
    end.
Proof.
  intros h1. subst h1. destruct h as [at0 st fn fv ns ts subs forced si root sc co su mq tr].
  unfold _initialize, initialize_prefix, connect_event, mqtt_connect,
    try_except_EnvironmentError, topic_of, call, attr, emit.
  unfold bind, gets, modify, raise, ret, set_trace, set_mqtt.
  simpl.
  destruct (py_truthy (getattr at0 "username")); simpl;
    destruct (py_truthy (getattr at0 "ca_certs")); simpl;
    (destruct (connect_result env 0) as [e|];
     [destruct (is_EnvironmentError e);
      [destruct (connect_result env 1)|]|]);
    simpl; repeat (rewrite <- !app_assoc; simpl); reflexivity.
Qed.

Lemma setup_unfold env h :
  setup env h
  = (_initialize env;;
     interval <- gets statsInterval;;
     uptimeTimer <- Timer interval cb_publishUptime "uptimeTimer";;
     interval <- gets statsInterval;;
     signalTimer <- Timer interval cb_publishSignal "signalTimer";;
     call (Timer_start (t_name uptimeTimer));;
     call (Timer_start (t_name signalTimer))) (set_setupCalled true h).
Proof. reflexivity. Qed.

(** C6: when the first connect of [setup] fails with an environment-level
    error, the session waits ten seconds and connects once more, and that is
    all: exactly two attempts with one ten-second wait between them.  If the
    second attempt fails too, its error is what [setup] raises, and the
    transport loop is not started. *)
Theorem setup_retries_connect_once (h : Homie) (env : Env) (e : exn) :
  connect_result env 0 = Some e ->
  is_EnvironmentError e = true ->
  connection_attempts (added h (exec (setup env) h))
  = [connect_event h; Sleep 10; connect_event h] /\
  match connect_result env 1 with
  | Some e2 =>
      fst (setup env h) = Raise e2 /\
      forallb (fun ev => negb (is_Loop_start ev)) (added h (exec (setup env) h)) = true
  | None => fst (setup env h) = Return tt
  end.
Proof.
  intros H0 He.
  pose proof (_initialize_run env (set_setupCalled true h)) as R.
  cbv zeta in R. rewrite H0, He in R.
  unfold exec. rewrite setup_unfold.
  destruct (connect_result env 1) as [e2|].
  - rewrite (bind_Raise _ _ _ _ _ R). cbn [fst snd].
    unfold initialize_prefix, connect_event, added, attr, emit, set_trace, set_mqtt.
    cbn [trace attrs mqtt_topic set_setupCalled].
    destruct (py_truthy (getattr (attrs h) "username")),
             (py_truthy (getattr (attrs h) "ca_certs"));
      simpl; rewrite <- ?app_assoc; rewrite ?drop_app_length; simpl; repeat split; reflexivity.
  - rewrite (bind_Return _ _ _ _ _ R).
    unfold bind, gets, Timer, modify, call, ret.
    unfold initialize_prefix, connect_event, added, attr, emit, set_trace, set_mqtt, set_timers.
    cbn [fst snd trace attrs mqtt_topic set_setupCalled t_name].
    destruct (py_truthy (getattr (attrs h) "username")),
             (py_truthy (getattr (attrs h) "ca_certs"));
      simpl; rewrite <- ?app_assoc; rewrite ?drop_app_length; simpl; repeat split; reflexivity.
Qed.

Lemma setup_retries_connect_once_witness :
  connection_attempts (added fresh_session (exec (setup offline_env) fresh_session))
  = [Connect (VStr "localhost") (VInt 1883) (VInt 60); Sleep 10;
     Connect (VStr "localhost") (VInt 1883) (VInt 60)] /\
  fst (setup offline_env fresh_session) = Raise EnvironmentError.
Proof.
  destruct (setup_retries_connect_once fresh_session offline_env EnvironmentError)
    as [Hattempts Hout]; [reflexivity | reflexivity |].
  split; [exact Hattempts | apply Hout].
Defined.

(** ** Announcing again after a reconnect *)

Lemma publishes_app l1 l2 : publishes (l1 ++ l2) = publishes l1 ++ publishes l2.
Proof. apply omap_app. Qed.

Lemma publishes_node_announcements h q node :
  publishes (node_announcements h q node)
  = map (fun p => (String.concat "/" [mqtt_topic h; nodeId node; prop_name p], true))
        (properties node).
Proof.
  unfold node_announcements, publishes.
  induction (properties node) as [|p l IH]; simpl; [reflexivity|].
  f_equal. exact IH.
Qed.

Lemma publishes_property_announcements h q :
  publishes (property_announcements h q)
  = flat_map (fun n => map (fun p => (String.concat "/" [mqtt_topic h; nodeId n; prop_name p], true))
                          (properties n)) (nodes h).
Proof.
  unfold property_announcements.
  induction (nodes h) as [|n l IH]; [reflexivity|].
  simpl. rewrite publishes_app, publishes_node_announcements, IH. reflexivity.
Qed.

(** Topics and retain flags of an announcement do not depend on the
    payloads: not on the clock, the addresses, the signal or the quality of
    service. *)
Lemma publishes_announcement h env q u s :
  publishes (announcement h env q u s) = announced h.
Proof.
  unfold announcement, announced, identity_announcements, stats_announcements.
  rewrite !publishes_app, publishes_property_announcements.
  destruct (py_truthy (fwname h)), (py_truthy (fwversion h)); reflexivity.
Qed.

Lemma publishes_announcement_before_uptime h env q :
  publishes (announcement_before_uptime h env q) = announced_before_uptime h.
Proof.
  unfold announcement_before_uptime, announced_before_uptime, identity_announcements.
  rewrite !publishes_app, publishes_property_announcements.
  destruct (py_truthy (fwname h)), (py_truthy (fwversion h)); reflexivity.
Qed.

Lemma publishes_announce_sent h env q :
  publishes (announce_sent h env q)
  = match uptime env h with
    | Raise _ => announced_before_uptime h
    | Return _ =>
        match read_signal (wireless env) with
        | Raise _ => announced_before_signal h
        | Return _ => announced h
        end
    end.
Proof.
  unfold announce_sent, announcement_before_signal, announced_before_signal.
  destruct (uptime env h); [|apply publishes_announcement_before_uptime].
  destruct (read_signal (wireless env)); [apply publishes_announcement|].
  rewrite publishes_app, publishes_announcement_before_uptime. reflexivity.
Qed.

Lemma publishes_subscription_sequence h q : publishes (subscription_sequence h q) = [].
Proof.
  unfold subscription_sequence. destruct (subscriptions h); [reflexivity|].
  destruct (_ && _); reflexivity.
Qed.

(** What a session holds that an announcement depends on. *)
Lemma published_by_connected_ext h h' env :
  attrs h' = attrs h -> startTime h' = startTime h -> nodes h' = nodes h ->
  fwname h' = fwname h -> fwversion h' = fwversion h -> mqtt_topic h' = mqtt_topic h ->
  published_by_connected h' env = published_by_connected h env.
Proof.
  intros Ha Hst Hn Hfn Hfv Hm.
  unfold published_by_connected, announced, announced_before_signal, announced_before_uptime,
    uptime, attr.
  rewrite Ha, Hst, Hn, Hfn, Hfv, Hm. reflexivity.
Qed.

Lemma _connected_publishes h env :
  publishes (added h (exec (_connected env) h)) = published_by_connected h env /\
  forall env',
    published_by_connected (exec (_connected env) h) env' = published_by_connected h env'.
Proof.
  destruct (py_int (attr "qos" h)) as [q|e] eqn:Hq.
  - destruct (_connected_run h env q Hq)
      as (h' & Hrun & Ht & _ & _ & _ & Hn & Hfn & Hfv & Hm & Ha & Hst).
    unfold exec. rewrite Hrun. cbn [snd]. split.
    + unfold added. rewrite Ht, drop_app_length, publishes_app, publishes_announce_sent.
      unfold published_by_connected. rewrite Hq.
      destruct (_mqtt_subscribed h); [reflexivity|].
      rewrite publishes_subscription_sequence. reflexivity.
    + intros env'. apply published_by_connected_ext; assumption.
  - destruct (_connected_bad_qos env h e Hq) as (sent & Hrun & Hsent).
    unfold exec. rewrite Hrun. cbn [snd]. split.
    + rewrite (added_emit_through (set_mqtt_connected true)) by reflexivity.
      unfold published_by_connected. rewrite Hq. exact Hsent.
    + intros env'. apply published_by_connected_ext; reflexivity.
Qed.

(** C5, as the code has it: each run of the connected callback publishes
    the topics, in the order and with the retain flags, that the session and
    the environment of that run determine: the whole announcement, or the
    announcement up to where the uptime computation or the signal reader
    raises, or nothing when the quality of service does not convert.  The
    disconnected callback in between changes none of this; so with the same
    environment both runs publish the same sequence, and with different
    environments they do whenever both get equally far. *)
Theorem reconnect_announces_the_same (h : Homie) (env1 env2 : Env) :
  let h1 := exec (_connected env1) h in
  let h2 := exec _disconnected h1 in
  publishes (added h h1) = published_by_connected h env1 /\
  publishes (added h2 (exec (_connected env2) h2)) = published_by_connected h env2 /\
  publishes (added h1 (exec (_connected env2) h1)) = published_by_connected h env2 /\
  publishes (added h2 (exec (_connected env1) h2)) = publishes (added h h1) /\
  _mqtt_connected h2 = false /\ _mqtt_subscribed h2 = false.
Proof.
  intros h1 h2.
  destruct (_connected_publishes h env1) as (P1 & A1). fold h1 in P1, A1.
  assert (A2 : forall env, published_by_connected h2 env = published_by_connected h env).
  { intros env. rewrite <- A1. apply published_by_connected_ext; reflexivity. }
  destruct (_connected_publishes h1 env2) as (P2 & _).
  destruct (_connected_publishes h2 env2) as (P3 & _).
  destruct (_connected_publishes h2 env1) as (P4 & _).
  rewrite P1, P2, P3, P4, A1, !A2. repeat split.
Qed.

Lemma reconnect_announces_the_same_witness :
  publishes
    (added (exec _disconnected (exec (_connected example_env) example_session))
       (exec (_connected example_env)
          (exec _disconnected (exec (_connected example_env) example_session))))
  = publishes (added example_session (exec (_connected example_env) example_session)).
Proof.
  exact (proj1 (proj2 (proj2 (proj2
           (reconnect_announces_the_same example_session example_env example_env))))).
Defined.

(** C5 fails as worded: when the wireless file reads at the first
    connection but its interface line is cut short at the second, the first
    announcement has thirteen publishes and the second only eleven, ending
    at [$stats/uptime]. *)
Lemma reconnect_announces_less :
  let h1 := exec (_connected example_env) example_session in
  let h2 := exec _disconnected h1 in
  length (publishes (added example_session h1)) = 13%nat /\
  length (publishes (added h2 (exec (_connected truncated_env) h2))) = 11%nat /\
  publishes (added h2 (exec (_connected truncated_env) h2))
  = take 11 (publishes (added example_session h1)).
Proof. vm_compute. repeat split. Qed.

(** * Further properties of the session *)

(** ** Leaving *)

(** X1: the exit hook.  On a connected session it publishes [$online] =
    "false", retained, then stops the transport loop and disconnects; on a
    disconnected one it only stops the loop and disconnects, leaving the
    goodbye to the last will; and if the configured quality of service is not
    a number the publish raises first, so that the loop is never stopped. *)
Theorem _exitus_spec (h : Homie) :
  _exitus h
  = if _mqtt_connected h then
      match py_int (attr "qos" h) with
      | Return q =>
          (Return tt, emit [pub h q "/$online" (VStr "false"); Loop_stop; Disconnect] h)
      | Raise e => (Raise e, h)
      end
    else (Return tt, emit [Loop_stop; Disconnect] h).
Proof.
  destruct h as [at0 st fn fv ns ts subs forced si root sc co su mq tr].
  unfold _exitus, publish, topic_of, call, pub, attr, emit.
  unfold bind, gets, modify, lift, ret, set_trace. simpl.
  destruct co; simpl.
  - destruct (py_int (getattr at0 "qos")); simpl; rewrite <- ?app_assoc; reflexivity.
  - rewrite <- app_assoc. reflexivity.
Qed.

(** ** Setting up *)

(** X2: whatever becomes of the connection attempt, [_initialize] sends
    the last will first ([$online] = "false", retained: what the exit hook
    publishes), and hands over the credentials exactly when a user name is
    configured (a password alone is never sent) and the certificate exactly
    when one is configured. *)
Theorem _initialize_will_and_credentials (h : Homie) (env : Env) :
  let sent := added h (exec (_initialize env) h) in
  head sent = Some (Will_set (mqtt_topic h +:+ "/$online") (VStr "false") true) /\
  List.filter is_credential sent
  = (if py_truthy (attr "username" h)
     then [Username_pw_set (attr "username" h) (attr "password" h)] else [])
    ++ (if py_truthy (attr "ca_certs" h) then [Tls_set (attr "ca_certs" h)] else []).
Proof.
  cbv zeta. unfold exec. rewrite _initialize_run. cbv zeta.
  assert (E : forall l : list Event,
             added h (emit l (emit (initialize_prefix h ++ [connect_event h])
                                (set_mqtt (install_callbacks (mqtt h)) h)))
             = (initialize_prefix h ++ [connect_event h]) ++ l).
  { intros l. rewrite emit_emit. apply (added_emit_through (set_mqtt _)). reflexivity. }
  assert (E0 : added h (emit (initialize_prefix h ++ [connect_event h])
                          (set_mqtt (install_callbacks (mqtt h)) h))
               = (initialize_prefix h ++ [connect_event h]) ++ []).
  { rewrite app_nil_r. apply (added_emit_through (set_mqtt _)). reflexivity. }
  destruct (connect_result env 0) as [e|];
    [destruct (is_EnvironmentError e); [destruct (connect_result env 1)|]|];
    cbn [snd]; rewrite ?E, ?E0;
    unfold initialize_prefix, connect_event;
    destruct (py_truthy (attr "username" h)), (py_truthy (attr "ca_certs" h));
    split; reflexivity.
Qed.

Lemma bind_Timer {A} interval cb name (k : HomieTimer -> M A) h :
  bind (Timer interval cb name) k h
  = k {| t_interval := interval; t_callback := cb; t_name := name |}
      (set_timers (timers h ++ [{| t_interval := interval; t_callback := cb; t_name := name |}]) h).
Proof. reflexivity. Qed.

(** Two sessions with the same fields are the same. *)
Lemma Homie_ext (a b : Homie) :
  attrs a = attrs b -> startTime a = startTime b -> fwname a = fwname b ->
  fwversion a = fwversion b -> nodes a = nodes b -> timers a = timers b ->
  subscriptions a = subscriptions b -> subscribe_all_forced a = subscribe_all_forced b ->
  statsInterval a = statsInterval b -> mqtt_topic a = mqtt_topic b ->
  _setupCalled a = _setupCalled b -> _mqtt_connected a = _mqtt_connected b ->
  _mqtt_subscribed a = _mqtt_subscribed b -> mqtt a = mqtt b -> trace a = trace b ->
  a = b.
Proof. destruct a, b. simpl. intros. subst. reflexivity. Qed.

(** The end of [setup], once [_initialize] has returned. *)
Ltac setup_tail :=
  rewrite bind_gets, bind_Timer, bind_gets, bind_Timer, bind_call, call_run;
  f_equal; apply Homie_ext; simpl; rewrite <- ?app_assoc; reflexivity.

(** The whole of [setup], by the outcome of the connection attempts. *)
Lemma setup_run env h :
  let h1 := emit (initialize_prefix h ++ [connect_event h])
              (set_mqtt (install_callbacks (mqtt h)) (set_setupCalled true h)) in
  let finish l :=
    (Return tt,
     emit [Timer_start "uptimeTimer"; Timer_start "signalTimer"]
       (set_timers (timers h ++ stats_timers h) (emit l h1))) in
  setup env h
  = match connect_result env 0 with
    | None => finish [Loop_start]
    | Some e =>
        if is_EnvironmentError e then
          match connect_result env 1 with
          | None => finish [Sleep 10; connect_event h; Loop_start]
          | Some e2 => (Raise e2, emit [Sleep 10; connect_event h] h1)
          end
        else (Raise e, h1)
    end.
Proof.
  cbv zeta. rewrite setup_unfold.
  pose proof (_initialize_run env (set_setupCalled true h)) as R. cbv zeta in R.
  change (initialize_prefix (set_setupCalled true h)) with (initialize_prefix h) in R.
  change (connect_event (set_setupCalled true h)) with (connect_event h) in R.
  change (mqtt (set_setupCalled true h)) with (mqtt h) in R.
  destruct (connect_result env 0) as [e|];
    [destruct (is_EnvironmentError e); [destruct (connect_result env 1)|]|].
  - apply bind_Raise, R.
  - rewrite (bind_Return _ _ _ _ _ R).
    setup_tail.
  - apply bind_Raise, R.
  - rewrite (bind_Return _ _ _ _ _ R).
    setup_tail.
Qed.

(** X3: a connect that fails with anything but an environment-level error
    is not retried: [setup] raises that error after a single attempt, without
    waiting, without starting the transport loop and without creating the
    statistics timers; yet [setup] counts as called. *)
Theorem setup_does_not_retry_other_errors (h : Homie) (env : Env) (e : exn) :
  connect_result env 0 = Some e ->
  is_EnvironmentError e = false ->
  fst (setup env h) = Raise e /\
  connection_attempts (added h (exec (setup env) h)) = [connect_event h] /\
  forallb (fun ev => negb (is_Loop_start ev)) (added h (exec (setup env) h)) = true /\
  timers (exec (setup env) h) = timers h /\
  _setupCalled (exec (setup env) h) = true.
Proof.
  intros H0 He. unfold exec. rewrite setup_run. cbv zeta. rewrite H0, He. cbn [fst snd].
  rewrite (added_emit_through (fun h => set_mqtt _ (set_setupCalled true h))) by reflexivity.
  unfold initialize_prefix, connect_event.
  destruct (py_truthy (attr "username" h)), (py_truthy (attr "ca_certs" h));
    repeat split; reflexivity.
Qed.

Lemma setup_does_not_retry_other_errors_witness :
  fst (setup rejecting_env fresh_session) = Raise (ValueError "Invalid host.") /\
  connection_attempts (added fresh_session (exec (setup rejecting_env) fresh_session))
  = [Connect (VStr "localhost") (VInt 1883) (VInt 60)].
Proof.
  destruct (setup_does_not_retry_other_errors fresh_session rejecting_env
              (ValueError "Invalid host.") eq_refl eq_refl) as (Hout & Hatt & _).
  split; [exact Hout | exact Hatt].
Defined.

(** X4: when the first connect succeeds, [setup] sends the last will, the
    credentials and the certificate if configured, then connects once,
    starts the transport loop, and only then creates and starts the uptime
    and the signal timer, both at the statistics interval.  It returns with
    the connection flag untouched: the session counts as connected only once
    the transport reports it. *)
Theorem setup_connects_then_starts_timers (h : Homie) (env : Env) :
  connect_result env 0 = None ->
  exists h',
    setup env h = (Return tt, h') /\
    added h h'
    = initialize_prefix h
      ++ [connect_event h; Loop_start; Timer_start "uptimeTimer"; Timer_start "signalTimer"] /\
    timers h' = timers h ++ stats_timers h /\
    _setupCalled h' = true /\
    mqtt h' = install_callbacks (mqtt h) /\
    _mqtt_connected h' = _mqtt_connected h.
Proof.
  intros H0. eexists. split; [rewrite setup_run; cbv zeta; rewrite H0; reflexivity|].
  split; [|repeat split].
  unfold added. simpl. rewrite <- !app_assoc, drop_app_length.
  unfold initialize_prefix. repeat (rewrite <- ?app_assoc; simpl). reflexivity.
Qed.

Lemma setup_connects_then_starts_timers_witness :
  exists h',
    setup example_env fresh_session = (Return tt, h') /\
    added fresh_session h'
    = [ Will_set "devices/xxxxxxxx/$online" (VStr "false") true;
        Connect (VStr "localhost") (VInt 1883) (VInt 60);
        Loop_start; Timer_start "uptimeTimer"; Timer_start "signalTimer" ] /\
    _mqtt_connected h' = false.
Proof.
  destruct (setup_connects_then_starts_timers fresh_session example_env eq_refl)
    as (h' & Hrun & Hsent & _ & _ & _ & Hc).
  exists h'. split; [exact Hrun|]. split; [rewrite Hsent; reflexivity | exact Hc].
Defined.

(** X5: [setup] closes registration whatever its outcome: even when it
    raised because the broker could not be reached, every later [subscribe],
    [subscribeProperty] and [setFirmware] is rejected and changes nothing. *)
Theorem setup_closes_registration (h : Homie) (env : Env) :
  let h' := exec (setup env) h in
  forall node attribute callback qos_arg name version,
    subscribe node attribute callback qos_arg h' = (Raise (BaseException "subscribe"), h') /\
    subscribeProperty node attribute callback qos_arg h'
    = (Raise (BaseException "subscribeProperty"), h') /\
    setFirmware name version h' = (Raise (BaseException "setFirmware"), h').
Proof.
  intros h' node attribute callback qos_arg name version.
  assert (Hs : _setupCalled h' = true) by apply setup_sets_called.
  repeat split; apply bind_Raise, _checkBeforeSetup_raises, Hs.
Qed.

(** ** What [setup] freezes *)

Lemma registration_refl h : registration h h.
Proof. repeat split. Qed.

Lemma registration_trans h1 h2 h3 :
  registration h1 h2 -> registration h2 h3 -> registration h1 h3.
Proof. intros (A1 & B1 & C1) (A2 & B2 & C2). repeat split; congruence. Qed.

Lemma only_trace_registration h h' : only_trace h h' -> registration h h'.
Proof. intros [t ->]. repeat split. Qed.

#[export] Hint Resolve registration_refl registration_trans : footprint.

(** A method whose steps each keep [R]: the transport calls because they
    touch the trace only, the field updates by inspection. *)
Ltac footprint_by lem :=
  footprint;
  first [ apply (preserved_weaken only_trace _ _ lem); solve [eauto with footprint]
        | intros ?; repeat split ].

Lemma _subscribe_registration : preserved registration _subscribe.
Proof. unfold _subscribe. footprint_by only_trace_registration. Qed.

Lemma _connected_registration env : preserved registration (_connected env).
Proof.
  unfold _connected, publishHomieVersion, publishFwname, publishFwversion, publishNodes,
    publishLocalipAndMac, publishStatsInterval, publishImplementation.
  footprint;
    first [ apply _subscribe_registration
          | apply (preserved_weaken only_trace _ _ only_trace_registration);
            solve [eauto with footprint]
          | intros ?; repeat split ].
Qed.

Lemma setup_registration env : preserved registration (setup env).
Proof. unfold setup, _initialize, Timer. footprint_by only_trace_registration. Qed.

Lemma deliver_registration ev env : preserved registration (deliver ev env).
Proof.
  unfold deliver. footprint;
    match goal with |- preserved _ (run_method ?m _) => destruct m end;
    unfold run_method, _subscribed, _published, _disconnected;
    first [ apply _connected_registration | footprint_by only_trace_registration ].
Qed.

(** X6: once [setup] has been called, nothing that happens to the session
    (no call of its interface, no timer, no transport event) changes the
    firmware name and version or the list of recorded subscriptions. *)
Theorem registration_frozen_by_setup (h : Homie) (a : Action) (env : Env) :
  _setupCalled h = true ->
  fwname (exec (perform a env) h) = fwname h /\
  fwversion (exec (perform a env) h) = fwversion h /\
  subscriptions (exec (perform a env) h) = subscriptions h.
Proof.
  intros Hs. change (registration h (exec (perform a env) h)).
  destruct a as [nid ntype|name version|node attribute callback qos_arg
                 |node attribute callback qos_arg|node prop val retain_arg
                 |topic payload retain qos_arg| |cb|ev|]; simpl.
  - repeat split.
  - unfold exec, setFirmware.
    rewrite (bind_Raise _ _ _ _ _ (_checkBeforeSetup_raises _ h Hs)). apply registration_refl.
  - unfold exec, subscribe.
    rewrite (bind_Raise _ _ _ _ _ (_checkBeforeSetup_raises _ h Hs)). apply registration_refl.
  - unfold exec, subscribeProperty.
    rewrite (bind_Raise _ _ _ _ _ (_checkBeforeSetup_raises _ h Hs)). apply registration_refl.
  - apply only_trace_registration, setNodeProperty_only_trace.
  - apply only_trace_registration, publish_only_trace.
  - apply setup_registration.
  - apply only_trace_registration.
    destruct cb; [apply publishUptime_only_trace | apply publishSignal_only_trace].
  - apply deliver_registration.
  - apply only_trace_registration, _exitus_only_trace.
Qed.

Lemma registration_frozen_by_setup_witness :
  fwname (exec (perform (A_setFirmware (VStr "other") (VStr "2.0")) example_env)
            (exec (setup example_env) example_session))
  = VStr "relay-switch".
Proof.
  apply (registration_frozen_by_setup (exec (setup example_env) example_session)
           (A_setFirmware (VStr "other") (VStr "2.0")) example_env).
  apply setup_sets_called.
Defined.

(** ** Before [setup] *)

Lemma registers_only_refl h : registers_only h h.
Proof. intros Hc. split; [exact Hc|]. exists []. rewrite app_nil_r. split; reflexivity. Qed.

Lemma registers_only_trans h1 h2 h3 :
  registers_only h1 h2 -> registers_only h2 h3 -> registers_only h1 h3.
Proof.
  intros H12 H23 Hc. destruct (H12 Hc) as (Hc2 & l1 & T1 & F1).
  destruct (H23 Hc2) as (Hc3 & l2 & T2 & F2). split; [exact Hc3|].
  exists (l1 ++ l2). rewrite T2, T1, <- app_assoc, forallb_app, F1, F2. split; reflexivity.
Qed.

Lemma registers_only_same h h' :
  _mqtt_connected h' = _mqtt_connected h -> trace h' = trace h -> registers_only h h'.
Proof.
  intros E1 E2 Hc. rewrite E1, E2. split; [exact Hc|].
  exists []. rewrite app_nil_r. split; reflexivity.
Qed.

#[export] Hint Resolve registers_only_refl registers_only_trans : footprint.

Lemma gets_connected_registers {A} (f : bool -> M A) :
  preserved registers_only (f false) ->
  preserved registers_only (bind (gets _mqtt_connected) f).
Proof. intros Hf h Hc. unfold exec, bind, gets. rewrite Hc. apply Hf, Hc. Qed.

Lemma call_registers topic callback :
  preserved registers_only (call (Message_callback_add topic callback)).
Proof. intros h Hc. split; [exact Hc|]. eexists [_]. split; reflexivity. Qed.

Lemma modify_registers f :
  (forall h, _mqtt_connected (f h) = _mqtt_connected h /\ trace (f h) = trace h) ->
  preserved registers_only (modify f).
Proof.
  intros Hf h Hc. destruct (Hf h) as (E1 & E2). unfold exec, modify. simpl.
  rewrite E1, E2. apply registers_only_refl, Hc.
Qed.

Ltac footprint_registers :=
  repeat first
    [ solve [eauto 3 with footprint]
    | match goal with |- forall _, _ => intro end
    | match goal with
      | |- preserved _ (bind (gets _mqtt_connected) _) => apply gets_connected_registers
      | |- preserved _ (bind _ _) => apply preserved_bind
      | |- preserved _ (modify _) => apply modify_registers; intros ?; split; reflexivity
      | |- preserved _ (call (Message_callback_add _ _)) => apply call_registers
      | |- preserved _ (if ?b then _ else _) => destruct b
      | |- preserved _ (match ?x with _ => _ end) => destruct x
      | |- preserved _ (let _ := _ in _) => cbv zeta
      end ].

Lemma subscribe_registers node attribute callback qos_arg :
  preserved registers_only (subscribe node attribute callback qos_arg) /\
  preserved registers_only (subscribeProperty node attribute callback qos_arg).
Proof.
  split.
  - unfold subscribe, _checkBeforeSetup. footprint_registers.
  - unfold subscribeProperty, _checkBeforeSetup. footprint_registers.
Qed.

(** A timer that fires while the session is disconnected changes nothing. *)
Lemma timer_disconnected cb env h :
  _mqtt_connected h = false -> exec (perform (A_timer cb) env) h = h.
Proof.
  intros Hc. unfold exec. destruct cb; cbn [perform].
  - unfold publishUptime. rewrite bind_gets. unfold bind at 1, lift.
    destruct (int_of_float _); [|reflexivity].
    unfold topic_of. rewrite bind_gets, publish_disconnected by exact Hc. reflexivity.
  - unfold publishSignal. unfold bind at 1, lift.
    destruct (read_signal (wireless env)); [|reflexivity].
    unfold topic_of. rewrite bind_gets, publish_disconnected by exact Hc. reflexivity.
Qed.

Lemma _exitus_disconnected h :
  _mqtt_connected h = false -> _exitus h = (Return tt, emit [Loop_stop; Disconnect] h).
Proof.
  intros Hc. unfold _exitus, topic_of.
  rewrite bind_gets, (bind_Return _ _ _ _ _ (publish_disconnected _ _ _ _ h Hc)).
  rewrite bind_call, call_run, emit_emit. reflexivity.
Qed.

(** Every action but [setup], on a session that [setup] has not touched. *)
Lemma perform_registers a env h :
  is_setup a = false -> dormant h -> registers_only h (exec (perform a env) h).
Proof.
  intros Ha (Hc & _ & Hm).
  destruct a as [nid ntype|name version|node attribute callback qos_arg
                 |node attribute callback qos_arg|node prop val retain_arg
                 |topic payload retain qos_arg| |cb|ev|]; try discriminate; cbn [perform].
  - apply registers_only_same; reflexivity.
  - unfold exec, setFirmware, _checkBeforeSetup, bind, gets.
    destruct (_setupCalled h); simpl; apply registers_only_same; reflexivity.
  - apply subscribe_registers.
  - apply subscribe_registers.
  - unfold exec, setNodeProperty. rewrite bind_gets. cbv zeta.
    rewrite publish_disconnected by exact Hc. apply registers_only_refl.
  - unfold exec. rewrite publish_disconnected by exact Hc. apply registers_only_refl.
  - change (registers_only h (exec (perform (A_timer cb) env) h)).
    rewrite (timer_disconnected cb env h Hc). apply registers_only_refl.
  - unfold exec. rewrite deliver_no_callbacks by exact Hm. apply registers_only_refl.
  - intros _. unfold exec. rewrite (_exitus_disconnected h Hc). cbn [snd].
    split; [exact Hc|]. exists [Loop_stop; Disconnect]. split; reflexivity.
Qed.

(** X7: nothing reaches the broker before [setup].  In every state a
    session can be in while [setup] has not been called, the only calls ever
    made on the transport are the registration of message callbacks and, if
    the exit hook has run, its [loop_stop] and [disconnect]: no will, no
    connect, no subscribe, no unsubscribe and no publish, whatever was
    called and whatever timers or transport events occurred. *)
Theorem nothing_sent_before_setup (h : Homie) :
  reachable h ->
  _setupCalled h = false ->
  forallb is_local (trace h) = true.
Proof.
  induction 1 as [os config h i Hinit | h a env Hr IH]; intros Hs.
  - revert Hinit. rewrite Homie__init___unfold. intros E.
    destruct (finish_init_state os (configured os config)) as (l & _ & _ & Hret).
    destruct (Hret h) as (_ & _ & _ & _ & _ & _ & Ht); [rewrite E; reflexivity|].
    rewrite Ht. reflexivity.
  - assert (Hs0 : _setupCalled h = false).
    { destruct (_setupCalled h) eqn:E; [|reflexivity].
      destruct (perform_frame a env h) as (_ & _ & H). rewrite H in Hs by exact E. discriminate. }
    assert (Ha : is_setup a = false).
    { destruct a; try reflexivity. simpl in Hs. rewrite setup_sets_called in Hs. discriminate. }
    pose proof (reachable_lifecycle h Hr Hs0) as Hd.
    destruct (perform_registers a env h Ha Hd (proj1 Hd)) as (_ & l & -> & Hl).
    rewrite forallb_app, (IH Hs0), Hl. reflexivity.
Qed.

Lemma nothing_sent_before_setup_witness :
  forallb is_local
    (trace (exec (perform A_exit example_env)
              (exec (perform (A_subscribe switchNode "on" "switchOnHandler" None) example_env)
                 (exec (perform (A_publish "devices/xxxxxxxx/switch/on" (VStr "true") true None)
                          example_env) fresh_session))))
  = true.
Proof.
  apply nothing_sent_before_setup.
  - do 3 apply reachable_step. apply fresh_session_reachable.
  - reflexivity.
Defined.

(** ** From [setup] on *)

Lemma wiring_refl h : wiring h h.
Proof. split; reflexivity. Qed.

Lemma wiring_trans h1 h2 h3 : wiring h1 h2 -> wiring h2 h3 -> wiring h1 h3.
Proof. intros (A1 & B1) (A2 & B2). split; congruence. Qed.

Lemma only_trace_wiring h h' : only_trace h h' -> wiring h h'.
Proof. intros [t ->]. split; reflexivity. Qed.

#[export] Hint Resolve wiring_refl wiring_trans : footprint.

Lemma _subscribe_wiring : preserved wiring _subscribe.
Proof. unfold _subscribe. footprint_by only_trace_wiring. Qed.

Lemma _connected_wiring env : preserved wiring (_connected env).
Proof.
  unfold _connected, publishHomieVersion, publishFwname, publishFwversion, publishNodes,
    publishLocalipAndMac, publishStatsInterval, publishImplementation.
  footprint;
    first [ apply _subscribe_wiring
          | apply (preserved_weaken only_trace _ _ only_trace_wiring);
            solve [eauto with footprint]
          | intros ?; repeat split ].
Qed.

Lemma subscribe_wiring node attribute callback qos_arg :
  preserved wiring (subscribe node attribute callback qos_arg) /\
  preserved wiring (subscribeProperty node attribute callback qos_arg).
Proof.
  split.
  - unfold subscribe, _checkBeforeSetup.
    footprint; first [ apply _subscribe_wiring
                     | apply (preserved_weaken only_trace _ _ only_trace_wiring);
                       solve [eauto with footprint]
                     | intros ?; repeat split ].
  - unfold subscribeProperty, _checkBeforeSetup.
    footprint; first [ apply _subscribe_wiring
                     | apply (preserved_weaken only_trace _ _ only_trace_wiring);
                       solve [eauto with footprint]
                     | intros ?; repeat split ].
Qed.

Lemma deliver_wiring ev env : preserved wiring (deliver ev env).
Proof.
  unfold deliver. footprint;
    match goal with |- preserved _ (run_method ?m _) => destruct m end;
    unfold run_method, _subscribed, _published, _disconnected;
    first [ apply _connected_wiring | footprint_by only_trace_wiring ].
Qed.

Lemma perform_wiring a env h :
  is_setup a = false -> wiring h (exec (perform a env) h).
Proof.
  intros Ha.
  destruct a as [nid ntype|name version|node attribute callback qos_arg
                 |node attribute callback qos_arg|node prop val retain_arg
                 |topic payload retain qos_arg| |cb|ev|]; try discriminate; cbn [perform].
  - split; reflexivity.
  - unfold exec, setFirmware, _checkBeforeSetup, bind, gets.
    destruct (_setupCalled h) eqn:E; split; simpl; congruence.
  - apply subscribe_wiring.
  - apply subscribe_wiring.
  - apply only_trace_wiring, setNodeProperty_only_trace.
  - apply only_trace_wiring, publish_only_trace.
  - apply only_trace_wiring.
    destruct cb; [apply publishUptime_only_trace | apply publishSignal_only_trace].
  - apply deliver_wiring.
  - apply only_trace_wiring, _exitus_only_trace.
Qed.

Lemma setup_installs env h : callbacks_installed (mqtt (exec (setup env) h)).
Proof.
  unfold exec. rewrite setup_run. cbv zeta.
  destruct (connect_result env 0) as [e|];
    [destruct (is_EnvironmentError e); [destruct (connect_result env 1)|]|];
    repeat split.
Qed.

Lemma reachable_installed h :
  reachable h -> _setupCalled h = true -> callbacks_installed (mqtt h).
Proof.
  induction 1 as [os config h i Hinit | h a env Hr IH]; intros Hs.
  - destruct (init_dormant os config h i Hinit) as (E & _). congruence.
  - destruct (is_setup a) eqn:Ha.
    + destruct a; try discriminate. apply setup_installs.
    + destruct (perform_wiring a env h Ha) as (Em & Es).
      rewrite Em. apply IH. rewrite <- Es. exact Hs.
Qed.

(** X8: transport events are handled from [setup] on, and only then.  In
    every state of a session, a connection, subscription, publication or
    disconnection reported by the transport runs the matching callback if
    [setup] has been called, and is ignored if it has not. *)
Theorem transport_events_handled_from_setup_on (h : Homie) (ev : TransportEvent) (env : Env) :
  reachable h ->
  deliver ev env h
  = if _setupCalled h then run_method (method_of ev) env h else (Return tt, h).
Proof.
  intros Hr. destruct (_setupCalled h) eqn:Hs.
  - destruct (reachable_installed h Hr Hs) as (H1 & H2 & H3 & H4).
    unfold deliver. rewrite bind_gets. cbv zeta.
    destruct ev; simpl; rewrite ?H1, ?H2, ?H3, ?H4; reflexivity.
  - apply deliver_no_callbacks. apply (reachable_lifecycle h Hr Hs).
Qed.

Lemma transport_events_handled_from_setup_on_witness :
  deliver Connected example_env fresh_session = (Return tt, fresh_session) /\
  deliver Disconnected example_env (exec (setup example_env) fresh_session)
  = _disconnected (exec (setup example_env) fresh_session).
Proof.
  split.
  - apply (transport_events_handled_from_setup_on fresh_session Connected example_env
             fresh_session_reachable).
  - pose proof (transport_events_handled_from_setup_on
                  (exec (setup example_env) fresh_session) Disconnected example_env
                  (reachable_step fresh_session A_setup example_env fresh_session_reachable))
      as E.
    rewrite setup_sets_called in E. exact E.
Defined.

(** X9: the statistics timers are started by [setup], before the
    connection is reported, and may fire at any time.  While the session is
    disconnected a firing timer changes nothing and sends nothing; it
    returns normally unless its payload cannot be computed (the clock
    difference is not a finite number, the signal file fails to parse),
    which is found out before the connection is checked. *)
Theorem timers_idle_while_disconnected (h : Homie) (cb : TimerCallback) (env : Env) :
  _mqtt_connected h = false ->
  exec (perform (A_timer cb) env) h = h /\
  fst (perform (A_timer cb) env h)
  = match cb with
    | cb_publishUptime =>
        match uptime env h with
        | Return _ => Return tt
        | Raise e => Raise e
        end
    | cb_publishSignal =>
        match read_signal (wireless env) with
        | Return _ => Return tt
        | Raise e => Raise e
        end
    end.
Proof.
  intros Hc. split; [apply timer_disconnected, Hc|].
  destruct cb; cbn [perform].
  - unfold publishUptime, uptime. rewrite bind_gets. unfold bind at 1, lift.
    destruct (int_of_float _); [|reflexivity].
    unfold topic_of. rewrite bind_gets, publish_disconnected by exact Hc. reflexivity.
  - unfold publishSignal. unfold bind at 1, lift.
    destruct (read_signal (wireless env)); [|reflexivity].
    unfold topic_of. rewrite bind_gets, publish_disconnected by exact Hc. reflexivity.
Qed.

Lemma timers_idle_while_disconnected_witness :
  exec (perform (A_timer cb_publishSignal) example_env) (exec (setup example_env) fresh_session)
  = exec (setup example_env) fresh_session.
Proof.
  apply (timers_idle_while_disconnected (exec (setup example_env) fresh_session)
           cb_publishSignal example_env).
  reflexivity.
Defined.

(** ** Publishing and the quality of service *)

Lemma effective_qos_run qos_arg h :
  match qos_arg with
  | None => v <- gets (attr "qos");; lift (py_int v)
  | Some q => ret q
  end h = (effective_qos qos_arg h, h).
Proof. destruct qos_arg; reflexivity. Qed.

(** X10: [publish] in full.  Disconnected, it does nothing and returns.
    Connected, it hands exactly one publish to the transport, with the given
    topic, payload and retain flag, at the quality of service of the call or
    else the configured one; the configured one is consulted only when the
    call gives none, and if it is then not a number the call raises and
    nothing is sent. *)
Theorem publish_spec (h : Homie) (topic : string) (payload : pyval) (retain : bool)
    (qos_arg : option Z) :
  publish topic payload retain qos_arg h
  = if _mqtt_connected h then
      match effective_qos qos_arg h with
      | Return q => (Return tt, emit [Publish topic payload retain q] h)
      | Raise e => (Raise e, h)
      end
    else (Return tt, h).
Proof.
  unfold publish. rewrite bind_gets. destruct (_mqtt_connected h); [|reflexivity].
  unfold bind at 1. rewrite effective_qos_run.
  destruct (effective_qos qos_arg h); reflexivity.
Qed.



(** ** Registering subscriptions *)

Lemma _checkBeforeSetup_passes caller h :
  _setupCalled h = false -> _checkBeforeSetup caller h = (Return tt, h).
Proof. intros Hs. unfold _checkBeforeSetup, bind, gets. rewrite Hs. reflexivity. Qed.

(** What both registration methods do with the subscription topic, on a
    session that is neither set up nor connected. *)
Lemma register_offline (subscription callback : string) (q : Z) h :
  _mqtt_connected h = false ->
  (all <- gets (attr "subscribe_all");;
   (if negb (py_truthy all) then
      modify (fun h => set_subscriptions (subscriptions h ++ [(subscription, q)]) h)
    else ret tt);;
   connected <- gets _mqtt_connected;;
   (if connected then _subscribe else ret tt);;
   call (Message_callback_add subscription callback)) h
  = (Return tt,
     emit [Message_callback_add subscription callback]
       (if py_truthy (attr "subscribe_all" h) then h
        else set_subscriptions (subscriptions h ++ [(subscription, q)]) h)).
Proof.
  intros Hc. rewrite bind_gets.
  destruct (py_truthy (attr "subscribe_all" h)); simpl negb; cbv iota.
  - change (bind (ret tt) ?k h) with (k tt h). cbv beta.
    rewrite bind_gets, Hc. reflexivity.
  - rewrite bind_modify, bind_gets.
    change (_mqtt_connected (set_subscriptions _ h)) with (_mqtt_connected h).
    rewrite Hc. reflexivity.
Qed.

Lemma subscribe_offline h node attribute callback qos_arg q :
  _setupCalled h = false ->
  _mqtt_connected h = false ->
  effective_qos qos_arg h = Return q ->
  let topic := String.concat "/" [mqtt_topic h; nodeId node; attribute; "set"] in
  subscribe node attribute callback qos_arg h
  = (Return tt,
     emit [Message_callback_add topic callback]
       (if py_truthy (attr "subscribe_all" h) then h
        else set_subscriptions (subscriptions h ++ [(topic, q)]) h)).
Proof.
  intros Hs Hc Hq. cbv zeta. unfold subscribe.
  rewrite (bind_Return _ _ _ _ _ (_checkBeforeSetup_passes _ h Hs)).
  unfold bind at 1. rewrite effective_qos_run, Hq.
  rewrite bind_gets. cbv zeta. apply register_offline, Hc.
Qed.

Lemma subscribeProperty_offline h node attribute callback qos_arg q :
  _setupCalled h = false ->
  _mqtt_connected h = false ->
  effective_qos qos_arg h = Return q ->
  let topic := String.concat "/" [mqtt_topic h; nodeId node; attribute] in
  subscribeProperty node attribute callback qos_arg h
  = (Return tt,
     emit [Message_callback_add topic callback]
       (if py_truthy (attr "subscribe_all" h) then h
        else set_subscriptions (subscriptions h ++ [(topic, q)]) h)).
Proof.
  intros Hs Hc Hq. cbv zeta. unfold subscribeProperty.
  rewrite (bind_Return _ _ _ _ _ (_checkBeforeSetup_passes _ h Hs)).
  unfold bind at 1. rewrite effective_qos_run, Hq.
  rewrite bind_gets. cbv zeta. apply register_offline, Hc.
Qed.

(** X12: registering before [setup].  On a session that is neither set up
    nor connected, [subscribe] records the topic
    [root/nodeId/attribute/set] ([subscribeProperty]: without the [set]
    suffix) at the end of the subscription list, with the quality of service
    of the call or else the configured one, unless "subscribe all" is
    configured, in which case nothing is recorded; either way it registers
    the message callback for that topic, and sends no subscribe. *)
Theorem subscribe_records_before_setup (h : Homie) (node : HomieNode)
    (attribute callback : string) (qos_arg : option Z) (q : Z) :
  _setupCalled h = false ->
  _mqtt_connected h = false ->
  effective_qos qos_arg h = Return q ->
  let record topic :=
    (Return tt,
     emit [Message_callback_add topic callback]
       (if py_truthy (attr "subscribe_all" h) then h
        else set_subscriptions (subscriptions h ++ [(topic, q)]) h)) in
  subscribe node attribute callback qos_arg h
  = record (String.concat "/" [mqtt_topic h; nodeId node; attribute; "set"]) /\
  subscribeProperty node attribute callback qos_arg h
  = record (String.concat "/" [mqtt_topic h; nodeId node; attribute]).
Proof.
  intros Hs Hc Hq record. subst record. split.
  - apply subscribe_offline; assumption.
  - apply subscribeProperty_offline; assumption.
Qed.

Lemma subscribe_records_before_setup_witness :
  subscribe switchNode "on" "switchOnHandler" None fresh_session
  = (Return tt,
     emit [Message_callback_add "devices/xxxxxxxx/switch/on/set" "switchOnHandler"]
       (set_subscriptions [("devices/xxxxxxxx/switch/on/set", 1)] fresh_session)).
Proof.
  apply (subscribe_records_before_setup fresh_session switchNode "on" "switchOnHandler" None 1);
    reflexivity.
Defined.

(** ** Subscribing again *)

Lemma retained_not_subscription l :
  forallb is_retained l = true -> List.filter is_subscription l = [].
Proof.
  induction l as [|ev l IH]; [reflexivity|]. simpl. intros H.
  apply andb_true_iff in H as [Hev Hl]. destruct ev; try discriminate. simpl. apply IH, Hl.
Qed.

Lemma announce_sent_retained h env q : forallb is_retained (announce_sent h env q) = true.
Proof.
  pose proof (announcement_retained h env q 0 0) as H.
  assert (E : announcement h env q 0 0
              = announcement_before_uptime h env q
                ++ [pub h q "/$stats/uptime" (VInt 0); pub h q "/$stats/signal" (VInt 0);
                    pub h q "/$implementation" (VStr "homie-python")]).
  { unfold announcement, announcement_before_uptime, stats_announcements.
    rewrite <- !app_assoc. reflexivity. }
  rewrite E, forallb_app in H. apply andb_true_iff in H as [H _].
  unfold announce_sent, announcement_before_signal.
  destruct (uptime env h) as [u|]; [|exact H].
  destruct (read_signal (wireless env)) as [s|].
  - apply announcement_retained.
  - rewrite forallb_app, H. reflexivity.
Qed.

Lemma subscription_sent_all h : List.filter is_subscription (subscription_sent h) = subscription_sent h.
Proof.
  unfold subscription_sent. destruct (subscriptions h).
  - destruct (py_int (attr "qos" h)); reflexivity.
  - destruct (_ && _); reflexivity.
Qed.

Lemma subscription_sequence_sent h q :
  py_int (attr "qos" h) = Return q -> subscription_sequence h q = subscription_sent h.
Proof.
  intros Hq. unfold subscription_sequence, subscription_sent. rewrite Hq. reflexivity.
Qed.

(** The subscription calls of a connected callback, in every case. *)
Lemma _connected_subscription h env :
  List.filter is_subscription (added h (exec (_connected env) h))
  = if _mqtt_subscribed h then [] else subscription_sent h.
Proof.
  destruct (py_int (attr "qos" h)) as [q|e] eqn:Hq.
  - destruct (_connected_run h env q Hq) as (h' & Hrun & Ht & _).
    unfold exec. rewrite Hrun. cbn [snd]. unfold added.
    rewrite Ht, drop_app_length, List.filter_app.
    rewrite (retained_not_subscription _ (announce_sent_retained h env q)), app_nil_r.
    destruct (_mqtt_subscribed h); [reflexivity|].
    rewrite (subscription_sequence_sent h q Hq). apply subscription_sent_all.
  - unfold exec. rewrite _connected_unfold.
    set (h1 := set_mqtt_connected true h).
    assert (Hc1 : _mqtt_connected h1 = true) by reflexivity.
    assert (Hq1 : py_int (attr "qos" h1) = Raise e) by exact Hq.
    destruct (_mqtt_subscribed h); simpl negb; cbv iota.
    + change ((ret tt;; announce env) h1) with (announce env h1).
      rewrite (announce_raises env h1 e Hc1 Hq1). cbn [snd].
      unfold added. change (trace h1) with (trace h). rewrite drop_all. reflexivity.
    + unfold subscription_sent. rewrite Hq.
      destruct (subscriptions h) as [|s0 subs] eqn:E.
      * rewrite (bind_Raise _ _ _ _ _ (_subscribe_wildcard_raises h1 e E Hq1)). cbn [snd].
        unfold added. change (trace h1) with (trace h). rewrite drop_all. reflexivity.
      * assert (Hne : subscriptions h1 <> [])
          by (change (subscriptions h <> []); rewrite E; done).
        rewrite (bind_Return _ _ _ _ _ (_subscribe_recorded h1 Hne)).
        rewrite (announce_raises env (emit _ h1) e Hc1 Hq1). cbn [snd].
        rewrite (added_emit_through (set_mqtt_connected true)) by reflexivity.
        change (subscriptions h1) with (subscriptions h). rewrite E.
        change (subscribe_all_forced h1) with (subscribe_all_forced h).
        change (attr "subscribe_all" h1) with (attr "subscribe_all" h).
        change (mqtt_topic h1) with (mqtt_topic h).
        destruct (_ && _); reflexivity.
Qed.

(** X13: the subscription sequence is repeated only after a disconnect.
    Once the transport has confirmed a subscription, a further connected
    callback makes no subscribe or unsubscribe call at all; after the
    disconnected callback, the next connected callback makes the calls of
    the subscription sequence again: the recorded list (and the withdrawal
    of a forced wildcard), or the wildcard, or nothing if the wildcard is due
    and the quality of service does not convert. *)
Theorem subscription_repeated_only_after_disconnect (h : Homie) (env : Env) :
  let h1 := exec _subscribed h in
  let h2 := exec _disconnected h1 in
  List.filter is_subscription (added h1 (exec (_connected env) h1)) = [] /\
  List.filter is_subscription (added h2 (exec (_connected env) h2)) = subscription_sent h.
Proof.
  intros h1 h2.
  assert (E1 : h1 = if _mqtt_subscribed h then h else set_mqtt_subscribed true h).
  { subst h1. unfold exec, _subscribed. rewrite bind_gets.
    destruct (_mqtt_subscribed h); reflexivity. }
  assert (S1 : _mqtt_subscribed h1 = true).
  { rewrite E1. destruct (_mqtt_subscribed h) eqn:E; [exact E | reflexivity]. }
  assert (Q1 : subscription_sent h1 = subscription_sent h).
  { rewrite E1. destruct (_mqtt_subscribed h); reflexivity. }
  rewrite !_connected_subscription, S1. split; [reflexivity|].
  change (_mqtt_subscribed h2) with false. cbv iota.
  change (subscription_sent h2) with (subscription_sent h1). exact Q1.
Qed.

Lemma subscription_repeated_only_after_disconnect_witness :
  List.filter is_subscription
    (added (exec _disconnected (exec _subscribed example_session))
       (exec (_connected offline_env) (exec _disconnected (exec _subscribed example_session))))
  = [Subscribe [("devices/xxxxxxxx/switch/on/set", 1)]].
Proof.
  exact (proj2 (subscription_repeated_only_after_disconnect example_session offline_env)).
Defined.

(** ** What construction yields *)

Lemma validated_text os n v : exists dev, validated os n v = VStr dev.
Proof.
  unfold validated. destruct (isIdFormat v) eqn:E; [|eauto].
  destruct v; try discriminate. eauto.
Qed.

(** The configured attributes when [__init__] reaches the host check. *)
Lemma configured_lookup os config :
  let d := self_dict (configured os config) in
  getattr d "deviceId" = validated os 1 (lookup_pref os config "DEVICE_ID" (VStr "xxxxxxxx")) /\
  getattr d "host" = lookup_pref os config "HOST" VNone /\
  getattr d "port" = lookup_pref os config "PORT" (VInt 1883) /\
  getattr d "qos" = lookup_pref os config "QOS" (VInt 1) /\
  getattr d "subscribe_all" = lookup_pref os config "SUBSCRIBE_ALL" (VBool false) /\
  getattr d "baseTopic" = lookup_pref os config "TOPIC" (VStr "devices").
Proof.
  pose proof (resolved_dict_lookup os config
    (validated os 1 (lookup_pref os config "DEVICE_ID" (VStr "xxxxxxxx")))
    (placeholder_dict os)) as H.
  unfold DEFAULT_PREFS in H. rewrite !Forall_cons in H.
  destruct H as (_ & H2 & _ & H4 & _ & _ & H7 & H8 & H9 & H10 & _).
  rewrite decide_True in H2 by done.
  rewrite decide_False in H4 by done. rewrite decide_False in H7 by done.
  rewrite decide_False in H8 by done. rewrite decide_False in H9 by done.
  rewrite decide_False in H10 by done.
  exact (conj H2 (conj H4 (conj H7 (conj H8 (conj H9 H10))))).
Qed.

Lemma finish_init_run os i base dev :
  py_truthy (getattr (self_dict i) "host") = true ->
  getattr (self_dict i) "baseTopic" = VStr base ->
  getattr (self_dict i) "deviceId" = VStr dev ->
  finish_init os i
  = (Return (new_session os (self_dict i) base dev),
     mkInit (self_dict i) (generated i) (init_log i ++ [New_client ("Homie-" +:+ dev)])).
Proof.
  intros Hh Hb Hd. unfold finish_init.
  change (bind (gets self_dict) ?f i) with (f (self_dict i) i). cbv beta.
  rewrite Hh, Hb, Hd. reflexivity.
Qed.

Lemma finish_init_no_text_topic os i :
  py_truthy (getattr (self_dict i) "host") = true ->
  is_text (getattr (self_dict i) "baseTopic") = false ->
  finish_init os i = (Raise TypeError, i).
Proof.
  intros Hh Hb. unfold finish_init.
  change (bind (gets self_dict) ?f i) with (f (self_dict i) i). cbv beta.
  rewrite Hh. destruct (getattr (self_dict i) "baseTopic"); try discriminate; reflexivity.
Qed.

(** X14: the outcome of construction.  It fails with
    [ValueError("No host specified.")] when the resolved host is falsy, and
    otherwise with [TypeError] when the resolved base topic is not text (a
    number or [null] in the configuration file), in both cases before a
    transport client is created; in every other case it succeeds. *)
Theorem init_outcome (os : OS) (config : gmap string pyval) :
  let host := lookup_pref os config "HOST" VNone in
  let topic := lookup_pref os config "TOPIC" (VStr "devices") in
  let r := Homie__init__ os config init0 in
  if negb (py_truthy host) then fst r = Raise (ValueError "No host specified.")
  else if is_text topic then exists h, fst r = Return h
  else fst r = Raise TypeError /\
       forallb (fun ev => negb (is_New_client ev)) (init_log (snd r)) = true.
Proof.
  cbv zeta. rewrite Homie__init___unfold.
  destruct (configured_lookup os config) as (Hd & Hh & _ & _ & _ & Hb).
  destruct (py_truthy (lookup_pref os config "HOST" VNone)) eqn:T; simpl negb; cbv iota.
  - destruct (is_text (lookup_pref os config "TOPIC" (VStr "devices"))) eqn:X.
    + destruct (lookup_pref os config "TOPIC" (VStr "devices")) as [| | |base] eqn:B;
        try discriminate.
      destruct (validated_text os 1 (lookup_pref os config "DEVICE_ID" (VStr "xxxxxxxx")))
        as (dev & Hv).
      eexists. rewrite (finish_init_run os _ base dev); [reflexivity|..]; congruence.
    + rewrite finish_init_no_text_topic by congruence.
      split; [reflexivity | apply configured_no_client].
  - rewrite finish_init_no_host by congruence. reflexivity.
Qed.

Lemma init_outcome_witness :
  fst (Homie__init__ example_os numeric_topic_config init0) = Raise TypeError.
Proof.
  pose proof (init_outcome example_os numeric_topic_config) as H. cbv zeta in H.
  change (negb (py_truthy (lookup_pref example_os numeric_topic_config "HOST" VNone)))
    with false in H.
  change (is_text (lookup_pref example_os numeric_topic_config "TOPIC" (VStr "devices")))
    with false in H.
  exact (proj1 H).
Defined.

(** X15: what a constructed session starts from.  The topic root is
    [baseTopic/deviceId] and the transport client is named
    [Homie-deviceId], both from the identifier the [deviceId] setter kept;
    the client is the last thing construction creates; and the session starts
    disconnected, not set up, with no node, timer or subscription, no
    firmware, a statistics interval of sixty seconds and nothing sent. *)
Theorem init_derives_topic_and_client (os : OS) (config : gmap string pyval) (h : Homie) :
  fst (Homie__init__ os config init0) = Return h ->
  exists base dev,
    attr "baseTopic" h = VStr base /\ attr "deviceId" h = VStr dev /\
    h = new_session os (attrs h) base dev /\
    last (init_log (snd (Homie__init__ os config init0))) = Some (New_client ("Homie-" +:+ dev)).
Proof.
  rewrite Homie__init___unfold. intros E.
  destruct (configured_lookup os config) as (Hd & Hh & _ & _ & _ & Hb).
  destruct (validated_text os 1 (lookup_pref os config "DEVICE_ID" (VStr "xxxxxxxx")))
    as (dev & Hv).
  destruct (py_truthy (lookup_pref os config "HOST" VNone)) eqn:T.
  - destruct (lookup_pref os config "TOPIC" (VStr "devices")) as [| | |base] eqn:B;
      try (rewrite finish_init_no_text_topic in E
             by first [rewrite Hh; exact T | rewrite Hb; reflexivity];
           discriminate).
    rewrite (finish_init_run os _ base dev) in E |- * by congruence.
    injection E as <-. exists base, dev.
    split; [exact Hb|]. split.
    { change (getattr (self_dict (configured os config)) "deviceId" = VStr dev).
      rewrite Hd. exact Hv. }
    split; [reflexivity|].
    cbn [snd init_log]. apply last_snoc.
  - rewrite finish_init_no_host in E by congruence. discriminate.
Qed.

Lemma init_derives_topic_and_client_witness :
  exists base dev,
    attr "baseTopic" fresh_session = VStr base /\ attr "deviceId" fresh_session = VStr dev /\
    fresh_session = new_session example_os (attrs fresh_session) base dev /\
    last (init_log (snd (Homie__init__ example_os example_config init0)))
    = Some (New_client ("Homie-" +:+ dev)).
Proof.
  apply (init_derives_topic_and_client example_os example_config fresh_session).
  vm_compute. reflexivity.
Defined.

(** X16: values taken from the environment stay text.  A port given as
    [HOMIE_PORT] reaches the transport's [connect] as a string, not a
    number; [HOMIE_SUBSCRIBE_ALL] switches "subscribe all" on for every
    non-empty value, [false] and [0] included; and [HOMIE_QOS] is used
    through [int], so it works exactly when its text is an integer literal. *)
Theorem environment_values_stay_text (os : OS) (config : gmap string pyval) (h : Homie) :
  fst (Homie__init__ os config init0) = Return h ->
  (forall s, environ os !! "HOMIE_PORT" = Some s ->
     connect_event h = Connect (attr "host" h) (VStr s) (attr "keepalive" h)) /\
  (forall s, environ os !! "HOMIE_SUBSCRIBE_ALL" = Some s ->
     py_truthy (attr "subscribe_all" h) = negb (String.eqb s "")) /\
  (forall s, environ os !! "HOMIE_QOS" = Some s ->
     py_int (attr "qos" h) = int_of_str s).
Proof.
  rewrite Homie__init___unfold. intros E.
  destruct (finish_init_state os (configured os config)) as (l & _ & _ & Hret).
  destruct (Hret h E) as (Ha & _).
  destruct (configured_lookup os config) as (_ & _ & Hp & Hq & Hs & _).
  unfold connect_event, attr. rewrite Ha, Hp, Hq, Hs. unfold lookup_pref.
  change ("HOMIE_" +:+ "PORT") with "HOMIE_PORT".
  change ("HOMIE_" +:+ "SUBSCRIBE_ALL") with "HOMIE_SUBSCRIBE_ALL".
  change ("HOMIE_" +:+ "QOS") with "HOMIE_QOS".
  repeat split; intros s ->; reflexivity.
Qed.

Lemma container_session_constructed :
  fst (Homie__init__ container_os ∅ init0) = Return container_session.
Proof. vm_compute. reflexivity. Qed.

Lemma environment_values_stay_text_witness :
  connect_event container_session = Connect (VStr "broker") (VStr "1884") (VInt 60) /\
  py_truthy (attr "subscribe_all" container_session) = true /\
  py_int (attr "qos" container_session) = Return 2.
Proof.
  destruct (environment_values_stay_text container_os ∅ container_session
              container_session_constructed) as (Hp & Hs & Hq).
  split; [|split].
  - rewrite (Hp "1884" eq_refl). vm_compute. reflexivity.
  - apply (Hs "false" eq_refl).
  - apply (Hq "2" eq_refl).
Defined.

(** ** The configuration file *)

(** X17: [loadConfigFile] in full.  A file that cannot be opened for an
    environment-level reason is not an error: the result is the empty
    configuration, and no file is left open.  A file that opens is closed
    again whether or not its text parses, and the result, or the error
    raised, is the parser's. *)
Theorem loadConfigFile_spec (fs : FS) (configFile : string) (files : list FileEvent) :
  let path := realpath fs configFile in
  loadConfigFile fs configFile files
  = match open_file fs path with
    | Return text => (json_load fs text, files ++ [Opened path; Closed path])
    | Raise e => (if is_EnvironmentError e then Return ∅ else Raise e, files)
    end.
Proof.
  cbv zeta. unfold loadConfigFile. cbv zeta.
  destruct (open_file fs (realpath fs configFile)) as [text|e].
  - unfold bind, modify, lift. rewrite <- app_assoc. reflexivity.
  - destruct (is_EnvironmentError e); reflexivity.
Qed.

Lemma loadConfigFile_spec_witness :
  loadConfigFile garbled_fs "homie-python.json" []
  = (Raise (ValueError "Expecting property name"),
     [Opened "/srv/homie-python.json"; Closed "/srv/homie-python.json"]).
Proof. apply (loadConfigFile_spec garbled_fs "homie-python.json" []). Defined.

(** X18: a device started without its configuration file is configured
    from the environment and the defaults alone, so that its construction
    fails for want of a host exactly when [HOMIE_HOST] is unset or empty. *)
Theorem missing_file_needs_HOMIE_HOST (fs : FS) (os : OS) (configFile : string)
    (files : list FileEvent) :
  open_file fs (realpath fs configFile) = Raise EnvironmentError ->
  exists config,
    loadConfigFile fs configFile files = (Return config, files) /\
    (forall pref dflt,
       lookup_pref os config pref dflt
       = match environ os !! ("HOMIE_" +:+ pref) with Some s => VStr s | None => dflt end) /\
    is_no_host_error (fst (Homie__init__ os config init0))
    = match environ os !! "HOMIE_HOST" with
      | Some s => String.eqb s ""
      | None => true
      end.
Proof.
  intros Ho. exists ∅. split; [|split].
  - unfold loadConfigFile. cbv zeta. rewrite Ho. reflexivity.
  - intros pref dflt. unfold lookup_pref. rewrite lookup_empty. reflexivity.
  - rewrite Homie__init___unfold.
    assert (Hh : getattr (self_dict (configured os ∅)) "host"
                 = match environ os !! "HOMIE_HOST" with Some s => VStr s | None => VNone end).
    { rewrite configured_host. unfold lookup_pref. rewrite lookup_empty. reflexivity. }
    destruct (environ os !! "HOMIE_HOST") as [s|].
    + destruct (String.eqb s "") eqn:Es.
      * rewrite finish_init_no_host by (rewrite Hh; simpl; rewrite Es; reflexivity).
        reflexivity.
      * apply finish_init_host. rewrite Hh. simpl. rewrite Es. reflexivity.
    + rewrite finish_init_no_host by (rewrite Hh; reflexivity). reflexivity.
Qed.

Lemma missing_file_needs_HOMIE_HOST_witness :
  exists config,
    loadConfigFile empty_fs "homie-python.json" [] = (Return config, []) /\
    is_no_host_error (fst (Homie__init__ example_os config init0)) = true.
Proof.
  destruct (missing_file_needs_HOMIE_HOST empty_fs example_os "homie-python.json" [] eq_refl)
    as (config & Hload & _ & Hinit).
  exists config. split; [exact Hload | exact Hinit].
Defined.

(** ** The relay switch *)

(** X19: the switch handler.  It decodes the message bytes as UTF-8 and
    raises [UnicodeDecodeError], with nothing sent, if they are malformed.
    Otherwise, on a disconnected session it does nothing; on a connected one
    it publishes the node's [on] property exactly once, retained, at the
    configured quality of service: "true" when the text is [true] in any
    letter case, "false" for every other text; and raises instead, with
    nothing sent, if that quality of service does not convert. *)
Theorem switchOnHandler_spec (h : Homie) (switchNode : HomieNode) (msg_payload : string) :
  relay_switch.switchOnHandler switchNode msg_payload h
  = match decode_utf8 msg_payload with
    | Raise e => (Raise e, h)
    | Return text =>
        if _mqtt_connected h then
          match py_int (attr "qos" h) with
          | Return q =>
              (Return tt,
               emit [Publish (String.concat "/" [mqtt_topic h; nodeId switchNode; "on"])
                       (VStr (if String.eqb (py_lower text) "true" then "true" else "false"))
                       true q] h)
          | Raise e => (Raise e, h)
          end
        else (Return tt, h)
    end.
Proof.
  unfold relay_switch.switchOnHandler. unfold bind at 1, lift.
  destruct (decode_utf8 msg_payload) as [text|e]; [|reflexivity]. cbv zeta.
  destruct (_mqtt_connected h) eqn:Hc.
  - destruct (py_int (attr "qos" h)) as [q|e] eqn:Hq.
    + destruct (String.eqb (py_lower text) "true");
        unfold setNodeProperty; rewrite bind_gets; cbv zeta;
        apply (publish_ready q _ _ _ h (conj Hc Hq)).
    + destruct (String.eqb (py_lower text) "true");
        unfold setNodeProperty; rewrite bind_gets; cbv zeta;
        apply (publish_raises _ _ _ h e Hc Hq).
  - destruct (String.eqb (py_lower text) "true");
      unfold setNodeProperty; rewrite bind_gets; cbv zeta;
      apply (publish_disconnected _ _ _ _ h Hc).
Qed.

Lemma switchOnHandler_spec_witness :
  added (set_mqtt_connected true fresh_session)
    (exec (relay_switch.switchOnHandler switchNode "True") (set_mqtt_connected true fresh_session))
  = [Publish "devices/xxxxxxxx/switch/on" (VStr "true") true 1] /\
  relay_switch.switchOnHandler switchNode (String (ascii_of_nat 255) "")
    (set_mqtt_connected true fresh_session)
  = (Raise UnicodeDecodeError, set_mqtt_connected true fresh_session).
Proof.
  split.
  - unfold exec.
    rewrite (switchOnHandler_spec (set_mqtt_connected true fresh_session) switchNode "True").
    change (decode_utf8 "True") with (Return "True" : outcome string). cbv iota.
    change (_mqtt_connected (set_mqtt_connected true fresh_session)) with true. cbv iota.
    change (py_int (attr "qos" (set_mqtt_connected true fresh_session)))
      with (Return 1 : outcome Z).
    cbn [snd]. rewrite added_emit. reflexivity.
  - rewrite (switchOnHandler_spec (set_mqtt_connected true fresh_session) switchNode
               (String (ascii_of_nat 255) "")).
    reflexivity.
Defined.





(** ** The wildcard is never withdrawn *)

Lemma keeps_wildcard_refl h : keeps_wildcard h h.
Proof. intros H. split; [exact H|]. exists []. rewrite app_nil_r. split; reflexivity. Qed.

Lemma keeps_wildcard_trans h1 h2 h3 :
  keeps_wildcard h1 h2 -> keeps_wildcard h2 h3 -> keeps_wildcard h1 h3.
Proof.
  intros H12 H23 H1. destruct (H12 H1) as (H2 & l1 & T1 & F1).
  destruct (H23 H2) as (H3 & l2 & T2 & F2). split; [exact H3|].
  exists (l1 ++ l2). rewrite T2, T1, <- app_assoc, forallb_app, F1, F2. split; reflexivity.
Qed.

#[export] Hint Resolve keeps_wildcard_refl keeps_wildcard_trans : footprint.

Lemma call_keeps ev : is_Unsubscribe ev = false -> preserved keeps_wildcard (call ev).
Proof.
  intros Hev h H. split; [exact H|]. exists [ev]. split; [reflexivity|].
  simpl. rewrite Hev. reflexivity.
Qed.

Lemma modify_keeps f :
  (forall h, subscribe_all_forced (f h) = subscribe_all_forced h /\
             subscriptions (f h) = subscriptions h /\ trace (f h) = trace h) ->
  preserved keeps_wildcard (modify f).
Proof.
  intros Hf h H. destruct (Hf h) as (E1 & E2 & E3). unfold exec, modify. simpl. split.
  - unfold wildcard_alone. rewrite E1, E2. exact H.
  - exists []. rewrite app_nil_r. split; [exact E3 | reflexivity].
Qed.

Ltac footprint_keeps :=
  repeat first
    [ solve [eauto 3 with footprint]
    | match goal with |- forall _, _ => intro end
    | match goal with
      | |- preserved _ (bind _ _) => apply preserved_bind
      | |- preserved _ (try_except_EnvironmentError _ _) => apply preserved_try
      | |- preserved _ (for_each _ _) => apply preserved_for_each
      | |- preserved _ (modify _) => apply modify_keeps; intros ?; repeat split
      | |- preserved _ (call _) => apply call_keeps; reflexivity
      | |- preserved _ (if ?b then _ else _) => destruct b
      | |- preserved _ (match ?x with _ => _ end) => destruct x
      | |- preserved _ (let _ := _ in _) => cbv zeta
      end ].

Lemma publish_keeps topic payload retain qos_arg :
  preserved keeps_wildcard (publish topic payload retain qos_arg).
Proof. unfold publish. footprint_keeps. Qed.

#[export] Hint Resolve publish_keeps : footprint.

Lemma _subscribe_keeps : preserved keeps_wildcard _subscribe.
Proof.
  intros h H. unfold exec.
  destruct (subscriptions h) as [|s0 subs] eqn:E.
  - destruct (py_int (attr "qos" h)) as [q|e] eqn:Hq.
    + rewrite (_subscribe_wildcard h q E Hq). cbn [snd]. split.
      * intros _. exact E.
      * eexists [_]. split; reflexivity.
    + rewrite (_subscribe_wildcard_raises h e E Hq). apply keeps_wildcard_refl, H.
  - rewrite _subscribe_recorded by (rewrite E; done). cbn [snd].
    assert (Hf : subscribe_all_forced h = false).
    { destruct (subscribe_all_forced h) eqn:F; [|reflexivity].
      pose proof (H F) as H'. rewrite E in H'. discriminate. }
    rewrite Hf. simpl andb. cbv iota. split; [exact H|].
    eexists [_]. split; reflexivity.
Qed.

#[export] Hint Resolve _subscribe_keeps : footprint.

Lemma announce_keeps env : preserved keeps_wildcard (announce env).
Proof.
  unfold announce, publishHomieVersion, publishFwname, publishFwversion, publishNodes,
    publishLocalipAndMac, publishStatsInterval, publishUptime, publishSignal,
    publishImplementation, sendProperties, topic_of.
  footprint_keeps.
Qed.

#[export] Hint Resolve announce_keeps : footprint.

Lemma _connected_keeps env : preserved keeps_wildcard (_connected env).
Proof.
  intros h. unfold exec. rewrite _connected_unfold.
  assert (H : preserved keeps_wildcard
                ((if negb (_mqtt_subscribed h) then _subscribe else ret tt);; announce env)).
  { footprint_keeps. }
  eapply keeps_wildcard_trans; [|apply H].
  apply (modify_keeps (set_mqtt_connected true)). intros ?. repeat split.
Qed.

Lemma setup_keeps env : preserved keeps_wildcard (setup env).
Proof. unfold setup, _initialize, mqtt_connect, Timer, topic_of. footprint_keeps. Qed.

Lemma deliver_keeps ev env : preserved keeps_wildcard (deliver ev env).
Proof.
  unfold deliver. footprint_keeps;
    match goal with |- preserved _ (run_method ?m _) => destruct m end;
    unfold run_method, _subscribed, _published, _disconnected;
    first [ apply _connected_keeps | footprint_keeps ].
Qed.

Lemma registered_not_withdrawn l :
  forallb is_local l = true ->
  forallb (fun ev => negb (is_Unsubscribe ev)) l = true.
Proof.
  induction l as [|ev l IH]; [reflexivity|]. simpl.
  destruct ev; simpl; try discriminate; exact IH.
Qed.

Lemma setNodeProperty_keeps node prop val retain_arg :
  preserved keeps_wildcard (setNodeProperty node prop val retain_arg).
Proof. unfold setNodeProperty. footprint_keeps. Qed.

Lemma timer_keeps cb env : preserved keeps_wildcard (perform (A_timer cb) env).
Proof.
  destruct cb; cbn [perform]; unfold publishUptime, publishSignal, topic_of; footprint_keeps.
Qed.

Lemma _exitus_keeps : preserved keeps_wildcard _exitus.
Proof. unfold _exitus, topic_of. footprint_keeps. Qed.

Lemma perform_keeps a env h :
  reachable h -> keeps_wildcard h (exec (perform a env) h).
Proof.
  intros Hr.
  destruct a as [nid ntype|name version|node attribute callback qos_arg
                 |node attribute callback qos_arg|node prop val retain_arg
                 |topic payload retain qos_arg| |cb|ev|].
  - apply (modify_keeps (fun h => set_nodes (nodes h ++ [new_node nid ntype]) h)).
    intros ?. repeat split.
  - cbn [perform]. unfold exec, setFirmware, _checkBeforeSetup, bind, gets.
    destruct (_setupCalled h); simpl; [apply keeps_wildcard_refl|].
    apply (modify_keeps (set_fw name version)). intros ?. repeat split.
  - destruct (_setupCalled h) eqn:Hs.
    + cbn [perform]. unfold exec, subscribe.
      rewrite (bind_Raise _ _ _ _ _ (_checkBeforeSetup_raises _ h Hs)).
      apply keeps_wildcard_refl.
    + pose proof (reachable_lifecycle h Hr Hs) as Hd. intros _.
      destruct (perform_registers (A_subscribe node attribute callback qos_arg) env h
                  eq_refl Hd (proj1 Hd)) as (_ & l & Ht & Hl).
      destruct (subscribe_disconnected node attribute callback qos_arg h (proj1 Hd))
        as ((_ & Hf & _) & _).
      split.
      * intros Hf'. cbn [perform] in Hf'. rewrite Hf in Hf'.
        destruct Hd as (_ & Hd & _). congruence.
      * exists l. split; [exact Ht | apply registered_not_withdrawn, Hl].
  - destruct (_setupCalled h) eqn:Hs.
    + cbn [perform]. unfold exec, subscribeProperty.
      rewrite (bind_Raise _ _ _ _ _ (_checkBeforeSetup_raises _ h Hs)).
      apply keeps_wildcard_refl.
    + pose proof (reachable_lifecycle h Hr Hs) as Hd. intros _.
      destruct (perform_registers (A_subscribeProperty node attribute callback qos_arg) env h
                  eq_refl Hd (proj1 Hd)) as (_ & l & Ht & Hl).
      destruct (subscribe_disconnected node attribute callback qos_arg h (proj1 Hd))
        as (_ & (_ & Hf & _)).
      split.
      * intros Hf'. cbn [perform] in Hf'. rewrite Hf in Hf'.
        destruct Hd as (_ & Hd & _). congruence.
      * exists l. split; [exact Ht | apply registered_not_withdrawn, Hl].
  - apply setNodeProperty_keeps.
  - apply publish_keeps.
  - apply setup_keeps.
  - apply timer_keeps.
  - apply deliver_keeps.
  - apply _exitus_keeps.
Qed.

(** X21: the wildcard is never withdrawn.  In every state a session can be
    in, no unsubscribe has ever been sent, and wherever the wildcard was
    forced the subscription list is empty: the branch of the subscription
    sequence that withdraws the wildcard needs recorded subscriptions
    together with the forced flag, and the ordering check keeps the two
    apart. *)
Theorem wildcard_never_withdrawn (h : Homie) :
  reachable h ->
  forallb (fun ev => negb (is_Unsubscribe ev)) (trace h) = true /\
  (subscribe_all_forced h = true -> subscriptions h = []).
Proof.
  induction 1 as [os config h i Hinit | h a env Hr IH].
  - revert Hinit. rewrite Homie__init___unfold. intros E.
    destruct (finish_init_state os (configured os config)) as (l & _ & _ & Hret).
    destruct (Hret h) as (_ & _ & _ & _ & Hf & _ & Ht); [rewrite E; reflexivity|].
    rewrite Ht. split; [reflexivity|]. congruence.
  - destruct IH as (IHt & IHw).
    destruct (perform_keeps a env h Hr IHw) as (Hw & l & Ht & Hl).
    split; [|exact Hw]. rewrite Ht, forallb_app, IHt, Hl. reflexivity.
Qed.

Lemma wildcard_never_withdrawn_witness :
  forallb (fun ev => negb (is_Unsubscribe ev)) (trace forced_session) = true /\
  subscriptions forced_session = [].
Proof.
  destruct (wildcard_never_withdrawn forced_session forced_session_reachable) as (Ht & Hw).
  split; [exact Ht|]. apply Hw. vm_compute. reflexivity.
Defined.
